(** * TradeSensei: indicator library and stock screener

    A shallow embedding of the computational core of the repository:
    - [src/app.py]: [rsi], [supertrend], [volume_profile], [macd],
      [stochastic];
    - [src/utils/market_data.py]: [calculate_technical_indicators],
      [detect_breakouts], [get_nifty_breakouts], [get_market_status];
    - [src/utils/fundamentals.py]: [calculate_financial_score];
    - [src/utils/screener.py]: the [StockScreener] class.

    Numbers.  Python and NumPy floats are modelled by [pyfloat]: a rational
    (exact arithmetic, no rounding error) or one of the three IEEE special
    values.  The special values are what the properties below depend on
    (0/0 is NaN, x/0 is an infinity, every comparison with NaN is false);
    signed zeros and rounding are not modelled. *)

From Stdlib Require Import QArith Qabs Qround ZArith List String Lia Lqa Sorted Permutation.
From stdpp Require Import base gmap strings.
Import ListNotations.

Local Open Scope Q_scope.

(* ================================================================== *)
(** ** Floats with the IEEE special values *)
(* ================================================================== *)

Module PyFloat.

Inductive pyfloat : Type :=
| Finite (q : Q)
| PosInf
| NegInf
| NaN.

Definition Qltb (a b : Q) : bool := negb (Qle_bool b a).

Definition of_nat (n : nat) : pyfloat := Finite (inject_Z (Z.of_nat n)).

Definition is_nan (x : pyfloat) : bool :=
  match x with NaN => true | _ => false end.

(** [bool(x)] of a NumPy float: only zero is falsy; NaN is truthy. *)
Definition truthy (x : pyfloat) : bool :=
  match x with Finite q => negb (Qeq_bool q 0) | _ => true end.

(** [if v:] for a value that may be [None]. *)
Definition truthy_opt (v : option pyfloat) : bool :=
  match v with Some x => truthy x | None => false end.

Definition fneg (x : pyfloat) : pyfloat :=
  match x with
  | Finite q => Finite (- q)
  | PosInf => NegInf
  | NegInf => PosInf
  | NaN => NaN
  end.

Definition fadd (x y : pyfloat) : pyfloat :=
  match x, y with
  | NaN, _ | _, NaN => NaN
  | Finite a, Finite b => Finite (a + b)
  | PosInf, NegInf | NegInf, PosInf => NaN
  | PosInf, _ | _, PosInf => PosInf
  | NegInf, _ | _, NegInf => NegInf
  end.

Definition fsub (x y : pyfloat) : pyfloat := fadd x (fneg y).

(** An infinity times a finite [b]: NaN at zero, else the sign rule. *)
Definition scale_inf (positive : bool) (b : Q) : pyfloat :=
  if Qeq_bool b 0 then NaN
  else if Bool.eqb positive (Qltb 0 b) then PosInf else NegInf.

Definition fmul (x y : pyfloat) : pyfloat :=
  match x, y with
  | NaN, _ | _, NaN => NaN
  | Finite a, Finite b => Finite (a * b)
  | PosInf, Finite b | Finite b, PosInf => scale_inf true b
  | NegInf, Finite b | Finite b, NegInf => scale_inf false b
  | PosInf, PosInf | NegInf, NegInf => PosInf
  | PosInf, NegInf | NegInf, PosInf => NaN
  end.

(** NumPy division: no exception on a zero divisor. *)
Definition fdiv (x y : pyfloat) : pyfloat :=
  match x, y with
  | NaN, _ | _, NaN => NaN
  | Finite a, Finite b =>
      if Qeq_bool b 0 then
        if Qeq_bool a 0 then NaN else if Qltb 0 a then PosInf else NegInf
      else Finite (a / b)
  | Finite _, (PosInf | NegInf) => Finite 0
  | PosInf, Finite b => if Qltb b 0 then NegInf else PosInf
  | NegInf, Finite b => if Qltb b 0 then PosInf else NegInf
  | (PosInf | NegInf), (PosInf | NegInf) => NaN
  end.

Definition fabs (x : pyfloat) : pyfloat :=
  match x with
  | Finite q => Finite (Qabs q)
  | PosInf | NegInf => PosInf
  | NaN => NaN
  end.

(** [x < y]; false as soon as one side is NaN. *)
Definition fltb (x y : pyfloat) : bool :=
  match x, y with
  | NaN, _ | _, NaN => false
  | Finite a, Finite b => Qltb a b
  | NegInf, NegInf | PosInf, _ | _, NegInf => false
  | NegInf, _ | _, PosInf => true
  end.

(** [x <= y]; false as soon as one side is NaN. *)
Definition fleb (x y : pyfloat) : bool :=
  match x, y with
  | NaN, _ | _, NaN => false
  | Finite a, Finite b => Qle_bool a b
  | NegInf, _ | _, PosInf => true
  | PosInf, _ | _, NegInf => false
  end.

Definition fgtb (x y : pyfloat) : bool := fltb y x.
Definition fgeb (x y : pyfloat) : bool := fleb y x.

(** The float [x] is the finite number [q]. *)
Definition has_value (x : pyfloat) (q : Q) : Prop :=
  match x with Finite p => p == q | _ => False end.

End PyFloat.

Export PyFloat.

(* ================================================================== *)
(** ** pandas Series and rolling windows *)
(* ================================================================== *)

Module Pandas.

Definition Series : Type := list pyfloat.

(** [s.iloc[i]] for an index in range. *)
Definition iloc (s : Series) (i : nat) : pyfloat := nth i s NaN.

(** [s.iloc[-1]]: [None] stands for the IndexError of an empty Series. *)
Definition iloc_last {A : Type} (s : list A) : option A :=
  List.last (map Some s) None.

(** [s.iloc[-2]]. *)
Definition iloc_last2 {A : Type} (s : list A) : option A :=
  iloc_last (removelast s).

Definition zip_with {A B C : Type} (f : A -> B -> C) (l : list A) (m : list B)
  : list C :=
  map (fun p => f (fst p) (snd p)) (combine l m).

(** [s.diff()]: the first entry has no predecessor. *)
Definition diff (s : Series) : Series :=
  match s with
  | [] => []
  | _ :: rest => NaN :: zip_with (fun prev cur => fsub cur prev) s rest
  end.

(** [s.where(cond, other)]. *)
Definition where_ (cond : pyfloat -> bool) (other : pyfloat) (s : Series)
  : Series :=
  map (fun x => if cond x then x else other) s.

(** The [w] observations that end at position [i], when there are that
    many. *)
Definition window_at (s : Series) (w i : nat) : option (list pyfloat) :=
  if (w <=? S i)%nat then Some (firstn w (skipn (S i - w) s)) else None.

(** [s.rolling(window=w).agg()] with the default [min_periods = w]: NaN
    until [w] observations are there, and NaN when one of them is NaN. *)
Definition rolling (agg : list pyfloat -> pyfloat) (s : Series) (w : nat)
  : Series :=
  map (fun i => match window_at s w i with
                | Some obs => if existsb is_nan obs then NaN else agg obs
                | None => NaN
                end)
      (seq 0 (length s)).

Definition fsum (obs : list pyfloat) : pyfloat := fold_left fadd obs (Finite 0).

Definition mean (obs : list pyfloat) : pyfloat :=
  fdiv (fsum obs) (of_nat (length obs)).

Definition fmax (obs : list pyfloat) : pyfloat :=
  match obs with
  | [] => NaN
  | x :: rest => fold_left (fun m y => if fltb m y then y else m) rest x
  end.

Definition fmin (obs : list pyfloat) : pyfloat :=
  match obs with
  | [] => NaN
  | x :: rest => fold_left (fun m y => if fltb y m then y else m) rest x
  end.

End Pandas.

Export Pandas.

(* ================================================================== *)
(** ** src/app.py: the indicator functions *)
(* ================================================================== *)

Module Indicators.

(** One OHLCV bar of a price DataFrame; prices and volumes of a fetched
    bar are finite numbers. *)
Record Bar : Type := mkBar {
  Open : Q;
  High : Q;
  Low : Q;
  Close : Q;
  Volume : Q
}.

Definition DataFrame : Type := list Bar.

(** [df['High']] and the like. *)
Definition column (f : Bar -> Q) (df : DataFrame) : Series :=
  map (fun b => Finite (f b)) df.

(** *** rsi *)

(** [100 - (100 / (1 + avg_gain / avg_loss))] *)
Definition rsi_formula (avg_gain avg_loss : pyfloat) : pyfloat :=
  let rs := fdiv avg_gain avg_loss in
  fsub (Finite 100) (fdiv (Finite 100) (fadd (Finite 1) rs)).

Definition rsi (close : Series) (window : nat) : Series :=
  let delta := diff close in
  let gain := where_ (fun d => fgtb d (Finite 0)) (Finite 0) delta in
  let loss := map fneg (where_ (fun d => fltb d (Finite 0)) (Finite 0) delta) in
  let avg_gain := rolling mean gain window in
  let avg_loss := rolling mean loss window in
  zip_with rsi_formula avg_gain avg_loss.

(** *** supertrend *)

Definition hl2 (df : DataFrame) : Series :=
  map (fun x => fdiv x (Finite 2))
      (zip_with fadd (column High df) (column Low df)).

(** The band-width proxy the code calls [atr]. *)
Definition atr (df : DataFrame) (period : nat) : Series :=
  let raw := zip_with fsub (rolling fmax (column High df) period)
                           (rolling fmin (column Low df) period) in
  rolling mean raw period.

Definition upper_band (df : DataFrame) (period : nat) (multiplier : Q) : Series :=
  zip_with fadd (hl2 df) (map (fmul (Finite multiplier)) (atr df period)).

Definition lower_band (df : DataFrame) (period : nat) (multiplier : Q) : Series :=
  zip_with fsub (hl2 df) (map (fmul (Finite multiplier)) (atr df period)).

(** The two tests of the loop body, in the order of the source. *)
Definition next_trend (close upper lower : Series) (i : nat) (in_uptrend : bool)
  : bool :=
  if fgtb (iloc close i) (iloc upper (i - 1)) then true
  else if fltb (iloc close i) (iloc lower (i - 1)) then false
  else in_uptrend.

Definition emit (upper lower : Series) (i : nat) (in_uptrend : bool)
  : pyfloat * Z :=
  if in_uptrend then (iloc lower i, 1%Z) else (iloc upper i, (-1)%Z).

(** The iterations [i = 1, 2, ...] of the loop, [in_uptrend] carried
    along. *)
Fixpoint supertrend_loop (close upper lower : Series) (indices : list nat)
  (in_uptrend : bool) : list (pyfloat * Z) :=
  match indices with
  | [] => []
  | i :: rest =>
      let in_uptrend := next_trend close upper lower i in_uptrend in
      emit upper lower i in_uptrend
        :: supertrend_loop close upper lower rest in_uptrend
  end.

(** Returns [(supertrend_values, trend_direction)]. *)
Definition supertrend (df : DataFrame) (period : nat) (multiplier : Q)
  : Series * list Z :=
  let upper := upper_band df period multiplier in
  let lower := lower_band df period multiplier in
  let out :=
    match length df with
    | O => []
    | S n =>
        (iloc (hl2 df) 0, 1%Z)
          :: supertrend_loop (column Close df) upper lower (seq 1 n) true
    end in
  (map fst out, map snd out).

(** *** volume_profile *)

(** [np.linspace(start, stop, num)]: [num] points, the last one set to
    [stop]. *)
Definition linspace (start stop : pyfloat) (num : nat) : Series :=
  match num with
  | O => []
  | S O => [start]
  | S (S _ as div) =>
      let step := fdiv (fsub stop start) (of_nat div) in
      map (fun i => fadd (fmul (of_nat i) step) start) (seq 0 div) ++ [stop]
  end.

Record VolumeLevel : Type := mkLevel {
  vp_price : pyfloat;
  vp_volume : Q
}.

(** [volume[mask].sum()] with
    [mask = (close >= level_low) & (close < level_high)]. *)
Definition level_volume (close volume : list Q) (level_low level_high : pyfloat)
  : Q :=
  fold_left Qplus
    (map snd
       (List.filter (fun cv => fgeb (Finite (fst cv)) level_low
                               && fltb (Finite (fst cv)) level_high)
                    (combine close volume)))
    0.

Definition volume_profile (close volume : list Q) (bins : nat)
  : list VolumeLevel :=
  let price_min := fmin (map Finite close) in
  let price_max := fmax (map Finite close) in
  let price_levels := linspace price_min price_max bins in
  map (fun i =>
         let level_low := iloc price_levels i in
         let level_high := iloc price_levels (i + 1) in
         mkLevel (fdiv (fadd level_low level_high) (Finite 2))
                 (level_volume close volume level_low level_high))
      (seq 0 (length price_levels - 1)).

End Indicators.

(* ================================================================== *)
(** ** src/utils/market_data.py *)
(* ================================================================== *)

Module MarketData.

Import Indicators.

(** A price DataFrame with the indicator columns that
    [calculate_technical_indicators] adds; [None] is a column that is not
    in the frame.  The Bollinger columns (a rolling standard deviation)
    and the two EMA columns are read by no screen and are left out. *)
Record TechnicalFrame : Type := mkFrame {
  bars : DataFrame;
  SMA_20 : option Series;
  SMA_50 : option Series;
  MACD : option Series;
  MACD_Signal : option Series;
  RSI : option Series
}.

(** [technical.empty] *)
Definition empty (technical : TechnicalFrame) : bool :=
  match bars technical with [] => true | _ => false end.

(** The frame as fetched, without indicator columns. *)
Definition raw_frame (data : DataFrame) : TechnicalFrame :=
  mkFrame data None None None None None.

(** [s.ewm(span=span).mean()] with pandas' default [adjust=True]:
    the weighted mean with weights [(1 - alpha)^k], [alpha = 2/(span+1)],
    computed from its running numerator and denominator. *)
Fixpoint ewm_loop (decay : Q) (xs : list Q) (num den : Q) : list Q :=
  match xs with
  | [] => []
  | x :: rest =>
      let num := x + decay * num in
      let den := 1 + decay * den in
      (num / den) :: ewm_loop decay rest num den
  end.

Definition ewm_mean (span : Q) (xs : list Q) : list Q :=
  ewm_loop (1 - 2 / (span + 1)) xs 0 0.

(** The body of the [try]; on the typed frame none of its operations
    raises, so the [except] branch, which returns [raw_frame data], is not
    reached. *)
Definition calculate_technical_indicators (data : DataFrame) : TechnicalFrame :=
  let close := map Close data in
  let sma_20 := rolling mean (map Finite close) 20 in
  let sma_50 := rolling mean (map Finite close) 50 in
  let ema_12 := ewm_mean 12 close in
  let ema_26 := ewm_mean 26 close in
  let macd := zip_with Qminus ema_12 ema_26 in
  let macd_signal := ewm_mean 9 macd in
  let delta := diff (map Finite close) in
  let gain :=
    rolling mean (where_ (fun d => fgtb d (Finite 0)) (Finite 0) delta) 14 in
  let loss :=
    rolling mean
      (map fneg (where_ (fun d => fltb d (Finite 0)) (Finite 0) delta)) 14 in
  let rs := zip_with fdiv gain loss in
  let rsi :=
    map (fun r => fsub (Finite 100) (fdiv (Finite 100) (fadd (Finite 1) r))) rs in
  mkFrame data (Some sma_20) (Some sma_50) (Some (map Finite macd))
          (Some (map Finite macd_signal)) (Some rsi).

End MarketData.

(* ================================================================== *)
(** ** src/utils/fundamentals.py *)
(* ================================================================== *)

Module Fundamentals.

Local Open Scope Z_scope.

(** The entries of the dictionary built by [get_fundamental_data] that the
    score and the screens read, the nested dictionaries flattened.  A
    ratio is [None] when the provider has no value for it. *)
Record FundamentalData : Type := mkFundamental {
  company_name : string;
  sector : string;
  market_cap : pyfloat;
  pe_ratio : option pyfloat;
  price_to_book : option pyfloat;
  roe : option pyfloat;
  profit_margin : option pyfloat;
  debt_to_equity : option pyfloat;
  current_ratio : option pyfloat;
  revenue_growth : option pyfloat;
  earnings_growth : option pyfloat;
  dividend_yield : option pyfloat
}.

Record FinancialScore : Type := mkScore {
  total_score : Z;
  max_score : Z;
  percentage : Q;
  rating : string
}.

(** [lo <= x <= hi] *)
Definition between (lo x hi : pyfloat) : bool := fleb lo x && fleb x hi.

(** [if v: ...] where the branches add points; nothing when [v] is falsy. *)
Definition when_truthy (v : option pyfloat) (points : pyfloat -> Z) : Z :=
  match v with
  | Some x => if truthy x then points x else 0
  | None => 0
  end.

Definition valuation_points (fd : FundamentalData) : Z :=
  when_truthy (pe_ratio fd) (fun pe =>
    if between (Finite 10) pe (Finite 25) then 15
    else if (fleb (Finite 5) pe && fltb pe (Finite 10))
            || (fltb (Finite 25) pe && fleb pe (Finite 35)) then 10
    else if fltb pe (Finite 5) || fgtb pe (Finite 35) then 5
    else 0)
  + when_truthy (price_to_book fd) (fun pb =>
      if between (Finite 1) pb (Finite 3) then 10
      else if (fleb (Finite (1 # 2)) pb && fltb pb (Finite 1))
              || (fltb (Finite 3) pb && fleb pb (Finite 5)) then 5
      else 0).

Definition profitability_points (fd : FundamentalData) : Z :=
  when_truthy (roe fd) (fun r =>
    if fgeb r (Finite (15 # 100)) then 15
    else if fgeb r (Finite (10 # 100)) then 10
    else if fgeb r (Finite (5 # 100)) then 5
    else 0)
  + when_truthy (profit_margin fd) (fun m =>
      if fgeb m (Finite (15 # 100)) then 10
      else if fgeb m (Finite (10 # 100)) then 7
      else if fgeb m (Finite (5 # 100)) then 5
      else 0).

Definition financial_health_points (fd : FundamentalData) : Z :=
  match debt_to_equity fd with
  | Some de =>
      if fleb de (Finite (1 # 2)) then 15
      else if fleb de (Finite 1) then 10
      else if fleb de (Finite 2) then 5
      else 0
  | None => 0
  end
  + when_truthy (current_ratio fd) (fun c =>
      if fgeb c (Finite (3 # 2)) then 10
      else if fgeb c (Finite 1) then 7
      else 0).

Definition growth_tier (g : pyfloat) : Z :=
  if fgeb g (Finite (20 # 100)) then 10
  else if fgeb g (Finite (10 # 100)) then 7
  else if fgeb g (Finite (5 # 100)) then 5
  else 0.

Definition growth_points (fd : FundamentalData) : Z :=
  when_truthy (revenue_growth fd) growth_tier
  + when_truthy (earnings_growth fd) growth_tier.

Definition dividend_points (fd : FundamentalData) : Z :=
  when_truthy (dividend_yield fd) (fun y =>
    if fgtb y (Finite 0) then
      if between (Finite (2 # 100)) y (Finite (6 # 100)) then 5
      else if fgtb y (Finite 0) then 3
      else 0
    else 0).

Definition rating_of (percentage_score : Q) : string :=
  if Qle_bool 80 percentage_score then "Excellent"
  else if Qle_bool 70 percentage_score then "Good"
  else if Qle_bool 60 percentage_score then "Average"
  else if Qle_bool 50 percentage_score then "Below Average"
  else "Poor".

Definition calculate_financial_score (fd : FundamentalData) : FinancialScore :=
  let total := valuation_points fd + profitability_points fd
               + financial_health_points fd + growth_points fd
               + dividend_points fd in
  let max_total := 25 + 25 + 25 + 20 + 5 in
  let percentage_score :=
    (inject_Z total / inject_Z max_total * 100)%Q in
  mkScore total max_total percentage_score (rating_of percentage_score).

End Fundamentals.

(* ================================================================== *)
(** ** Python: exceptions, [list.sort] and [round] *)
(* ================================================================== *)

Module Python.

(** What a call does: it returns a value or raises. *)
Inductive exn : Type :=
| KeyError (key : string)
| IndexError.

Inductive outcome (A : Type) : Type :=
| Returned (value : A)
| Raised (e : exn).

Arguments Returned {A} value.
Arguments Raised {A} e.

Section Sort.

Context {A K : Type}.
Variable lt : K -> K -> bool.
Variable key : A -> K.

(** [y], already in the sorted list, stays in front of the new element
    [x] when its key is strictly smaller (strictly greater with
    [reverse=True]); on equal keys [x], which comes from an earlier
    position, goes first. *)
Definition stays_in_front (reverse : bool) (y x : A) : bool :=
  if reverse then lt (key x) (key y) else lt (key y) (key x).

Fixpoint insert_sorted (reverse : bool) (x : A) (sorted : list A) : list A :=
  match sorted with
  | [] => [x]
  | y :: rest =>
      if stays_in_front reverse y x then y :: insert_sorted reverse x rest
      else x :: y :: rest
  end.

(** [l.sort(key=key, reverse=reverse)].  Python's sort is stable, also
    with [reverse=True]; for keys without NaN the stable sort of a list is
    unique, and it is computed here by insertion from the right. *)
Definition list_sort (reverse : bool) (l : list A) : list A :=
  fold_right (insert_sorted reverse) [] l.

End Sort.

(** Round half to even. *)
Definition round_half_even (q : Q) : Z :=
  let f := Qfloor q in
  let r := q - inject_Z f in
  if Qltb r (1 # 2) then f
  else if Qltb (1 # 2) r then (f + 1)%Z
  else if Z.even f then f else (f + 1)%Z.

(** [round(x, ndigits)] on the exact value of [x]. *)
Definition round (x : pyfloat) (ndigits : nat) : pyfloat :=
  match x with
  | Finite q =>
      let scale := inject_Z (10 ^ Z.of_nat ndigits) in
      Finite (inject_Z (round_half_even (q * scale)) / scale)
  | _ => x
  end.

End Python.

Export Python.

(* ================================================================== *)
(** ** src/utils/screener.py *)
(* ================================================================== *)

Module Screener.

Import Indicators MarketData Fundamentals.

Definition INDIAN_STOCKS : list string :=
  ["RELIANCE"; "TCS"; "HDFCBANK"; "INFY"; "HINDUNILVR"; "ICICIBANK"; "KOTAKBANK";
   "SBIN"; "BHARTIARTL"; "ITC"; "ASIANPAINT"; "LT"; "AXISBANK"; "MARUTI";
   "SUNPHARMA"; "TITAN"; "ULTRACEMCO"; "WIPRO"; "NESTLEIND"; "POWERGRID";
   "TATAMOTORS"; "ONGC"; "NTPC"; "TECHM"; "HCLTECH"; "DIVISLAB"; "CIPLA";
   "DRREDDY"; "BAJFINANCE"; "BAJAJFINSV"; "COALINDIA"; "IOC"; "GRASIM";
   "JSWSTEEL"; "HINDALCO"; "INDUSINDBK"; "ADANIPORTS"; "BRITANNIA"; "EICHERMOT";
   "HEROMOTOCO"; "SHREECEM"; "BAJAJ-AUTO"; "TATASTEEL"; "BPCL"; "APOLLOHOSP";
   "HDFCLIFE"; "SBILIFE"; "ICICIPRULI"; "PIDILITIND"; "GODREJCP"; "MARICO";
   "DABUR"]%string.

(** The dictionary [combined_data] stored in the cache. *)
Record StockData : Type := mkStockData {
  sd_symbol : string;
  fundamental : FundamentalData;
  technical : TechnicalFrame;
  sd_current_price : Q
}.

(** What the class calls out to.  [get_fundamental_data] and
    [get_stock_data] catch their own exceptions: the first then returns
    the empty dictionary ([None] here), the second an empty DataFrame.
    [now k] is what the [k]-th call of [datetime.now()] returns, in
    microseconds. *)
Record Provider : Type := mkProvider {
  get_fundamental_data : string -> option FundamentalData;
  get_stock_data : string -> DataFrame;
  now : nat -> Z
}.

(** The object [self], and what has been asked of the outside so far:
    the number of clock readings and the symbols fetched, latest first. *)
Record world : Type := mkWorld {
  stock_universe : list string;
  cache : gmap string (StockData * Z);
  cache_expiry : Z;
  clock_reads : nat;
  fetches : list string
}.

(** [StockScreener()], in an outside that has not been asked yet. *)
Definition init : world :=
  mkWorld INDIAN_STOCKS ∅ (3600 * 1000000) 0 [].

(** Computations of the class: state passing, with exceptions. *)
Definition M (A : Type) : Type := world -> outcome A * world.

Definition ret {A : Type} (a : A) : M A := fun w => (Returned a, w).

Definition bind {A B : Type} (m : M A) (k : A -> M B) : M B :=
  fun w =>
    match m w with
    | (Returned a, w') => k a w'
    | (Raised e, w') => (Raised e, w')
    end.

(** [try: body except Exception: handler] *)
Definition try_except {A : Type} (body : M A) (handler : M A) : M A :=
  fun w =>
    match body w with
    | (Returned a, w') => (Returned a, w')
    | (Raised _, w') => handler w'
    end.

Definition lift {A : Type} (o : outcome A) : M A := fun w => (o, w).

Notation "x <- m ;; k" := (bind m (fun x => k))
  (at level 100, m at next level, right associativity).

(** Exceptions in code that does not touch [self]. *)
Definition obind {A B : Type} (o : outcome A) (k : A -> outcome B) : outcome B :=
  match o with
  | Returned a => k a
  | Raised e => Raised e
  end.

Notation "x <~ o ;; k" := (obind o (fun x => k))
  (at level 100, o at next level, right associativity).

(** [v and test(v)] for a value that may be [None]. *)
Definition and_then (v : option pyfloat) (test : pyfloat -> bool) : bool :=
  match v with
  | Some x => truthy x && test x
  | None => false
  end.

(** [technical[name].iloc[-1] if name in technical.columns else None] *)
Definition latest (col : option Series) : outcome (option pyfloat) :=
  match col with
  | None => Returned None
  | Some s =>
      match iloc_last s with
      | Some v => Returned (Some v)
      | None => Raised IndexError
      end
  end.

(** [s.iloc[-1]] and [s.iloc[-2]] as calls that may raise. *)
Definition iloc_m1 {A : Type} (s : list A) : outcome A :=
  match iloc_last s with Some v => Returned v | None => Raised IndexError end.

Definition iloc_m2 {A : Type} (s : list A) : outcome A :=
  match iloc_last2 s with Some v => Returned v | None => Raised IndexError end.

Section WithProvider.

Variable env : Provider.

Definition cache_key (symbol : string) : string := (symbol ++ "_data")%string.

Definition tick (w : world) : world :=
  mkWorld (stock_universe w) (cache w) (cache_expiry w) (S (clock_reads w))
          (fetches w).

(** [_get_stock_data_cached], up to the cache test: the cached data when
    the entry is there and not expired, else the time that was read. *)
Definition check_cache (symbol : string) (w : world) : (StockData + Z) * world :=
  let current_time := now env (clock_reads w) in
  let w := tick w in
  match cache w !! cache_key symbol with
  | Some (cached_data, timestamp) =>
      if (current_time - timestamp <? cache_expiry w)%Z
      then (inl cached_data, w)
      else (inr current_time, w)
  | None => (inr current_time, w)
  end.

(** [_get_stock_data_cached], from "Fetch fresh data" on. *)
Definition fetch_fresh (symbol : string) (current_time : Z) (w : world)
  : option StockData * world :=
  let fundamental_data := get_fundamental_data env symbol in
  let price_data := get_stock_data env symbol in
  let w := mkWorld (stock_universe w) (cache w) (cache_expiry w)
                   (clock_reads w) (symbol :: fetches w) in
  match fundamental_data, price_data with
  | Some fundamental_data, _ :: _ =>
      let technical_data := calculate_technical_indicators price_data in
      let combined_data :=
        mkStockData symbol fundamental_data technical_data
          (match iloc_last (map Close (bars technical_data)) with
           | Some c => c
           | None => 0
           end) in
      (Some combined_data,
       mkWorld (stock_universe w)
               (<[cache_key symbol := (combined_data, current_time)]> (cache w))
               (cache_expiry w) (clock_reads w) (fetches w))
  | _, _ => (None, w)
  end.

Definition _get_stock_data_cached (symbol : string) : M (option StockData) :=
  fun w =>
    match check_cache symbol w with
    | (inl cached_data, w) => (Returned (Some cached_data), w)
    | (inr current_time, w) =>
        let (result, w) := fetch_fresh symbol current_time w in
        (Returned result, w)
    end.

(** *** Callers that run at the same time

    A call of [_get_stock_data_cached] that is under way: not started,
    past a cache miss (the fetch is next), or finished.  Another thread
    can run between the cache test and the fetch. *)
Inductive call : Type :=
| Called (symbol : string)
| Fetching (symbol : string) (current_time : Z)
| Done (result : option StockData).

Definition call_step (c : call) (w : world) : call * world :=
  match c with
  | Called symbol =>
      match check_cache symbol w with
      | (inl cached_data, w) => (Done (Some cached_data), w)
      | (inr current_time, w) => (Fetching symbol current_time, w)
      end
  | Fetching symbol current_time =>
      let (result, w) := fetch_fresh symbol current_time w in
      (Done result, w)
  | Done result => (Done result, w)
  end.

(** The calls advanced in the order of [schedule], one step of the named
    call at a time. *)
Fixpoint interleave (schedule : list nat) (calls : list call) (w : world)
  : list call * world :=
  match schedule with
  | [] => (calls, w)
  | i :: rest =>
      match calls !! i with
      | Some c =>
          let (c, w) := call_step c w in
          interleave rest (<[i := c]> calls) w
      | None => interleave rest calls w
      end
  end.

(** *** The loop over the universe

    [for symbol in self.stock_universe:] with the common head
    [stock_data = self._get_stock_data_cached(symbol)],
    [if not stock_data: continue]; [body] is the rest of the iteration:
    it appends a row, or continues, or raises. *)
Fixpoint for_each_symbol {Row : Type}
  (body : string -> StockData -> outcome (option Row))
  (symbols : list string) : M (list Row) :=
  match symbols with
  | [] => ret []
  | symbol :: rest =>
      stock_data <- _get_stock_data_cached symbol ;;
      match stock_data with
      | None => for_each_symbol body rest
      | Some stock_data =>
          row <- lift (body symbol stock_data) ;;
          screened_stocks <- for_each_symbol body rest ;;
          ret (match row with
               | Some row => row :: screened_stocks
               | None => screened_stocks
               end)
      end
  end.

Definition get_stock_universe : M (list string) :=
  fun w => (Returned (stock_universe w), w).

(** *** rsi_screen *)

Record RsiCriteria : Type := mkRsiCriteria {
  rsi_low : option pyfloat;
  rsi_high : option pyfloat;
  rsi_condition : option string
}.

Record RsiRow : Type := mkRsiRow {
  r_symbol : string;
  r_current_price : Q;
  r_rsi : pyfloat;
  r_signal : string;
  r_score : pyfloat
}.

Definition rsi_body (rsi_low rsi_high : pyfloat) (rsi_condition : string)
  (symbol : string) (stock_data : StockData) : outcome (option RsiRow) :=
  let technical_data := technical stock_data in
  if empty technical_data then Returned None
  else
    match RSI technical_data with
    | None => Returned None
    | Some rsi_column =>
        current_rsi <~ iloc_m1 rsi_column ;;
        current_price <~ iloc_m1 (map Close (bars technical_data)) ;;
        let match_condition :=
          if String.eqb rsi_condition "oversold" && fleb current_rsi rsi_low
          then true
          else if String.eqb rsi_condition "overbought"
                  && fgeb current_rsi rsi_high
          then true
          else if String.eqb rsi_condition "range"
                  && (fleb rsi_low current_rsi && fleb current_rsi rsi_high)
          then true
          else false in
        if match_condition then
          Returned (Some (mkRsiRow symbol current_price (round current_rsi 2)
                            rsi_condition
                            (fsub (Finite 100)
                                  (fabs (fsub current_rsi (Finite 50))))))
        else Returned None
    end.

Definition rsi_screen (criteria : RsiCriteria) : M (list RsiRow) :=
  try_except
    (let rsi_low := default (Finite 30) (rsi_low criteria) in
     let rsi_high := default (Finite 70) (rsi_high criteria) in
     let rsi_condition := default "oversold"%string (rsi_condition criteria) in
     universe <- get_stock_universe ;;
     screened_stocks <-
       for_each_symbol (rsi_body rsi_low rsi_high rsi_condition) universe ;;
     let screened_stocks :=
       if String.eqb rsi_condition "oversold"
       then list_sort fltb r_rsi false screened_stocks
       else if String.eqb rsi_condition "overbought"
       then list_sort fltb r_rsi true screened_stocks
       else list_sort fltb r_score true screened_stocks in
     ret (firstn 20 screened_stocks))
    (ret []).

(** *** fundamental_screen *)

(** The [criteria] dictionary: [None] is a key that is not in it.
    [require_dividend_yield] is its key ['dividend_yield'], [sectors] is
    [None] also when the key holds [None]. *)
Record FundamentalCriteria : Type := mkFundamentalCriteria {
  min_market_cap : option pyfloat;
  max_market_cap : option pyfloat;
  min_pe_ratio : option pyfloat;
  max_pe_ratio : option pyfloat;
  min_roe : option pyfloat;
  max_debt_to_equity : option pyfloat;
  min_profit_margin : option pyfloat;
  min_revenue_growth : option pyfloat;
  require_dividend_yield : option bool;
  sectors : option (list string)
}.

(** [{**default_criteria, **criteria}] *)
Definition with_fundamental_defaults (criteria : FundamentalCriteria)
  : FundamentalCriteria :=
  mkFundamentalCriteria
    (Some (default (Finite 0) (min_market_cap criteria)))
    (Some (default PosInf (max_market_cap criteria)))
    (Some (default (Finite 0) (min_pe_ratio criteria)))
    (Some (default (Finite 50) (max_pe_ratio criteria)))
    (Some (default (Finite 0) (min_roe criteria)))
    (Some (default (Finite 2) (max_debt_to_equity criteria)))
    (Some (default (Finite 0) (min_profit_margin criteria)))
    (Some (default (Finite (-1 # 2)) (min_revenue_growth criteria)))
    (Some (default false (require_dividend_yield criteria)))
    (sectors criteria).

(** [screen_criteria[name]] of the merged dictionary. *)
Definition threshold (v : option pyfloat) : pyfloat := default NaN v.

Record FundRow : Type := mkFundRow {
  f_symbol : string;
  f_company_name : string;
  f_sector : string;
  f_current_price : Q;
  f_market_cap : pyfloat;
  f_pe_ratio : option pyfloat;
  f_roe : option pyfloat;
  f_debt_to_equity : option pyfloat;
  f_profit_margin : option pyfloat;
  f_revenue_growth : option pyfloat;
  f_dividend_yield : option pyfloat;
  financial_score : Q;
  financial_rating : string
}.

(** Each [if ...: continue] of the loop body, as the test it makes. *)
Definition market_cap_rejects (sc : FundamentalCriteria) (fd : FundamentalData)
  : bool :=
  negb (fleb (threshold (min_market_cap sc)) (market_cap fd)
        && fleb (market_cap fd) (threshold (max_market_cap sc))).

Definition pe_rejects (sc : FundamentalCriteria) (fd : FundamentalData) : bool :=
  and_then (pe_ratio fd) (fun pe =>
    negb (fleb (threshold (min_pe_ratio sc)) pe
          && fleb pe (threshold (max_pe_ratio sc)))).

Definition roe_rejects (sc : FundamentalCriteria) (fd : FundamentalData) : bool :=
  and_then (roe fd) (fun r => fltb r (threshold (min_roe sc))).

Definition debt_rejects (sc : FundamentalCriteria) (fd : FundamentalData) : bool :=
  and_then (debt_to_equity fd)
           (fun d => fgtb d (threshold (max_debt_to_equity sc))).

Definition margin_rejects (sc : FundamentalCriteria) (fd : FundamentalData)
  : bool :=
  and_then (profit_margin fd) (fun m => fltb m (threshold (min_profit_margin sc))).

Definition growth_rejects (sc : FundamentalCriteria) (fd : FundamentalData)
  : bool :=
  and_then (revenue_growth fd)
           (fun g => fltb g (threshold (min_revenue_growth sc))).

Definition dividend_rejects (sc : FundamentalCriteria) (fd : FundamentalData)
  : bool :=
  if default false (require_dividend_yield sc) then
    match dividend_yield fd with
    | Some div_yield => negb (truthy div_yield) || fleb div_yield (Finite 0)
    | None => true
    end
  else false.

Definition sector_rejects (sc : FundamentalCriteria) (fd : FundamentalData)
  : bool :=
  match sectors sc with
  | Some ((_ :: _) as allowed) =>
      negb (existsb (String.eqb (sector fd)) allowed)
  | _ => false
  end.

Definition fundamental_body (screen_criteria : FundamentalCriteria)
  (symbol : string) (stock_data : StockData) : outcome (option FundRow) :=
  let fd := fundamental stock_data in
  if market_cap_rejects screen_criteria fd then Returned None
  else if pe_rejects screen_criteria fd then Returned None
  else if roe_rejects screen_criteria fd then Returned None
  else if debt_rejects screen_criteria fd then Returned None
  else if margin_rejects screen_criteria fd then Returned None
  else if growth_rejects screen_criteria fd then Returned None
  else if dividend_rejects screen_criteria fd then Returned None
  else if sector_rejects screen_criteria fd then Returned None
  else
    let score := calculate_financial_score fd in
    Returned (Some (mkFundRow symbol (company_name fd) (sector fd)
                      (sd_current_price stock_data) (market_cap fd)
                      (pe_ratio fd) (roe fd) (debt_to_equity fd)
                      (profit_margin fd) (revenue_growth fd)
                      (dividend_yield fd)
                      (percentage score) (rating score))).

Definition fundamental_screen (criteria : FundamentalCriteria)
  : M (list FundRow) :=
  try_except
    (let screen_criteria := with_fundamental_defaults criteria in
     universe <- get_stock_universe ;;
     screened_stocks <-
       for_each_symbol (fundamental_body screen_criteria) universe ;;
     ret (list_sort Qltb financial_score true screened_stocks))
    (ret []).

(** *** technical_screen *)

Record TechnicalCriteria : Type := mkTechnicalCriteria {
  rsi_min : option pyfloat;
  rsi_max : option pyfloat;
  price_above_sma20 : option bool;
  price_above_sma50 : option bool;
  macd_bullish : option bool;
  volume_spike : option bool;
  breakout_pattern : option bool;
  min_volume : option pyfloat
}.

(** [{**default_criteria, **criteria}] *)
Definition with_technical_defaults (criteria : TechnicalCriteria)
  : TechnicalCriteria :=
  mkTechnicalCriteria
    (Some (default (Finite 30) (rsi_min criteria)))
    (Some (default (Finite 70) (rsi_max criteria)))
    (Some (default false (price_above_sma20 criteria)))
    (Some (default false (price_above_sma50 criteria)))
    (Some (default false (macd_bullish criteria)))
    (Some (default false (volume_spike criteria)))
    (Some (default false (breakout_pattern criteria)))
    (Some (default (Finite 0) (min_volume criteria))).

Definition flag (v : option bool) : bool := default false v.

Record TechRow : Type := mkTechRow {
  t_symbol : string;
  t_current_price : Q;
  t_rsi : option pyfloat;
  t_price_vs_sma20 : option pyfloat;
  t_price_vs_sma50 : option pyfloat;
  t_macd_signal : string;
  t_volume_ratio : pyfloat;
  t_breakout_score : Z;
  technical_score : Q
}.

(** The latest values that one iteration reads from the frame. *)
Record Latest : Type := mkLatest {
  l_current_price : Q;
  l_rsi : option pyfloat;
  l_sma20 : option pyfloat;
  l_sma50 : option pyfloat;
  l_macd : option pyfloat;
  l_macd_signal : option pyfloat;
  l_volume : Q;
  l_avg_volume : pyfloat
}.

Definition read_latest (technical : TechnicalFrame) : outcome Latest :=
  current_price <~ iloc_m1 (map Close (bars technical)) ;;
  rsi <~ latest (RSI technical) ;;
  sma20 <~ latest (SMA_20 technical) ;;
  sma50 <~ latest (SMA_50 technical) ;;
  macd <~ latest (MACD technical) ;;
  macd_signal <~ latest (MACD_Signal technical) ;;
  volume <~ iloc_m1 (map Volume (bars technical)) ;;
  avg_volume <~ iloc_m1 (rolling mean (column Volume (bars technical)) 20) ;;
  Returned (mkLatest current_price rsi sma20 sma50 macd macd_signal volume
                     avg_volume).

Definition rsi_rejects (sc : TechnicalCriteria) (v : Latest) : bool :=
  and_then (l_rsi v) (fun rsi =>
    negb (fleb (threshold (rsi_min sc)) rsi && fleb rsi (threshold (rsi_max sc)))).

Definition sma20_rejects (sc : TechnicalCriteria) (v : Latest) : bool :=
  flag (price_above_sma20 sc)
  && and_then (l_sma20 v) (fun sma20 => fleb (Finite (l_current_price v)) sma20).

Definition sma50_rejects (sc : TechnicalCriteria) (v : Latest) : bool :=
  flag (price_above_sma50 sc)
  && and_then (l_sma50 v) (fun sma50 => fleb (Finite (l_current_price v)) sma50).

Definition macd_above_signal (v : Latest) : bool :=
  and_then (l_macd v) (fun macd =>
    and_then (l_macd_signal v) (fun macd_signal => fgtb macd macd_signal)).

Definition macd_rejects (sc : TechnicalCriteria) (v : Latest) : bool :=
  flag (macd_bullish sc)
  && and_then (l_macd v) (fun macd =>
       and_then (l_macd_signal v) (fun macd_signal => fleb macd macd_signal)).

Definition volume_ratio (v : Latest) : pyfloat :=
  fdiv (Finite (l_volume v)) (l_avg_volume v).

Definition volume_spike_rejects (sc : TechnicalCriteria) (v : Latest) : bool :=
  flag (volume_spike sc) && truthy (l_avg_volume v)
  && fltb (volume_ratio v) (Finite (3 # 2)).

Definition min_volume_rejects (sc : TechnicalCriteria) (v : Latest) : bool :=
  fltb (Finite (l_volume v)) (threshold (min_volume sc)).

(** The points of the technical score and the points that were at stake. *)
Definition technical_points (v : Latest) : Z * Z :=
  let price := Finite (l_current_price v) in
  let '(score, total) :=
    match l_rsi v with
    | Some rsi =>
        if truthy rsi then
          ((if between (Finite 40) rsi (Finite 60) then 20
            else if between (Finite 30) rsi (Finite 70) then 15
            else 0)%Z, 20%Z)
        else (0%Z, 0%Z)
    | None => (0%Z, 0%Z)
    end in
  let score :=
    (score + if and_then (l_sma20 v) (fun sma20 => fgtb price sma20)
             then 15 else 0)%Z in
  let total := (total + 15)%Z in
  let score :=
    (score + if and_then (l_sma50 v) (fun sma50 => fgtb price sma50)
             then 15 else 0)%Z in
  let total := (total + 15)%Z in
  let score := (score + if macd_above_signal v then 20 else 0)%Z in
  let total := (total + 20)%Z in
  let score :=
    (score + if truthy (l_avg_volume v)
                && fgtb (volume_ratio v) (Finite (12 # 10))
             then 10 else 0)%Z in
  let total := (total + 10)%Z in
  (score, total).

Definition technical_score_pct (v : Latest) : Q :=
  let '(technical_score, total_indicators) := technical_points v in
  if (0 <? total_indicators)%Z
  then inject_Z technical_score / inject_Z total_indicators * 100
  else 0.

(** [((current_price - sma) / sma * 100) if sma else None] *)
Definition price_vs (v : Latest) (sma : option pyfloat) : option pyfloat :=
  match sma with
  | Some s =>
      if truthy s
      then Some (fmul (fdiv (fsub (Finite (l_current_price v)) s) s) (Finite 100))
      else None
  | None => None
  end.

Definition technical_body (screen_criteria : TechnicalCriteria)
  (symbol : string) (stock_data : StockData) : outcome (option TechRow) :=
  let technical := technical stock_data in
  if empty technical then Returned None
  else
    v <~ read_latest technical ;;
    if rsi_rejects screen_criteria v then Returned None
    else if sma20_rejects screen_criteria v then Returned None
    else if sma50_rejects screen_criteria v then Returned None
    else if macd_rejects screen_criteria v then Returned None
    else if volume_spike_rejects screen_criteria v then Returned None
    else if min_volume_rejects screen_criteria v then Returned None
    else
      breakout <~
        (if flag (breakout_pattern screen_criteria) then
           high_20 <~ iloc_m2 (rolling fmax (column High (bars technical)) 20) ;;
           Returned (if fgtb (Finite (l_current_price v)) high_20
                     then Some 1%Z else None)
         else Returned (Some 0%Z)) ;;
      match breakout with
      | None => Returned None
      | Some breakout_score =>
          Returned
            (Some (mkTechRow symbol (l_current_price v) (l_rsi v)
                     (price_vs v (l_sma20 v)) (price_vs v (l_sma50 v))
                     (if macd_above_signal v then "Bullish" else "Bearish")
                     (if truthy (l_avg_volume v) then volume_ratio v
                      else Finite 1)
                     breakout_score (technical_score_pct v)))
      end.

Definition technical_screen (criteria : TechnicalCriteria) : M (list TechRow) :=
  try_except
    (let screen_criteria := with_technical_defaults criteria in
     universe <- get_stock_universe ;;
     screened_stocks <-
       for_each_symbol (technical_body screen_criteria) universe ;;
     ret (list_sort Qltb technical_score true screened_stocks))
    (ret []).

(** *** combined_screen *)

(** [{**fund_result, **tech_result}] with the key [combined_score] added:
    the entries of the fundamental row, overridden by those of the
    technical row when the symbol has one ([None] is the empty dictionary
    that [technical_lookup.get(symbol, {})] falls back to). *)
Record CombinedRow : Type := mkCombinedRow {
  c_fund : FundRow;
  c_tech : option TechRow;
  combined_score : Q
}.

(** [combined_data['symbol']] *)
Definition c_symbol (row : CombinedRow) : string :=
  match c_tech row with
  | Some tech_result => t_symbol tech_result
  | None => f_symbol (c_fund row)
  end.

Definition default_weights : gmap string Q :=
  <["fundamental"%string := 6 # 10]> (<["technical"%string := 4 # 10]> ∅).

(** [d[key]] *)
Definition getitem (d : gmap string Q) (key : string) : outcome Q :=
  match d !! key with
  | Some v => Returned v
  | None => Raised (KeyError key)
  end.

(** [{result['symbol']: result for result in technical_results}]: a later
    row replaces an earlier one with the same symbol. *)
Definition make_technical_lookup (technical_results : list TechRow)
  : gmap string TechRow :=
  fold_left (fun lookup result => <[t_symbol result := result]> lookup)
            technical_results ∅.

(** [tech_result.get('technical_score', 0)] *)
Definition tech_score_of (tech_result : option TechRow) : Q :=
  match tech_result with
  | Some tech_result => technical_score tech_result
  | None => 0
  end.

(** The loop [for fund_result in fundamental_results:]. *)
Fixpoint combine_rows (weights : gmap string Q)
  (technical_lookup : gmap string TechRow) (fundamental_results : list FundRow)
  : outcome (list CombinedRow) :=
  match fundamental_results with
  | [] => Returned []
  | fund_result :: rest =>
      let symbol := f_symbol fund_result in
      let tech_result := technical_lookup !! symbol in
      let fund_score := financial_score fund_result in
      let tech_score := tech_score_of tech_result in
      w_fundamental <~ getitem weights "fundamental" ;;
      w_technical <~ getitem weights "technical" ;;
      let combined_score :=
        fund_score * w_fundamental + tech_score * w_technical in
      combined_results <~ combine_rows weights technical_lookup rest ;;
      Returned (mkCombinedRow fund_result tech_result combined_score
                  :: combined_results)
  end.

Definition combined_screen (fundamental_criteria : FundamentalCriteria)
  (technical_criteria : TechnicalCriteria) (weights : option (gmap string Q))
  : M (list CombinedRow) :=
  try_except
    (let weights := default default_weights weights in
     fundamental_results <- fundamental_screen fundamental_criteria ;;
     technical_results <- technical_screen technical_criteria ;;
     let technical_lookup := make_technical_lookup technical_results in
     combined_results <-
       lift (combine_rows weights technical_lookup fundamental_results) ;;
     ret (list_sort Qltb combined_score true combined_results))
    (ret []).

End WithProvider.

End Screener.

(* ================================================================== *)
(** ** Vocabulary of the statements *)
(* ================================================================== *)

Module Vocabulary.

Import Indicators MarketData Fundamentals Screener.

(** *** Indicators *)

(** A float that is NaN or numerically zero: what the rolling means of a
    flat series are made of. *)
Definition nan_or_zero (x : pyfloat) : Prop := x = NaN \/ has_value x 0.

Definition nan_or_nonneg (x : pyfloat) : Prop :=
  x = NaN \/ exists a, x = Finite a /\ 0 <= a.

(** The rolling means that [rsi] divides. *)
Definition avg_gain (close : Series) (window : nat) : Series :=
  rolling mean (where_ (fun d => fgtb d (Finite 0)) (Finite 0) (diff close)) window.

Definition avg_loss (close : Series) (window : nat) : Series :=
  rolling mean
    (map fneg (where_ (fun d => fltb d (Finite 0)) (Finite 0) (diff close)))
    window.

(** The value of [in_uptrend] once bar [i] has been handled. *)
Fixpoint trend_state (close upper lower : Series) (i : nat) : bool :=
  match i with
  | O => true
  | S j => next_trend close upper lower (S j) (trend_state close upper lower j)
  end.

Definition total_volume (levels : list VolumeLevel) : Q :=
  fold_left Qplus (map vp_volume levels) 0.

(** *** Sorted lists *)

(** [a] may stand before [b] in a list sorted by descending key. *)
Definition not_below {A : Type} (key : A -> Q) (a b : A) : Prop :=
  key b <= key a.

(** The rows whose key is [q], in the order the list has them. *)
Definition with_key {A : Type} (key : A -> Q) (q : Q) (l : list A) : list A :=
  List.filter (fun r => Qeq_bool (key r) q) l.

(** [a] may stand before [b] in a list sorted by a float [key], ascending,
    or descending with [reverse]. *)
Definition in_order {A : Type} (key : A -> pyfloat) (reverse : bool) (a b : A)
  : Prop :=
  if reverse then fleb (key b) (key a) = true
  else fleb (key a) (key b) = true.

Definition no_nan_key {A : Type} (key : A -> pyfloat) (x : A) : Prop :=
  is_nan (key x) = false.

(** The order that [rsi_screen] sorts by for a condition. *)
Definition rsi_order (rsi_condition : string) (a b : RsiRow) : Prop :=
  if String.eqb rsi_condition "oversold" then in_order r_rsi false a b
  else if String.eqb rsi_condition "overbought" then in_order r_rsi true a b
  else in_order r_score true a b.

(** *** Runs of the screener *)

(** The value a call returned, if it returned. *)
Definition value_of {A : Type} (r : outcome A * world) : option A :=
  match fst r with
  | Returned a => Some a
  | Raised _ => None
  end.

(** The symbols for which the loop of a screen gets data, each with its
    data, in the order of the loop. *)
Fixpoint fetch_all (env : Provider) (symbols : list string) (w : world)
  : list (string * StockData) :=
  match symbols with
  | [] => []
  | symbol :: rest =>
      match _get_stock_data_cached env symbol w with
      | (Returned (Some stock_data), w') =>
          (symbol, stock_data) :: fetch_all env rest w'
      | (_, w') => fetch_all env rest w'
      end
  end.

(** What the loop of a screen that starts in [w] gets from
    [_get_stock_data_cached]. *)
Definition fetched (env : Provider) (w : world) : list (string * StockData) :=
  fetch_all env (stock_universe w) w.

(** The rows that [body] makes of them. *)
Fixpoint collect {Row : Type}
  (body : string -> StockData -> outcome (option Row))
  (fetched : list (string * StockData)) : outcome (list Row) :=
  match fetched with
  | [] => Returned []
  | (symbol, stock_data) :: rest =>
      row <~ body symbol stock_data ;;
      rows <~ collect body rest ;;
      Returned (match row with Some row => row :: rows | None => rows end)
  end.

(** What [combine_rows] puts in a row. *)
Definition combined_from (weights : gmap string Q)
  (technical_lookup : gmap string TechRow) (row : CombinedRow) : Prop :=
  c_tech row = technical_lookup !! f_symbol (c_fund row) /\
  exists w_fundamental w_technical,
    weights !! "fundamental"%string = Some w_fundamental /\
    weights !! "technical"%string = Some w_technical /\
    combined_score row
    = financial_score (c_fund row) * w_fundamental
      + tech_score_of (c_tech row) * w_technical.

(** The tests of the body of [fundamental_screen] other than the PE
    test. *)
Definition others_reject (sc : FundamentalCriteria) (fd : FundamentalData)
  : bool :=
  market_cap_rejects sc fd || roe_rejects sc fd || debt_rejects sc fd
  || margin_rejects sc fd || growth_rejects sc fd || dividend_rejects sc fd
  || sector_rejects sc fd.

(** *** A small market

    Three symbols of the universe have data, the other fetches fail.
    RELIANCE: PE 15 and sixteen bars, RSI 53.3.  HDFCBANK: PE 15 and a
    single bar, so its RSI is NaN.  TCS: no PE and a single bar. *)

Definition demo_fundamental (symbol : string) : option FundamentalData :=
  let data pe :=
    Some (mkFundamental symbol "Energy" (Finite 1000) pe None None None None
                        None None None None) in
  if String.eqb symbol "RELIANCE" then data (Some (Finite 15))
  else if String.eqb symbol "HDFCBANK" then data (Some (Finite 15))
  else if String.eqb symbol "TCS" then data None
  else None.

Definition demo_bar (close : Q) : Bar :=
  mkBar close (close + 1) (close - 1) close 5000.

Definition demo_prices (symbol : string) : DataFrame :=
  if String.eqb symbol "RELIANCE" then
    map demo_bar [100; 101; 100; 101; 100; 101; 100; 101; 100; 101; 100; 101;
                  100; 101; 100; 102]
  else [demo_bar 100].

Definition demo : Provider :=
  mkProvider demo_fundamental demo_prices (fun k => Z.of_nat k).

Definition no_fundamental_criteria : FundamentalCriteria :=
  mkFundamentalCriteria None None None None None None None None None None.

Definition pe_range (lo hi : Q) : FundamentalCriteria :=
  mkFundamentalCriteria None None (Some (Finite lo)) (Some (Finite hi)) None
                        None None None None None.

Definition no_technical_criteria : TechnicalCriteria :=
  mkTechnicalCriteria None None None None None None None None.

Definition no_rsi_criteria : RsiCriteria := mkRsiCriteria None None None.

Definition weights_of (w_fundamental w_technical : Q) : gmap string Q :=
  <["fundamental"%string := w_fundamental]>
    (<["technical"%string := w_technical]> ∅).

(** *** A falling market

    Every symbol has the same sixteen falling bars, so every RSI is 0 and
    all 52 symbols are oversold. *)

Definition falling : Provider :=
  mkProvider
    (fun symbol =>
       Some (mkFundamental symbol "Energy" (Finite 1000) None None None None
                           None None None None None))
    (fun _ =>
       map demo_bar [116; 115; 114; 113; 112; 111; 110; 109; 108; 107; 106;
                     105; 104; 103; 102; 101])
    (fun k => Z.of_nat k).

(** *** A sliding market

    The three symbols of the small market fall for sixteen bars, RELIANCE
    with one bar that rises: its RSI is 100/14, the others' is 0, and all
    three are oversold. *)

Definition sliding_prices (symbol : string) : DataFrame :=
  if String.eqb symbol "RELIANCE" then
    map demo_bar [116; 115; 114; 113; 112; 111; 110; 109; 108; 107; 106; 105;
                  104; 105; 104; 103]
  else
    map demo_bar [116; 115; 114; 113; 112; 111; 110; 109; 108; 107; 106; 105;
                  104; 103; 102; 101].

Definition sliding : Provider :=
  mkProvider demo_fundamental sliding_prices (fun k => Z.of_nat k).

End Vocabulary.

(* ================================================================== *)
(** ** src/app.py: [macd] and [stochastic] *)
(* ================================================================== *)

Module Oscillators.

Import Indicators MarketData.

(** A span of [ewm]: pandas refuses a span below 1, and the callers pass
    positive integers. *)
Definition span_of (n : positive) : Q := inject_Z (Zpos n).

(** Returns [(macd_line, signal_line, histogram)]. *)
Definition macd (close : list Q) (fast slow signal : positive)
  : list Q * list Q * list Q :=
  let exp1 := ewm_mean (span_of fast) close in
  let exp2 := ewm_mean (span_of slow) close in
  let macd_line := zip_with Qminus exp1 exp2 in
  let signal_line := ewm_mean (span_of signal) macd_line in
  let histogram := zip_with Qminus macd_line signal_line in
  (macd_line, signal_line, histogram).

(** Returns [(k_percent, d_percent)]. *)
Definition stochastic (high low close : Series) (k_period d_period : nat)
  : Series * Series :=
  let lowest_low := rolling fmin low k_period in
  let highest_high := rolling fmax high k_period in
  let k_percent :=
    map (fmul (Finite 100))
        (zip_with fdiv (zip_with fsub close lowest_low)
                       (zip_with fsub highest_high lowest_low)) in
  let d_percent := rolling mean k_percent d_period in
  (k_percent, d_percent).

End Oscillators.

(* ================================================================== *)
(** ** src/utils/market_data.py: breakouts and market hours *)
(* ================================================================== *)

Module MarketScan.

Import Indicators.

(** [df.tail(n)]: the last [n] rows, and all but the first [-n] rows for a
    negative [n]. *)
Definition df_tail {A : Type} (n : Z) (l : list A) : list A :=
  if (0 <=? n)%Z then skipn (length l - Z.to_nat n) l
  else skipn (Z.to_nat (- n)) l.

(** [s.iloc[-1]] of a Series that is not empty. *)
Definition iloc_end (s : Series) : pyfloat := iloc s (length s - 1).

Definition NIFTY_STOCKS : list string :=
  ["RELIANCE"; "TCS"; "INFY"; "HDFC"; "ICICIBANK"; "KOTAKBANK"; "HDFCBANK";
   "ITC"; "LT"; "SBIN"; "BHARTIARTL"; "ASIANPAINT"; "MARUTI"; "NESTLEIND";
   "ULTRACEMCO"; "AXISBANK"; "M&M"; "SUNPHARMA"; "TITAN"; "WIPRO"]%string.

(** The dictionary that [detect_breakouts] returns for one symbol. *)
Record BreakoutReport : Type := mkReport {
  rp_symbol : string;
  rp_current_price : pyfloat;
  rp_range_high : pyfloat;
  rp_range_low : pyfloat;
  rp_is_breakout : bool;
  rp_volume_spike : pyfloat;
  rp_days_in_range : Z
}.

(** An entry of the list that [get_nifty_breakouts] returns. *)
Record BreakoutRow : Type := mkBreakoutRow {
  n_symbol : string;
  n_current_price : pyfloat;
  n_breakout_range : Z;
  n_strength : pyfloat;
  n_volume_ratio : pyfloat;
  n_is_breakout : bool;
  n_range_high : pyfloat;
  n_range_low : pyfloat
}.

(** [{'breakouts': [...]}] without a symbol, else the report of the
    symbol; [None] is the empty dictionary. *)
Inductive BreakoutResult : Type :=
| Breakouts (breakouts : list BreakoutRow)
| Report (report : option BreakoutReport).

(** The built-in [min(x, 10)]: the second argument only when it is
    strictly smaller. *)
Definition py_min (x y : pyfloat) : pyfloat := if fltb y x then y else x.

Section WithHistory.

(** [get_stock_data(symbol, period)]; it catches its own exceptions and
    then returns an empty DataFrame. *)
Variable get_stock_data : string -> string -> DataFrame.

(** One iteration of the loop of [get_nifty_breakouts]: the entry that is
    appended, if one is. *)
Definition nifty_breakout (days_range : Z) (stock : string)
  : option BreakoutRow :=
  let data := get_stock_data stock "2mo" in
  match data with
  | [] => None
  | _ :: _ =>
      let recent_data := df_tail days_range data in
      let range_high := fmax (column High recent_data) in
      let range_low := fmin (column Low recent_data) in
      let current_price := iloc_end (column Close data) in
      let is_breakout := fgtb current_price range_high in
      let volume_ratio :=
        fdiv (iloc_end (column Volume data))
             (iloc_end (rolling mean (column Volume data) 10)) in
      let strength :=
        if is_breakout then
          let price_above_range :=
            fmul (fdiv (fsub current_price range_high) range_high)
                 (Finite 100) in
          py_min (fmul price_above_range volume_ratio) (Finite 10)
        else Finite 0 in
      if is_breakout || fgtb volume_ratio (Finite (15 # 10)) then
        Some (mkBreakoutRow stock current_price days_range strength
                            volume_ratio is_breakout range_high range_low)
      else None
  end.

Definition get_nifty_breakouts (days_range : Z) : list BreakoutRow :=
  let breakouts := omap (nifty_breakout days_range) NIFTY_STOCKS in
  firstn 15 (list_sort fltb n_strength true breakouts).

Definition detect_breakouts (symbol : option string) (days_range : Z)
  : BreakoutResult :=
  match symbol with
  | None => Breakouts (get_nifty_breakouts days_range)
  | Some symbol =>
      let data := get_stock_data symbol "3mo" in
      match data with
      | [] => Report None
      | _ :: _ =>
          let recent_data := df_tail days_range data in
          let range_high := fmax (column High recent_data) in
          let range_low := fmin (column Low recent_data) in
          let current_price := iloc_end (column Close data) in
          let is_breakout := fgtb current_price range_high in
          let volume_spike :=
            fdiv (iloc_end (column Volume data))
                 (iloc_end (rolling mean (column Volume data) 20)) in
          Report (Some (mkReport symbol current_price range_high range_low
                                 is_breakout volume_spike days_range))
      end
  end.

End WithHistory.

(** *** get_market_status *)

(** A [datetime]: the day as its proleptic ordinal, and the time of day. *)
Record datetime : Type := mkDatetime {
  ordinal : Z;
  hour : nat;
  minute : nat;
  second : nat;
  microsecond : nat
}.

(** [dt.weekday()]: Monday is 0. *)
Definition weekday (dt : datetime) : Z := ((ordinal dt + 6) mod 7)%Z.

(** [dt.replace(hour=h, minute=m, second=s)]: day and microsecond stay. *)
Definition replace_time (dt : datetime) (h m s : nat) : datetime :=
  mkDatetime (ordinal dt) h m s (microsecond dt).

(** [a <= b] on datetimes: field by field, the day first. *)
Definition datetime_le (a b : datetime) : bool :=
  if negb (ordinal a =? ordinal b)%Z then (ordinal a <? ordinal b)%Z
  else if negb (hour a =? hour b)%nat then (hour a <? hour b)%nat
  else if negb (minute a =? minute b)%nat then (minute a <? minute b)%nat
  else if negb (second a =? second b)%nat then (second a <? second b)%nat
  else (microsecond a <=? microsecond b)%nat.

(** The dictionary that is returned, without its ['current_time'] text. *)
Record MarketStatus : Type := mkStatus {
  is_open : bool;
  next_open : string;
  market_session : string
}.

Definition get_market_status (now : datetime) : MarketStatus :=
  let market_open_time := replace_time now 9 15 0 in
  let market_close_time := replace_time now 15 30 0 in
  let is_weekday := (weekday now <? 5)%Z in
  let is_trading_hours :=
    datetime_le market_open_time now && datetime_le now market_close_time in
  let market_open := is_weekday && is_trading_hours in
  mkStatus market_open
           (if negb market_open then "Next trading day 9:15 AM"
            else "Market is open")
           (if market_open then "Regular" else "Closed").

End MarketScan.

(* ================================================================== *)
(** ** src/utils/screener.py: the other screens *)
(* ================================================================== *)

Module Screens.

Import Indicators MarketData Fundamentals Screener.

(** *** _calculate_supertrend *)

(** [s.shift(1)] *)
Definition shift1 (s : Series) : Series :=
  match s with
  | [] => []
  | _ :: _ => NaN :: removelast s
  end.

(** [DataFrame.max(axis=1)] on one row: NaN entries are skipped. *)
Definition row_max (values : list pyfloat) : pyfloat :=
  fmax (List.filter (fun x => negb (is_nan x)) values).

Definition true_range (high low close : Series) : Series :=
  let tr1 := zip_with fsub high low in
  let tr2 := map fabs (zip_with fsub high (shift1 close)) in
  let tr3 := map fabs (zip_with fsub low (shift1 close)) in
  map (fun i => row_max [iloc tr1 i; iloc tr2 i; iloc tr3 i])
      (seq 0 (length high)).

(** The first loop, for one band: [moves band_i prev close_prev] is the
    test under which the band takes its new value; [prev] is the final
    value of the bar before. *)
Fixpoint final_band_loop (moves : pyfloat -> pyfloat -> pyfloat -> bool)
  (band close : Series) (indices : list nat) (prev : pyfloat) : Series :=
  match indices with
  | [] => []
  | i :: rest =>
      let cur :=
        if moves (iloc band i) prev (iloc close (i - 1)) then iloc band i
        else prev in
      cur :: final_band_loop moves band close rest cur
  end.

Definition final_band (moves : pyfloat -> pyfloat -> pyfloat -> bool)
  (band close : Series) : Series :=
  match length band with
  | O => []
  | S n => iloc band 0 :: final_band_loop moves band close (seq 1 n) (iloc band 0)
  end.

Definition upper_moves (band_i prev close_prev : pyfloat) : bool :=
  fltb band_i prev || fgtb close_prev prev.

Definition lower_moves (band_i prev close_prev : pyfloat) : bool :=
  fgtb band_i prev || fltb close_prev prev.

(** The second loop: the line and the signal of each bar, those of the
    bar before carried along. *)
Fixpoint signal_loop (close final_upper final_lower : Series)
  (indices : list nat) (prev : pyfloat * string) : list (pyfloat * string) :=
  match indices with
  | [] => []
  | i :: rest =>
      let cur :=
        if fgtb (iloc close i) (iloc final_upper i)
        then (iloc final_lower i, "Buy"%string)
        else if fltb (iloc close i) (iloc final_lower i)
        then (iloc final_upper i, "Sell"%string)
        else prev in
      cur :: signal_loop close final_upper final_lower rest cur
  end.

Record SupertrendFrame : Type := mkSupertrendFrame {
  Supertrend : Series;
  Signal : list string;
  Upper_Band : Series;
  Lower_Band : Series
}.

(** [None] is the empty DataFrame. *)
Definition _calculate_supertrend (data : TechnicalFrame) (period : nat)
  (multiplier : Q) : option SupertrendFrame :=
  let n := length (bars data) in
  if empty data || (n <? period)%nat then None
  else
    let high := column High (bars data) in
    let low := column Low (bars data) in
    let close := column Close (bars data) in
    let atr := rolling mean (true_range high low close) period in
    let hl_avg := map (fun x => fdiv x (Finite 2)) (zip_with fadd high low) in
    let upper_band :=
      zip_with fadd hl_avg (map (fmul (Finite multiplier)) atr) in
    let lower_band :=
      zip_with fsub hl_avg (map (fmul (Finite multiplier)) atr) in
    let final_upper := final_band upper_moves upper_band close in
    let final_lower := final_band lower_moves lower_band close in
    let first :=
      if fgtb (iloc close 0) (iloc final_upper 0)
      then (iloc final_lower 0, "Buy"%string)
      else (iloc final_upper 0, "Sell"%string) in
    let out :=
      first :: signal_loop close final_upper final_lower (seq 1 (n - 1)) first in
    Some (mkSupertrendFrame (map fst out) (map snd out) final_upper final_lower).

(** *** quarterly_earnings_screen *)

(** The keys of the dictionary that [get_fundamental_data] builds; each
    holds a nested dictionary, and ['custom_ratios'] is there for some
    symbols only. *)
Definition SECTION_KEYS : list string :=
  ["basic_info"; "valuation_ratios"; "profitability_ratios";
   "financial_health"; "growth_metrics"; "dividend_info"; "analyst_info";
   "custom_ratios"]%string.

(** What a key of that dictionary can give: a number, or one of the
    nested dictionaries. *)
Inductive pyvalue : Type :=
| Num (x : pyfloat)
| Dict.

(** [fundamental_data.get(key, 0)]: only the names of the sections can be
    keys, so every other key gives the default. *)
Definition top_level_get (fd : FundamentalData) (key : string) : pyvalue :=
  if existsb (String.eqb key) SECTION_KEYS then Dict else Num (Finite 0).

(** Operations on what was read; [None] is the TypeError of an operand
    that is no number, or the ZeroDivisionError of [/]. *)
Definition num (v : pyvalue) : option pyfloat :=
  match v with Num x => Some x | Dict => None end.

Definition compare (test : pyfloat -> pyfloat -> bool) (v : pyvalue) (y : pyfloat)
  : option bool :=
  match v with Num x => Some (test x y) | Dict => None end.

(** [a and b]: [b] is evaluated only when [a] is true. *)
Definition and_lazy (a b : option bool) : option bool :=
  match a with
  | Some true => b
  | other => other
  end.

Definition py_div (x y : pyfloat) : option pyfloat :=
  match y with
  | Finite q => if Qeq_bool q 0 then None else Some (fdiv x y)
  | _ => Some (fdiv x y)
  end.

Definition py_min (x y : pyfloat) : pyfloat := if fltb y x then y else x.
Definition py_max (x y : pyfloat) : pyfloat := if fltb x y then y else x.

Record EarningsCriteria : Type := mkEarningsCriteria {
  min_growth : option pyfloat;
  e_min_revenue_growth : option pyfloat;
  max_pe : option pyfloat
}.

Record EarningsRow : Type := mkEarningsRow {
  e_symbol : string;
  e_current_price : Q;
  e_pe_ratio : pyfloat;
  e_profit_growth : pyfloat;
  e_revenue_growth : pyfloat;
  e_roe : pyfloat;
  e_score : pyfloat
}.

(** What an iteration does after the common head. *)
Inductive step_result (Row : Type) : Type :=
| Append (row : Row)
| Continue
| Raise.

Arguments Append {Row} row.
Arguments Continue {Row}.
Arguments Raise {Row}.

Definition earnings_row (symbol : string) (current_price : Q)
  (pe_ratio profit_growth revenue_growth : pyfloat) (roe : pyvalue)
  (max_pe : pyfloat) : option EarningsRow :=
  growth_score ← py_div (fadd profit_growth revenue_growth) (Finite 2) ;
  roe ← num roe ;
  roe_15 ← py_div roe (Finite 15) ;
  let efficiency_score := py_min (fmul roe_15 (Finite 25)) (Finite 25) in
  pe_share ← py_div pe_ratio max_pe ;
  let valuation_score :=
    py_max (Finite 0) (fsub (Finite 25) (fmul pe_share (Finite 25))) in
  let total_score :=
    fadd (fadd growth_score efficiency_score) valuation_score in
  Some (mkEarningsRow symbol current_price (round pe_ratio 2)
                      (round profit_growth 1) (round revenue_growth 1)
                      (round roe 1) (round total_score 1)).

Definition earnings_body (min_growth min_revenue_growth max_pe : pyfloat)
  (symbol : string) (stock_data : StockData) : step_result EarningsRow :=
  let fundamental_data := fundamental stock_data in
  let current_price := sd_current_price stock_data in
  let pe_ratio := top_level_get fundamental_data "pe_ratio" in
  let profit_growth := top_level_get fundamental_data "profit_growth" in
  let revenue_growth := top_level_get fundamental_data "revenue_growth" in
  let roe := top_level_get fundamental_data "roe" in
  match and_lazy (compare fgtb pe_ratio (Finite 0))
          (and_lazy (compare fleb pe_ratio max_pe)
             (and_lazy (compare fgeb profit_growth min_growth)
                       (compare fgeb revenue_growth min_revenue_growth)))
  with
  | None => Raise
  | Some false => Continue
  | Some true =>
      match pe_ratio, profit_growth, revenue_growth with
      | Num pe, Num pg, Num rg =>
          match earnings_row symbol current_price pe pg rg roe max_pe with
          | Some row => Append row
          | None => Raise
          end
      | _, _, _ => Raise
      end
  end.

Section WithProvider.

Variable env : Provider.

(** [for symbol in self.stock_universe:] for a body that appends,
    continues or raises; [None] when an iteration raised, which ends the
    loop. *)
Fixpoint loop_until_raise {Row : Type}
  (body : string -> StockData -> step_result Row) (symbols : list string)
  : M (option (list Row)) :=
  match symbols with
  | [] => ret (Some [])
  | symbol :: rest =>
      stock_data <- _get_stock_data_cached env symbol ;;
      match stock_data with
      | None => loop_until_raise body rest
      | Some stock_data =>
          match body symbol stock_data with
          | Raise => ret None
          | Continue => loop_until_raise body rest
          | Append row =>
              screened_stocks <- loop_until_raise body rest ;;
              ret (cons row <$> screened_stocks)
          end
      end
  end.

Definition quarterly_earnings_screen (criteria : EarningsCriteria)
  : M (list EarningsRow) :=
  let min_growth := default (Finite 10) (min_growth criteria) in
  let min_revenue_growth := default (Finite 5) (e_min_revenue_growth criteria) in
  let max_pe := default (Finite 25) (max_pe criteria) in
  universe <- get_stock_universe ;;
  screened_stocks <-
    loop_until_raise (earnings_body min_growth min_revenue_growth max_pe)
                     universe ;;
  match screened_stocks with
  | Some screened_stocks =>
      ret (firstn 20 (list_sort fltb e_score true screened_stocks))
  | None => ret []
  end.

(** *** supertrend_screen *)

Record SupertrendRow : Type := mkSupertrendRow {
  s_symbol : string;
  s_current_price : pyfloat;
  s_supertrend : pyfloat;
  s_signal : string;
  s_distance_pct : pyfloat;
  s_score : pyfloat
}.

Definition supertrend_body (signal_type : string) (symbol : string)
  (stock_data : StockData) : outcome (option SupertrendRow) :=
  let technical_data := technical stock_data in
  if empty technical_data then Returned None
  else
    match _calculate_supertrend technical_data 10 3 with
    | None => Returned None
    | Some supertrend_data =>
        current_price <~ iloc_m1 (column Close (bars technical_data)) ;;
        current_supertrend <~ iloc_m1 (Supertrend supertrend_data) ;;
        current_signal <~ iloc_m1 (Signal supertrend_data) ;;
        let match_condition :=
          if String.eqb signal_type "buy" && String.eqb current_signal "Buy"
          then true
          else if String.eqb signal_type "sell"
                  && String.eqb current_signal "Sell"
          then true
          else false in
        if match_condition then
          let distance_pct :=
            fmul (fabs (fdiv (fsub current_price current_supertrend)
                             current_supertrend))
                 (Finite 100) in
          Returned (Some (mkSupertrendRow symbol current_price
                            (round current_supertrend 2) current_signal
                            (round distance_pct 2)
                            (fsub (Finite 100) distance_pct)))
        else Returned None
    end.

Definition supertrend_screen (signal_type : option string)
  : M (list SupertrendRow) :=
  try_except
    (let signal_type := default "buy"%string signal_type in
     universe <- get_stock_universe ;;
     screened_stocks <-
       for_each_symbol env (supertrend_body signal_type) universe ;;
     ret (firstn 15 (list_sort fltb s_score true screened_stocks)))
    (ret []).

(** *** The preset screens *)

Definition momentum_criteria : TechnicalCriteria :=
  mkTechnicalCriteria (Some (Finite 50)) (Some (Finite 80)) (Some true)
                      (Some true) (Some true) (Some true) None None.

Definition momentum_screen : M (list TechRow) :=
  technical_screen env momentum_criteria.

Definition value_criteria : FundamentalCriteria :=
  mkFundamentalCriteria None None None (Some (Finite 20))
                        (Some (Finite (12 # 100))) (Some (Finite 1))
                        (Some (Finite (5 # 100))) None (Some true) None.

Definition value_screen : M (list FundRow) :=
  fundamental_screen env value_criteria.

Definition growth_criteria : FundamentalCriteria :=
  mkFundamentalCriteria None None None (Some (Finite 40))
                        (Some (Finite (15 # 100))) None
                        (Some (Finite (10 # 100))) (Some (Finite (15 # 100)))
                        None None.

Definition growth_screen : M (list FundRow) :=
  fundamental_screen env growth_criteria.

Definition quality_criteria : FundamentalCriteria :=
  mkFundamentalCriteria None None None None (Some (Finite (15 # 100)))
                        (Some (Finite (5 # 10))) (Some (Finite (10 # 100)))
                        (Some (Finite (5 # 100))) None None.

Definition quality_screen : M (list FundRow) :=
  fundamental_screen env quality_criteria.

Definition sector_criteria (sector : string) : FundamentalCriteria :=
  mkFundamentalCriteria (Some (Finite 1000000000)) None None None
                        (Some (Finite (10 # 100))) None None None None
                        (Some [sector]).

(** The rows of [fundamental_screen] always have the key ['market_cap'],
    so the default of [x.get('market_cap', 0)] is not used. *)
Definition get_sector_leaders (sector : string) : M (list FundRow) :=
  results <- fundamental_screen env (sector_criteria sector) ;;
  ret (firstn 10 (list_sort fltb f_market_cap true results)).

End WithProvider.

End Screens.

(* ================================================================== *)
(** ** Vocabulary of the further statements *)
(* ================================================================== *)

Module Terms.

Import Indicators MarketData Fundamentals Screener Screens.

(** A float that is NaN or a number between [lo] and [hi]. *)
Definition nan_or_within (lo hi : Q) (x : pyfloat) : Prop :=
  x = NaN \/ exists a, x = Finite a /\ lo <= a <= hi.

(** A bar whose close lies between its low and its high. *)
Definition well_formed (b : Bar) : Prop := Low b <= Close b <= High b.

(** What a fetch of [symbol] gives: the result of [fetch_fresh], which
    depends on neither the cache nor the clock. *)
Definition fresh_data (env : Provider) (symbol : string) : option StockData :=
  match get_fundamental_data env symbol, get_stock_data env symbol with
  | Some fundamental_data, (_ :: _) as price_data =>
      let technical_data := calculate_technical_indicators price_data in
      Some (mkStockData symbol fundamental_data technical_data
              (match iloc_last (map Close (bars technical_data)) with
               | Some c => c
               | None => 0
               end))
  | _, _ => None
  end.

(** Every entry of the cache holds what a fetch of its symbol gives. *)
Definition cache_consistent (env : Provider) (w : world) : Prop :=
  forall symbol stock_data timestamp,
    cache w !! cache_key symbol = Some (stock_data, timestamp) ->
    fresh_data env symbol = Some stock_data.

(** The symbols that have data, each with its data. *)
Fixpoint available (env : Provider) (symbols : list string)
  : list (string * StockData) :=
  match symbols with
  | [] => []
  | symbol :: rest =>
      match fresh_data env symbol with
      | Some stock_data => (symbol, stock_data) :: available env rest
      | None => available env rest
      end
  end.

(** The entry for [symbol] is in the cache and has not expired at
    [current_time]. *)
Definition cache_fresh (w : world) (symbol : string) (current_time : Z) : bool :=
  match cache w !! cache_key symbol with
  | Some (_, timestamp) => (current_time - timestamp <? cache_expiry w)%Z
  | None => false
  end.

(** [v] is [None], or falsy, or passes [test]. *)
Definition absent_or (v : option pyfloat) (test : pyfloat -> bool) : Prop :=
  match v with
  | Some x => truthy x = false \/ test x = true
  | None => True
  end.

(** The row that [fundamental_screen] makes of a symbol's data. *)
Definition fundamental_row (symbol : string) (stock_data : StockData) : FundRow :=
  let fd := fundamental stock_data in
  let score := calculate_financial_score fd in
  mkFundRow symbol (company_name fd) (sector fd) (sd_current_price stock_data)
            (market_cap fd) (pe_ratio fd) (roe fd) (debt_to_equity fd)
            (profit_margin fd) (revenue_growth fd) (dividend_yield fd)
            (percentage score) (rating score).

(** The filters of [fundamental_screen], read on a row of the result.  A
    ratio that is NaN is below no minimum and above no maximum; a list of
    sectors that is absent or empty allows every sector. *)
Definition passes_fundamental (sc : FundamentalCriteria) (row : FundRow) : Prop :=
  fleb (threshold (min_market_cap sc)) (f_market_cap row) = true /\
  fleb (f_market_cap row) (threshold (max_market_cap sc)) = true /\
  absent_or (f_pe_ratio row)
            (fun pe => fleb (threshold (min_pe_ratio sc)) pe
                       && fleb pe (threshold (max_pe_ratio sc))) /\
  absent_or (f_roe row) (fun r => negb (fltb r (threshold (min_roe sc)))) /\
  absent_or (f_debt_to_equity row)
            (fun d => negb (fgtb d (threshold (max_debt_to_equity sc)))) /\
  absent_or (f_profit_margin row)
            (fun m => negb (fltb m (threshold (min_profit_margin sc)))) /\
  absent_or (f_revenue_growth row)
            (fun g => negb (fltb g (threshold (min_revenue_growth sc)))) /\
  (default false (require_dividend_yield sc) = true ->
   exists y, f_dividend_yield row = Some y /\ truthy y = true
             /\ fleb y (Finite 0) = false) /\
  match sectors sc with
  | Some (first :: others) => In (f_sector row) (first :: others)
  | _ => True
  end.

(** The filters of [technical_screen] that read the latest values. *)
Definition technical_filters_reject (sc : TechnicalCriteria) (v : Latest) : bool :=
  rsi_rejects sc v || sma20_rejects sc v || sma50_rejects sc v
  || macd_rejects sc v || volume_spike_rejects sc v || min_volume_rejects sc v.

(** The row that [technical_screen] makes of the latest values. *)
Definition technical_row (symbol : string) (v : Latest) (breakout_score : Z)
  : TechRow :=
  mkTechRow symbol (l_current_price v) (l_rsi v) (price_vs v (l_sma20 v))
            (price_vs v (l_sma50 v))
            (if macd_above_signal v then "Bullish" else "Bearish")
            (if truthy (l_avg_volume v) then volume_ratio v else Finite 1)
            breakout_score (technical_score_pct v).

(** The breakout test: the price is above the 20-bar high of the bar
    before. *)
Definition breaks_out (technical : TechnicalFrame) (v : Latest) : Prop :=
  exists high_20,
    iloc_last2 (rolling fmax (column High (bars technical)) 20) = Some high_20 /\
    fgtb (Finite (l_current_price v)) high_20 = true.

(** What the filters of [technical_screen] leave to see on a row. *)
Definition passes_technical (sc : TechnicalCriteria) (row : TechRow) : Prop :=
  absent_or (t_rsi row)
            (fun rsi => fleb (threshold (rsi_min sc)) rsi
                        && fleb rsi (threshold (rsi_max sc))) /\
  (flag (volume_spike sc) = true ->
   t_volume_ratio row = Finite 1
   \/ fltb (t_volume_ratio row) (Finite (3 # 2)) = false) /\
  t_breakout_score row = (if flag (breakout_pattern sc) then 1 else 0)%Z /\
  (t_macd_signal row = "Bullish" \/ t_macd_signal row = "Bearish")%string /\
  0 <= technical_score row <= 100.

(** The row that [supertrend_screen] makes of a symbol with the sell
    signal, given the latest close. *)
Definition blank_sell_row (symbol : string) (current_price : pyfloat)
  : SupertrendRow :=
  mkSupertrendRow symbol current_price NaN "Sell" NaN NaN.

(** The row that [supertrend_screen] makes of a fetched symbol when it is
    asked for the sell signal: none below ten bars. *)
Definition sell_row (p : string * StockData) : option SupertrendRow :=
  let price_bars := bars (technical (snd p)) in
  if (10 <=? length price_bars)%nat
  then blank_sell_row (fst p) <$> iloc_last (column Close price_bars)
  else None.

(** The second of the day of a datetime. *)
Definition second_of_day (dt : MarketScan.datetime) : Z :=
  (Z.of_nat (MarketScan.hour dt) * 3600 + Z.of_nat (MarketScan.minute dt) * 60
   + Z.of_nat (MarketScan.second dt))%Z.

End Terms.

(* ================================================================== *)
(** ** Facts about the indicator functions *)
(* ================================================================== *)

Module IndicatorFacts.

Import Indicators Vocabulary.

Lemma Qeq_bool_true (a b : Q) : a == b -> Qeq_bool a b = true.
Proof. intros H. now apply Qeq_bool_iff. Qed.

Lemma Qltb_irrefl_eq (a b : Q) : a == b -> Qltb a b = false.
Proof.
  intros H. unfold Qltb. apply Bool.negb_false_iff, Qle_bool_iff.
  rewrite H. apply Qle_refl.
Qed.

Lemma Qltb_true (a b : Q) : a < b -> Qltb a b = true.
Proof.
  intros H. unfold Qltb. apply Bool.negb_true_iff.
  destruct (Qle_bool b a) eqn:E; [|reflexivity].
  apply Qle_bool_iff in E. exfalso. revert E. now apply Qlt_not_le.
Qed.

Lemma Qltb_lt (a b : Q) : Qltb a b = true -> a < b.
Proof.
  unfold Qltb. intros H. apply Bool.negb_true_iff in H.
  apply Qnot_le_lt. intros Hle. apply Qle_bool_iff in Hle. congruence.
Qed.

Lemma fdiv_nan_or_zero (x y : pyfloat) :
  nan_or_zero x -> nan_or_zero y -> fdiv x y = NaN.
Proof.
  intros [-> | Hx] [-> | Hy]; try reflexivity.
  - destruct x; reflexivity.
  - destruct x as [a| | |], y as [b| | |]; simpl in *; try contradiction.
    now rewrite (Qeq_bool_true b 0 Hy), (Qeq_bool_true a 0 Hx).
Qed.

Lemma rsi_formula_nan (g l : pyfloat) : fdiv g l = NaN -> rsi_formula g l = NaN.
Proof. unfold rsi_formula. now intros ->. Qed.

Lemma fold_fadd_zero (obs : list pyfloat) (acc : pyfloat) :
  has_value acc 0 -> Forall (fun x => has_value x 0) obs ->
  has_value (fold_left fadd obs acc) 0.
Proof.
  revert acc. induction obs as [|x obs IH]; intros acc Hacc Hall; [exact Hacc|].
  inversion Hall as [|? ? Hx Hrest]; subst. simpl. apply IH; [|exact Hrest].
  destruct acc as [a| | |], x as [b| | |]; simpl in *; try contradiction.
  rewrite Hacc, Hx. reflexivity.
Qed.

Lemma mean_zero (obs : list pyfloat) :
  Forall (fun x => has_value x 0) obs -> nan_or_zero (mean obs).
Proof.
  intros Hall. unfold mean.
  assert (Hs : has_value (fsum obs) 0)
    by (apply fold_fadd_zero; [reflexivity | exact Hall]).
  destruct (fsum obs) as [s| | |]; simpl in Hs; try contradiction.
  unfold of_nat, fdiv.
  destruct (Qeq_bool (inject_Z (Z.of_nat (length obs))) 0).
  - rewrite (Qeq_bool_true s 0 Hs). now left.
  - right. simpl. rewrite Hs. unfold Qdiv. apply Qmult_0_l.
Qed.

Lemma In_firstn {A : Type} (n : nat) (l : list A) (x : A) :
  In x (firstn n l) -> In x l.
Proof.
  revert l. induction n as [|n IH]; intros [|y l]; simpl; try tauto.
  intros [H | H]; [now left | right; now apply IH].
Qed.

Lemma In_skipn {A : Type} (n : nat) (l : list A) (x : A) :
  In x (skipn n l) -> In x l.
Proof.
  revert l. induction n as [|n IH]; intros [|y l]; simpl; try tauto.
  intros H. right. now apply IH.
Qed.

Lemma window_at_incl (s : Series) (w i : nat) (obs : list pyfloat) :
  window_at s w i = Some obs -> incl obs s.
Proof.
  unfold window_at. destruct (w <=? S i)%nat; [|discriminate].
  intros [= <-] x Hx. eapply In_skipn, In_firstn, Hx.
Qed.

Lemma has_value_not_nan (obs : list pyfloat) (q : Q) :
  Forall (fun x => has_value x q) obs -> existsb is_nan obs = false.
Proof.
  induction 1 as [|x obs Hx _ IH]; [reflexivity|].
  simpl. rewrite IH. destruct x; simpl in *; try contradiction; reflexivity.
Qed.

Lemma rolling_mean_zero (s : Series) (w : nat) :
  Forall (fun x => has_value x 0) s -> Forall nan_or_zero (rolling mean s w).
Proof.
  intros Hall. unfold rolling. apply List.Forall_forall. intros x Hx.
  apply in_map_iff in Hx. destruct Hx as (i & <- & _).
  destruct (window_at s w i) as [obs|] eqn:Hw; [|now left].
  assert (Hobs : Forall (fun x => has_value x 0) obs).
  { apply List.Forall_forall. intros y Hy.
    apply (proj1 (List.Forall_forall _ s) Hall), (window_at_incl _ _ _ _ Hw), Hy. }
  rewrite (has_value_not_nan obs 0 Hobs). now apply mean_zero.
Qed.

Lemma in_zip_with {A B C : Type} (f : A -> B -> C) (l : list A) (m : list B)
  (z : C) :
  In z (zip_with f l m) -> exists x y, In x l /\ In y m /\ z = f x y.
Proof.
  unfold zip_with. intros H. apply in_map_iff in H.
  destruct H as ([x y] & <- & Hin). exists x, y.
  split; [eapply in_combine_l; eauto|]. split; [eapply in_combine_r; eauto|].
  reflexivity.
Qed.

Lemma length_zip_with {A B C : Type} (f : A -> B -> C) (l : list A) (m : list B) :
  length (zip_with f l m) = Nat.min (length l) (length m).
Proof. unfold zip_with. now rewrite length_map, length_combine. Qed.

Lemma diff_flat (s : Series) (c : Q) :
  Forall (fun x => has_value x c) s -> Forall nan_or_zero (diff s).
Proof.
  intros Hall. destruct s as [|x rest]; [constructor|].
  simpl. constructor; [now left|].
  apply List.Forall_forall. intros z Hz. apply in_zip_with in Hz.
  destruct Hz as (p & q & Hp & Hq & ->).
  assert (Hq' : In q (x :: rest)) by now right.
  pose proof (proj1 (List.Forall_forall _ _) Hall p Hp) as Vp.
  pose proof (proj1 (List.Forall_forall _ _) Hall q Hq') as Vq.
  destruct p as [a| | |], q as [b| | |]; simpl in *; try contradiction.
  right. simpl. rewrite Vp, Vq. apply Qplus_opp_r.
Qed.

Lemma gain_flat (delta : Series) :
  Forall nan_or_zero delta ->
  Forall (fun x => has_value x 0)
         (where_ (fun d => fgtb d (Finite 0)) (Finite 0) delta).
Proof.
  intros Hall. unfold where_. apply List.Forall_forall. intros z Hz.
  apply in_map_iff in Hz. destruct Hz as (d & <- & Hd).
  destruct (proj1 (List.Forall_forall _ _) Hall d Hd) as [-> | Hv]; [reflexivity|].
  destruct (fgtb d (Finite 0)); [exact Hv | reflexivity].
Qed.

Lemma loss_flat (delta : Series) :
  Forall nan_or_zero delta ->
  Forall (fun x => has_value x 0)
         (map fneg (where_ (fun d => fltb d (Finite 0)) (Finite 0) delta)).
Proof.
  intros Hall. unfold where_. rewrite map_map. apply List.Forall_forall. intros z Hz.
  apply in_map_iff in Hz. destruct Hz as (d & <- & Hd).
  destruct (proj1 (List.Forall_forall _ _) Hall d Hd) as [-> | Hv]; [reflexivity|].
  destruct (fltb d (Finite 0)); [|reflexivity].
  destruct d as [a| | |]; simpl in *; try contradiction. now rewrite Hv.
Qed.

Lemma rsi_flat (close : Series) (c : Q) (window : nat) :
  Forall (fun x => has_value x c) close ->
  Forall (fun r => r = NaN) (rsi close window).
Proof.
  intros Hall. unfold rsi. apply List.Forall_forall. intros z Hz.
  apply in_zip_with in Hz. destruct Hz as (g & l & Hg & Hl & ->).
  apply rsi_formula_nan, fdiv_nan_or_zero.
  - exact (proj1 (List.Forall_forall _ _)
             (rolling_mean_zero _ window (gain_flat _ (diff_flat _ _ Hall))) g Hg).
  - exact (proj1 (List.Forall_forall _ _)
             (rolling_mean_zero _ window (loss_flat _ (diff_flat _ _ Hall))) l Hl).
Qed.

Lemma length_rolling (agg : list pyfloat -> pyfloat) (s : Series) (w : nat) :
  length (rolling agg s w) = length s.
Proof. unfold rolling. now rewrite length_map, length_seq. Qed.

Lemma length_diff (s : Series) : length (diff s) = length s.
Proof.
  destruct s as [|x rest]; [reflexivity|]. cbn [diff length].
  rewrite length_zip_with. cbn [length]. lia.
Qed.

Lemma length_rsi (close : Series) (window : nat) :
  length (rsi close window) = length close.
Proof.
  unfold rsi, where_. rewrite length_zip_with, !length_rolling, !length_map.
  rewrite length_diff. lia.
Qed.

Lemma nth_zip_with {A B C : Type} (f : A -> B -> C) (l : list A) (m : list B)
  (i : nat) (da : A) (db : B) (dc : C) :
  (i < length l)%nat -> (i < length m)%nat ->
  nth i (zip_with f l m) dc = f (nth i l da) (nth i m db).
Proof.
  revert m i. induction l as [|x l IH]; intros [|y m] [|i]; simpl;
    try lia; try reflexivity.
  intros Hl Hm. apply IH; lia.
Qed.

Lemma rsi_iloc (close : Series) (window i : nat) :
  (i < length close)%nat ->
  iloc (rsi close window) i =
  rsi_formula (iloc (avg_gain close window) i) (iloc (avg_loss close window) i).
Proof.
  intros Hi. unfold iloc, rsi. fold (avg_gain close window).
  fold (avg_loss close window).
  apply nth_zip_with; unfold avg_gain, avg_loss, where_;
    rewrite length_rolling, ?length_map, length_diff; exact Hi.
Qed.

Lemma rsi_formula_loss_zero (g l : Q) :
  l == 0 -> 0 < g -> has_value (rsi_formula (Finite g) (Finite l)) 100.
Proof.
  intros Hl Hg. unfold rsi_formula. cbn [fdiv].
  rewrite (Qeq_bool_true l 0 Hl).
  assert (Hg0 : Qeq_bool g 0 = false).
  { destruct (Qeq_bool g 0) eqn:E; [|reflexivity].
    apply Qeq_bool_iff in E. rewrite E in Hg. now apply Qlt_irrefl in Hg. }
  rewrite Hg0, (Qltb_true 0 g Hg). reflexivity.
Qed.

Lemma rsi_formula_both_zero (g l : Q) :
  g == 0 -> l == 0 -> rsi_formula (Finite g) (Finite l) = NaN.
Proof.
  intros Hg Hl. apply rsi_formula_nan, fdiv_nan_or_zero; now right.
Qed.

Lemma map_zip_with {A B C D : Type} (g : C -> D) (f : A -> B -> C)
  (l : list A) (m : list B) :
  map g (zip_with f l m) = zip_with (fun a b => g (f a b)) l m.
Proof. unfold zip_with. now rewrite map_map. Qed.

(** The RSI column of [calculate_technical_indicators] is [rsi] with the
    window 14. *)
Lemma technical_indicators_rsi (data : DataFrame) :
  MarketData.RSI (MarketData.calculate_technical_indicators data)
  = Some (rsi (column Close data) 14).
Proof.
  unfold MarketData.calculate_technical_indicators, rsi, column.
  cbn [MarketData.RSI]. rewrite map_zip_with, map_map. reflexivity.
Qed.

(** C5 (amended).  Every entry of [rsi], and of the RSI column of
    [calculate_technical_indicators], is
    [100 - 100 / (1 + avg_gain / avg_loss)] in NumPy arithmetic, with no
    special case: when [avg_loss] is zero and [avg_gain] is positive the
    quotient is an infinity and the RSI is 100; when both are zero the
    quotient 0/0 is NaN and so is the RSI.  Hence for a series whose closes
    are all equal every entry of [rsi], after the warm-up as well as during
    it, is NaN (not 50). *)
Theorem rsi_zero_denominators :
  (forall (close : Series) (window i : nat),
      (i < length close)%nat ->
      iloc (rsi close window) i =
      rsi_formula (iloc (avg_gain close window) i)
                  (iloc (avg_loss close window) i)) /\
  (forall data : DataFrame,
      MarketData.RSI (MarketData.calculate_technical_indicators data)
      = Some (rsi (column Close data) 14)) /\
  (forall g l : Q,
      l == 0 -> 0 < g -> has_value (rsi_formula (Finite g) (Finite l)) 100) /\
  (forall g l : Q,
      g == 0 -> l == 0 -> rsi_formula (Finite g) (Finite l) = NaN) /\
  (forall (close : Series) (c : Q) (window : nat),
      Forall (fun x => has_value x c) close ->
      length (rsi close window) = length close /\
      Forall (fun r => r = NaN) (rsi close window)).
Proof.
  split; [exact rsi_iloc|].
  split; [exact technical_indicators_rsi|].
  split; [exact rsi_formula_loss_zero|].
  split; [exact rsi_formula_both_zero|].
  intros close c window Hall. split; [apply length_rsi | now apply rsi_flat with c].
Qed.

(** C5, as stated, fails: twenty closes of 100 and the default window 14;
    bar 15 is past the warm-up and its RSI is NaN, not 50. *)
Lemma rsi_flat_is_not_50 :
  let close := repeat (Finite 100) 20 in
  iloc (avg_gain close 14) 15 = Finite (0 # 14) /\
  iloc (avg_loss close 14) 15 = Finite (0 # 14) /\
  iloc (rsi close 14) 15 = NaN /\
  ~ has_value (iloc (rsi close 14) 15) 50 /\
  MarketData.RSI
    (MarketData.calculate_technical_indicators
       (repeat (mkBar 100 100 100 100 1) 20))
  = Some (repeat NaN 20).
Proof.
  cbv zeta. repeat split; try (vm_compute; reflexivity).
  intros H. vm_compute in H. exact H.
Qed.

(** *** supertrend *)

Lemma supertrend_loop_seq (close upper lower : Series) (n a : nat) :
  supertrend_loop close upper lower (seq (S a) n)
                  (trend_state close upper lower a) =
  map (fun i => emit upper lower i (trend_state close upper lower i))
      (seq (S a) n).
Proof.
  revert a. induction n as [|n IH]; intros a; [reflexivity|].
  cbn [seq supertrend_loop map]. f_equal. exact (IH (S a)).
Qed.

Lemma length_supertrend_loop (close upper lower : Series) (indices : list nat)
  (st : bool) :
  length (supertrend_loop close upper lower indices st) = length indices.
Proof.
  revert st. induction indices as [|i rest IH]; intros st; [reflexivity|].
  simpl. now rewrite IH.
Qed.

Lemma supertrend_lengths (df : DataFrame) (period : nat) (multiplier : Q) :
  length (fst (supertrend df period multiplier)) = length df /\
  length (snd (supertrend df period multiplier)) = length df.
Proof.
  unfold supertrend. cbn [fst snd]. rewrite !length_map.
  destruct (length df) as [|n]; [now split|].
  cbn [length]. rewrite length_supertrend_loop, length_seq. now split.
Qed.

Lemma supertrend_later_bar (df : DataFrame) (period : nat) (multiplier : Q)
  (i : nat) :
  (S i < length df)%nat ->
  nth (S i) (snd (supertrend df period multiplier)) 0%Z
  = (if trend_state (column Close df) (upper_band df period multiplier)
                    (lower_band df period multiplier) (S i)
     then 1 else -1)%Z /\
  iloc (fst (supertrend df period multiplier)) (S i)
  = (if trend_state (column Close df) (upper_band df period multiplier)
                    (lower_band df period multiplier) (S i)
     then iloc (lower_band df period multiplier) (S i)
     else iloc (upper_band df period multiplier) (S i)).
Proof.
  intros Hi. unfold iloc, supertrend. cbn [fst snd].
  set (close := column Close df).
  set (upper := upper_band df period multiplier).
  set (lower := lower_band df period multiplier).
  destruct (length df) as [|n]; [lia|].
  change true with (trend_state close upper lower 0).
  rewrite supertrend_loop_seq. cbn [map nth].
  rewrite !map_map.
  rewrite (nth_indep _ 0%Z (snd (emit upper lower 0 true)))
    by (rewrite length_map, length_seq; lia).
  rewrite (nth_indep _ NaN (fst (emit upper lower 0 true)))
    by (rewrite length_map, length_seq; lia).
  rewrite (map_nth (fun x => snd (emit upper lower x _)) (seq 1 n) 0%nat i).
  rewrite (map_nth (fun x => fst (emit upper lower x _)) (seq 1 n) 0%nat i).
  rewrite seq_nth by lia. cbn [Nat.add]. unfold emit.
  destruct (trend_state close upper lower (S i)); split; reflexivity.
Qed.

Lemma supertrend_first_bar (df : DataFrame) (period : nat) (multiplier : Q) :
  df <> [] ->
  nth 0 (snd (supertrend df period multiplier)) 0%Z = 1%Z /\
  iloc (fst (supertrend df period multiplier)) 0 = iloc (hl2 df) 0.
Proof.
  intros Hne. unfold iloc, supertrend. cbn [fst snd].
  destruct df as [|b rest]; [congruence|]. cbn [length map nth]. now split.
Qed.

Lemma supertrend_direction (df : DataFrame) (period : nat) (multiplier : Q)
  (i : nat) :
  (i < length df)%nat ->
  nth i (snd (supertrend df period multiplier)) 0%Z
  = (if trend_state (column Close df) (upper_band df period multiplier)
                    (lower_band df period multiplier) i
     then 1 else -1)%Z.
Proof.
  intros Hi. destruct i as [|i].
  - apply supertrend_first_bar. intros E. rewrite E in Hi. simpl in Hi. lia.
  - now apply supertrend_later_bar.
Qed.

(** *** The bands of well-formed bars

    When every bar has [Low <= High] and the multiplier is not negative,
    the lower band is not above the upper band, and the two tests of the
    loop cannot both hold. *)

Lemma zip_with_map_same {A B C D : Type} (f : B -> C -> D) (g : A -> B)
  (h : A -> C) (l : list A) :
  zip_with f (map g l) (map h l) = map (fun x => f (g x) (h x)) l.
Proof.
  unfold zip_with. induction l as [|x l IH]; [reflexivity|].
  cbn [map combine fst snd]. now rewrite IH.
Qed.

Lemma hl2_finite (df : DataFrame) :
  hl2 df = map (fun b => Finite ((High b + Low b) / 2)) df.
Proof.
  unfold hl2, column. rewrite zip_with_map_same, map_map. reflexivity.
Qed.

Lemma fold_max_ge (f : Bar -> Q) (rest : DataFrame) (x : Q) :
  exists M,
    fold_left (fun m y => if fltb m y then y else m) (column f rest) (Finite x)
    = Finite M /\ x <= M.
Proof.
  revert x. induction rest as [|b rest IH]; intros x.
  - exists x. split; [reflexivity | apply Qle_refl].
  - cbn [column map fold_left fltb]. destruct (Qltb x (f b)) eqn:E.
    + destruct (IH (f b)) as (M & HM & Hle). exists M. split; [exact HM|].
      apply Qltb_lt in E. lra.
    + apply IH.
Qed.

Lemma fold_min_le (f : Bar -> Q) (rest : DataFrame) (x : Q) :
  exists m,
    fold_left (fun m y => if fltb y m then y else m) (column f rest) (Finite x)
    = Finite m /\ m <= x.
Proof.
  revert x. induction rest as [|b rest IH]; intros x.
  - exists x. split; [reflexivity | apply Qle_refl].
  - cbn [column map fold_left fltb]. destruct (Qltb (f b) x) eqn:E.
    + destruct (IH (f b)) as (m & Hm & Hle). exists m. split; [exact Hm|].
      apply Qltb_lt in E. lra.
    + apply IH.
Qed.

Lemma window_at_column (f : Bar -> Q) (df : DataFrame) (w i : nat) :
  window_at (column f df) w i =
  if (w <=? S i)%nat then Some (column f (firstn w (skipn (S i - w) df)))
  else None.
Proof.
  unfold window_at, column. now rewrite skipn_map, firstn_map.
Qed.

Lemma column_no_nan (f : Bar -> Q) (df : DataFrame) :
  existsb is_nan (column f df) = false.
Proof. induction df as [|b df IH]; [reflexivity | exact IH]. Qed.

Lemma range_nonneg (df : DataFrame) (period : nat) :
  Forall (fun b => Low b <= High b) df ->
  Forall nan_or_nonneg
         (zip_with fsub (rolling fmax (column High df) period)
                        (rolling fmin (column Low df) period)).
Proof.
  intros Hwf. unfold rolling, column at 2 4. rewrite !length_map.
  rewrite zip_with_map_same. apply List.Forall_forall. intros x Hx.
  apply in_map_iff in Hx. destruct Hx as (i & <- & _).
  rewrite !window_at_column. destruct (period <=? S i)%nat; [|now left].
  rewrite !column_no_nan.
  destruct (firstn period (skipn (S i - period) df)) as [|b rest] eqn:Ew;
    [now left|].
  assert (Hb : Low b <= High b).
  { apply (proj1 (List.Forall_forall _ _) Hwf).
    eapply In_skipn, In_firstn. rewrite Ew. now left. }
  cbn [column map fmax fmin]. fold (column High rest). fold (column Low rest).
  destruct (fold_max_ge High rest (High b)) as (M & -> & HM).
  destruct (fold_min_le Low rest (Low b)) as (m & -> & Hm).
  right. exists (M + - m). split; [reflexivity | lra].
Qed.

Lemma fold_fadd_nonneg (obs : list pyfloat) (acc : Q) :
  0 <= acc -> Forall nan_or_nonneg obs -> existsb is_nan obs = false ->
  exists s, fold_left fadd obs (Finite acc) = Finite s /\ 0 <= s.
Proof.
  revert acc. induction obs as [|x obs IH]; intros acc Hacc Hall Hnan.
  - exists acc. now split.
  - inversion Hall as [|? ? Hx Hrest]; subst. cbn [existsb] in Hnan.
    apply Bool.orb_false_iff in Hnan. destruct Hnan as [Hxn Hnan].
    destruct Hx as [-> | (a & -> & Ha)]; [discriminate|].
    cbn [fold_left fadd]. apply IH; [lra | exact Hrest | exact Hnan].
Qed.

Lemma rolling_mean_nonneg (s : Series) (w : nat) :
  Forall nan_or_nonneg s -> Forall nan_or_nonneg (rolling mean s w).
Proof.
  intros Hall. unfold rolling. apply List.Forall_forall. intros x Hx.
  apply in_map_iff in Hx. destruct Hx as (i & <- & _).
  destruct (window_at s w i) as [obs|] eqn:Hw; [|now left].
  destruct (existsb is_nan obs) eqn:Hnan; [now left|].
  assert (Hobs : Forall nan_or_nonneg obs).
  { apply List.Forall_forall. intros y Hy.
    apply (proj1 (List.Forall_forall _ s) Hall), (window_at_incl _ _ _ _ Hw), Hy. }
  destruct (fold_fadd_nonneg obs 0 (Qle_refl 0) Hobs Hnan) as (t & Ht & Hpos).
  destruct obs as [|y obs]; [now left|].
  unfold mean, fsum. rewrite Ht. unfold of_nat, fdiv. cbn [length].
  assert (Hlen : 0 < inject_Z (Z.of_nat (S (length obs)))).
  { change 0 with (inject_Z 0). rewrite <- Zlt_Qlt. lia. }
  destruct (Qeq_bool (inject_Z (Z.of_nat (S (length obs)))) 0) eqn:E.
  - apply Qeq_bool_iff in E. rewrite E in Hlen. now apply Qlt_irrefl in Hlen.
  - right. eexists. split; [reflexivity|].
    apply Qmult_le_0_compat; [exact Hpos|].
    apply Qinv_le_0_compat, Qlt_le_weak, Hlen.
Qed.

Lemma atr_nonneg (df : DataFrame) (period : nat) :
  Forall (fun b => Low b <= High b) df ->
  Forall nan_or_nonneg (atr df period).
Proof. intros Hwf. unfold atr. now apply rolling_mean_nonneg, range_nonneg. Qed.

Lemma tests_exclusive (df : DataFrame) (period : nat) (multiplier : Q)
  (i : nat) (x : pyfloat) :
  0 <= multiplier -> Forall (fun b => Low b <= High b) df ->
  fgtb x (iloc (upper_band df period multiplier) i) = true ->
  fltb x (iloc (lower_band df period multiplier) i) = true ->
  False.
Proof.
  intros Hm Hwf. unfold upper_band, lower_band, iloc, fgtb.
  set (ms := map (fmul (Finite multiplier)) (atr df period)).
  destruct (Nat.lt_ge_cases i (Nat.min (length (hl2 df)) (length ms)))
    as [Hi | Hi].
  - rewrite (nth_zip_with fadd _ _ i NaN NaN NaN) by lia.
    rewrite (nth_zip_with fsub _ _ i NaN NaN NaN) by lia.
    assert (Hh : exists h, nth i (hl2 df) NaN = Finite h).
    { assert (Hin : In (nth i (hl2 df) NaN) (hl2 df)) by (apply nth_In; lia).
      rewrite hl2_finite in Hin at 2. apply in_map_iff in Hin.
      destruct Hin as (b & <- & _). eauto. }
    destruct Hh as (h & ->).
    assert (Hc : nan_or_nonneg (nth i ms NaN)).
    { assert (Hin : In (nth i ms NaN) ms) by (apply nth_In; lia).
      unfold ms in Hin |- *. apply in_map_iff in Hin.
      destruct Hin as (a & <- & Ha).
      destruct (proj1 (List.Forall_forall _ _) (atr_nonneg df period Hwf) a Ha)
        as [-> | (q & -> & Hq)]; [now left|].
      right. exists (multiplier * q). split; [reflexivity|].
      now apply Qmult_le_0_compat. }
    destruct Hc as [-> | (c & -> & Hc)]; [discriminate|].
    destruct x as [v| | |]; cbn [fadd fsub fneg fltb]; try discriminate.
    intros H1 H2. apply Qltb_lt in H1, H2. lra.
  - rewrite (nth_overflow (zip_with fadd _ _)) by (rewrite length_zip_with; lia).
    destruct x; discriminate.
Qed.

(** On well-formed bars the recurrence reads as the two flips, each on
    its own test. *)
Lemma supertrend_flips (df : DataFrame) (period : nat) (multiplier : Q)
  (i : nat) :
  0 <= multiplier -> Forall (fun b => Low b <= High b) df ->
  (0 < i < length df)%nat ->
  let dir := snd (supertrend df period multiplier) in
  let above :=
    fgtb (iloc (column Close df) i)
         (iloc (upper_band df period multiplier) (i - 1)) in
  let below :=
    fltb (iloc (column Close df) i)
         (iloc (lower_band df period multiplier) (i - 1)) in
  (above = true -> nth i dir 0%Z = 1%Z) /\
  (below = true -> nth i dir 0%Z = (-1)%Z) /\
  (above = false -> below = false -> nth i dir 0%Z = nth (i - 1) dir 0%Z).
Proof.
  intros Hm Hwf [Hpos Hi]. cbv zeta. destruct i as [|i]; [lia|].
  rewrite (supertrend_direction df period multiplier (S i)) by lia.
  rewrite (supertrend_direction df period multiplier (S i - 1)) by lia.
  cbn [trend_state]. unfold next_trend.
  replace (S i - 1)%nat with i by lia.
  destruct (fgtb _ _) eqn:Ea.
  - split; [reflexivity|]. split; [|discriminate].
    intros Eb. exfalso. eapply tests_exclusive; eauto.
  - split; [discriminate|]. destruct (fltb _ _) eqn:Eb.
    + split; [reflexivity | discriminate].
    + split; [discriminate | reflexivity].
Qed.

(** C6.  [supertrend], on bars with [Low <= High] and with a multiplier
    that is not negative (the function is called with its default 3 on
    price bars): at bar 0 the direction is +1 and the line is [hl2]; at
    every later bar the state flips to downtrend exactly when close is
    below the previous bar's lower band, flips to uptrend exactly when
    close is above the previous bar's upper band, and otherwise holds; the
    line is the lower band in uptrend and the upper band in downtrend; and
    every direction is +1 or -1. *)
Theorem supertrend_recurrence (df : DataFrame) (period : nat) (multiplier : Q) :
  0 <= multiplier -> Forall (fun b => Low b <= High b) df ->
  let line := fst (supertrend df period multiplier) in
  let dir := snd (supertrend df period multiplier) in
  let close := column Close df in
  let upper := upper_band df period multiplier in
  let lower := lower_band df period multiplier in
  (length line = length df /\ length dir = length df) /\
  (df <> [] -> nth 0 dir 0%Z = 1%Z /\ iloc line 0 = iloc (hl2 df) 0) /\
  (forall i : nat, (0 < i < length df)%nat ->
     let above := fgtb (iloc close i) (iloc upper (i - 1)) in
     let below := fltb (iloc close i) (iloc lower (i - 1)) in
     (nth (i - 1) dir 0%Z = 1%Z ->
      (nth i dir 0%Z = (-1)%Z <-> below = true)) /\
     (nth (i - 1) dir 0%Z = (-1)%Z ->
      (nth i dir 0%Z = 1%Z <-> above = true)) /\
     (above = true -> nth i dir 0%Z = 1%Z) /\
     (below = true -> nth i dir 0%Z = (-1)%Z) /\
     (above = false -> below = false ->
      nth i dir 0%Z = nth (i - 1) dir 0%Z) /\
     iloc line i =
       (if (nth i dir 0 =? 1)%Z then iloc lower i else iloc upper i)) /\
  (forall i : nat, (i < length df)%nat ->
     nth i dir 0%Z = 1%Z \/ nth i dir 0%Z = (-1)%Z).
Proof.
  intros Hm Hwf. cbv zeta. split; [apply supertrend_lengths|].
  split; [apply supertrend_first_bar|]. split.
  - intros i Hi.
    destruct (supertrend_flips df period multiplier i Hm Hwf Hi)
      as (Hup & Hdown & Hhold).
    cbv zeta in Hup, Hdown, Hhold.
    assert (Hline :
              iloc (fst (supertrend df period multiplier)) i
              = (if (nth i (snd (supertrend df period multiplier)) 0 =? 1)%Z
                 then iloc (lower_band df period multiplier) i
                 else iloc (upper_band df period multiplier) i)).
    { destruct i as [|i]; [lia|].
      destruct (supertrend_later_bar df period multiplier i (proj2 Hi))
        as [Hd Hl].
      rewrite Hd, Hl. now destruct (trend_state _ _ _ (S i)). }
    split; [|split; [|split; [exact Hup|split; [exact Hdown|split;
      [exact Hhold | exact Hline]]]]].
    + intros Hprev. split; [|exact Hdown]. intros Hcur.
      destruct (fltb (iloc (column Close df) i) _) eqn:Eb; [reflexivity|].
      destruct (fgtb (iloc (column Close df) i) _) eqn:Ea.
      * rewrite (Hup eq_refl) in Hcur. discriminate Hcur.
      * rewrite (Hhold eq_refl eq_refl), Hprev in Hcur. discriminate Hcur.
    + intros Hprev. split; [|exact Hup]. intros Hcur.
      destruct (fgtb (iloc (column Close df) i) _) eqn:Ea; [reflexivity|].
      destruct (fltb (iloc (column Close df) i) _) eqn:Eb.
      * rewrite (Hdown eq_refl) in Hcur. discriminate Hcur.
      * rewrite (Hhold eq_refl eq_refl), Hprev in Hcur. discriminate Hcur.
  - intros i Hi. rewrite (supertrend_direction df period multiplier i Hi).
    destruct (trend_state _ _ _ i); [now left | now right].
Qed.

(** The recurrence on three bars, the last of which closes below the
    lower band of the bar before. *)
Lemma supertrend_recurrence_witness :
  let df := [mkBar 10 12 8 10 1; mkBar 10 12 8 10 1; mkBar 5 6 4 5 1] in
  let line := fst (supertrend df 1 1) in
  let dir := snd (supertrend df 1 1) in
  let close := column Close df in
  let upper := upper_band df 1 1 in
  let lower := lower_band df 1 1 in
  0 <= 1 /\
  Forall (fun b => Low b <= High b) df /\
  dir = [1; 1; -1]%Z /\
  (length line = length df /\ length dir = length df) /\
  (df <> [] -> nth 0 dir 0%Z = 1%Z /\ iloc line 0 = iloc (hl2 df) 0) /\
  (forall i : nat, (0 < i < length df)%nat ->
     let above := fgtb (iloc close i) (iloc upper (i - 1)) in
     let below := fltb (iloc close i) (iloc lower (i - 1)) in
     (nth (i - 1) dir 0%Z = 1%Z ->
      (nth i dir 0%Z = (-1)%Z <-> below = true)) /\
     (nth (i - 1) dir 0%Z = (-1)%Z ->
      (nth i dir 0%Z = 1%Z <-> above = true)) /\
     (above = true -> nth i dir 0%Z = 1%Z) /\
     (below = true -> nth i dir 0%Z = (-1)%Z) /\
     (above = false -> below = false ->
      nth i dir 0%Z = nth (i - 1) dir 0%Z) /\
     iloc line i =
       (if (nth i dir 0 =? 1)%Z then iloc lower i else iloc upper i)) /\
  (forall i : nat, (i < length df)%nat ->
     nth i dir 0%Z = 1%Z \/ nth i dir 0%Z = (-1)%Z).
Proof.
  cbv zeta.
  split; [vm_compute; discriminate|].
  split; [repeat constructor; vm_compute; discriminate|].
  split; [vm_compute; reflexivity|].
  apply (supertrend_recurrence
           [mkBar 10 12 8 10 1; mkBar 10 12 8 10 1; mkBar 5 6 4 5 1] 1 1).
  - vm_compute; discriminate.
  - repeat constructor; vm_compute; discriminate.
Defined.

(** *** volume_profile *)

Lemma flat_fold (step : pyfloat -> pyfloat -> pyfloat) (c : Q)
  (rest : list Q) (x : Q) :
  (forall m y, step m y = m \/ step m y = y) ->
  x == c -> Forall (fun y => y == c) rest ->
  has_value (fold_left step (map Finite rest) (Finite x)) c.
Proof.
  intros Hstep. revert x. induction rest as [|y rest IH]; intros x Hx Hall.
  - exact Hx.
  - inversion Hall as [|? ? Hy Hrest]; subst. cbn [map fold_left].
    destruct (Hstep (Finite x) (Finite y)) as [-> | ->]; now apply IH.
Qed.

Lemma flat_min_max (close : list Q) (c : Q) :
  Forall (fun y => y == c) close -> close <> [] ->
  has_value (fmin (map Finite close)) c /\ has_value (fmax (map Finite close)) c.
Proof.
  intros Hall Hne. destruct close as [|x rest]; [congruence|].
  inversion Hall as [|? ? Hx Hrest]; subst. cbn [map fmin fmax].
  split; apply flat_fold; auto; intros m y.
  - destruct (fltb y m); auto.
  - destruct (fltb m y); auto.
Qed.

Lemma linspace_flat (start stop : pyfloat) (c : Q) (num : nat) :
  has_value start c -> has_value stop c ->
  Forall (fun level => has_value level c) (linspace start stop num).
Proof.
  intros Hstart Hstop. destruct num as [|[|k]]; cbn [linspace].
  - constructor.
  - now repeat constructor.
  - destruct start as [p| | |], stop as [q| | |]; simpl in Hstart, Hstop;
      try contradiction.
    apply Forall_app. split; [|now repeat constructor].
    apply List.Forall_forall. intros level Hin. apply in_map_iff in Hin.
    destruct Hin as (i & <- & _). unfold of_nat. cbn [fsub fneg fadd fdiv].
    assert (Hdiv : 0 < inject_Z (Z.of_nat (S k))).
    { change 0 with (inject_Z 0). rewrite <- Zlt_Qlt. lia. }
    destruct (Qeq_bool (inject_Z (Z.of_nat (S k))) 0) eqn:E.
    + apply Qeq_bool_iff in E. rewrite E in Hdiv. now apply Qlt_irrefl in Hdiv.
    + cbn [fmul fadd has_value]. rewrite Hstart, Hstop.
      assert (Hne : ~ inject_Z (Z.of_nat (S k)) == 0) by lra. field. exact Hne.
Qed.

Lemma level_volume_flat (close volume : list Q) (c : Q)
  (level_low level_high : pyfloat) :
  Forall (fun y => y == c) close ->
  level_high = NaN \/ has_value level_high c ->
  level_volume close volume level_low level_high = 0.
Proof.
  intros Hall Hhigh. unfold level_volume.
  replace (List.filter _ (combine close volume)) with (@nil (Q * Q));
    [reflexivity|].
  symmetry. induction (combine close volume) as [|[x v] rest IH] eqn:E
    in close, volume, Hall |- *; [reflexivity|].
  destruct close as [|x' close], volume as [|v' volume]; try discriminate.
  injection E as -> -> E. inversion Hall as [|? ? Hx Hrest]; subst.
  cbn [List.filter fst].
  assert (Hlt : fltb (Finite x) level_high = false).
  { destruct Hhigh as [-> | Hh]; [reflexivity|].
    destruct level_high as [h| | |]; simpl in Hh; try contradiction.
    cbn [fltb]. apply Qltb_irrefl_eq. now rewrite Hx, Hh. }
  rewrite Hlt, Bool.andb_false_r. eapply IH; eauto.
Qed.

Lemma volume_profile_flat (close volume : list Q) (bins : nat) (c : Q) :
  Forall (fun y => y == c) close ->
  Forall (fun level => vp_volume level = 0) (volume_profile close volume bins).
Proof.
  intros Hall. unfold volume_profile. apply List.Forall_forall.
  intros level Hin. apply in_map_iff in Hin. destruct Hin as (i & <- & _).
  cbn [vp_volume]. apply level_volume_flat with c; [exact Hall|].
  destruct close as [|x rest] eqn:Ec.
  - left. cbn [map fmin fmax]. unfold iloc.
    destruct bins as [|[|k]]; cbn [linspace]; [now destruct i| |].
    + destruct i as [|[|i]]; reflexivity.
    + set (levels := map _ (seq 0 (S k)) ++ [NaN]).
      assert (Hnan : Forall (fun l => l = NaN) levels).
      { unfold levels. apply Forall_app. split; [|now repeat constructor].
        apply List.Forall_forall. intros l Hl. apply in_map_iff in Hl.
        destruct Hl as (n & <- & _). reflexivity. }
      destruct (Nat.lt_ge_cases (i + 1) (length levels)) as [Hi | Hi].
      * apply (proj1 (List.Forall_forall _ _) Hnan), nth_In, Hi.
      * now apply nth_overflow.
  - rewrite <- Ec in *.
    assert (Hne : close <> []) by (rewrite Ec; discriminate).
    destruct (flat_min_max close c Hall Hne) as [Hmin Hmax].
    pose proof (linspace_flat _ _ c bins Hmin Hmax) as Hlevels.
    unfold iloc.
    destruct (Nat.lt_ge_cases (i + 1)
                (length (linspace (fmin (map Finite close))
                                  (fmax (map Finite close)) bins)))
      as [Hi | Hi].
    + right. apply (proj1 (List.Forall_forall _ _) Hlevels), nth_In, Hi.
    + left. now apply nth_overflow.
Qed.

(** C7 fails on the code.  When all closes are equal every level that
    [volume_profile] returns has volume 0, whatever [bins] is: each level
    is the half-open range from a price to the same price.  With three
    bars that close at 10 and [bins = 10] it returns 9 levels, and the
    volumes 1 + 2 + 3 of the input are in none.  With closes 1, 2, 3 and
    [bins = 3] it returns 2 levels and the bar at the highest close is in
    neither. *)
Theorem volume_profile_drops_volume :
  (forall (close volume : list Q) (bins : nat) (c : Q),
      Forall (fun y => y == c) close ->
      Forall (fun level => vp_volume level = 0)
             (volume_profile close volume bins)) /\
  map vp_volume (volume_profile [10; 10; 10] [1; 2; 3] 10) = repeat 0 9 /\
  total_volume (volume_profile [10; 10; 10] [1; 2; 3] 10) = 0 /\
  map vp_volume (volume_profile [1; 2; 3] [5; 7; 11] 3) = [5; 7] /\
  ~ total_volume (volume_profile [1; 2; 3] [5; 7; 11] 3) == 5 + 7 + 11.
Proof.
  split; [exact volume_profile_flat|].
  repeat split; try (vm_compute; reflexivity).
  vm_compute. discriminate.
Qed.

(** A run on well-formed bars with period 1 and multiplier 1: the close of
    bar 1 is below the lower band of bar 0 and the trend turns down; the
    close of bar 2 is above the upper band of bar 1 and it turns up
    again. *)
Example supertrend_turns :
  let df := [mkBar 10 12 8 10 1; mkBar 6 7 3 5 1; mkBar 20 22 18 20 1] in
  snd (supertrend df 1 1) = [1; -1; 1]%Z /\
  fst (supertrend df 1 1)
  = [iloc (hl2 df) 0; iloc (upper_band df 1 1) 1; iloc (lower_band df 1 1) 2].
Proof. cbv zeta. split; vm_compute; reflexivity. Qed.

End IndicatorFacts.

(* ================================================================== *)
(** ** Facts about [list.sort] *)
(* ================================================================== *)

Module SortFacts.

Import Vocabulary.

Section AnyKey.

Context {A K : Type}.
Variable lt : K -> K -> bool.
Variable key : A -> K.

Lemma insert_sorted_perm (reverse : bool) (x : A) (l : list A) :
  Permutation (insert_sorted lt key reverse x l) (x :: l).
Proof.
  induction l as [|y l IH]; [reflexivity|]. simpl.
  destruct (stays_in_front lt key reverse y x); [|reflexivity].
  rewrite IH. apply perm_swap.
Qed.

Lemma list_sort_perm (reverse : bool) (l : list A) :
  Permutation (list_sort lt key reverse l) l.
Proof.
  induction l as [|x l IH]; [reflexivity|]. simpl.
  rewrite insert_sorted_perm. now apply perm_skip.
Qed.

Lemma length_list_sort (reverse : bool) (l : list A) :
  length (list_sort lt key reverse l) = length l.
Proof. apply Permutation_length, list_sort_perm. Qed.

End AnyKey.

Section ScoreKey.

Context {A : Type}.
Variable key : A -> Q.

Lemma Qltb_false_le (a b : Q) : Qltb a b = false -> b <= a.
Proof.
  unfold Qltb. intros H. apply Bool.negb_false_iff in H.
  now apply Qle_bool_iff.
Qed.

Lemma Qltb_true_lt (a b : Q) : Qltb a b = true -> a < b.
Proof.
  unfold Qltb. intros H. apply Bool.negb_true_iff in H.
  apply Qnot_le_lt. intros Hle. apply Qle_bool_iff in Hle. congruence.
Qed.

Lemma insert_sorted_descending (x : A) (l : list A) :
  StronglySorted (not_below key) l ->
  StronglySorted (not_below key) (insert_sorted Qltb key true x l).
Proof.
  induction 1 as [|y l Hsorted IH Hall]; simpl.
  - constructor; constructor.
  - unfold stays_in_front. destruct (Qltb (key x) (key y)) eqn:E.
    + constructor; [exact IH|].
      eapply Permutation_Forall; [symmetry; apply insert_sorted_perm|].
      constructor; [|exact Hall].
      apply Qlt_le_weak, Qltb_true_lt, E.
    + apply Qltb_false_le in E. constructor.
      * now constructor.
      * constructor; [exact E|].
        eapply List.Forall_impl; [|exact Hall].
        intros z Hz. unfold not_below in *. eapply Qle_trans; eauto.
Qed.

Lemma list_sort_descending (l : list A) :
  StronglySorted (not_below key) (list_sort Qltb key true l).
Proof.
  induction l as [|x l IH]; simpl; [constructor|].
  now apply insert_sorted_descending.
Qed.

Lemma with_key_insert_sorted (q : Q) (x : A) (l : list A) :
  with_key key q (insert_sorted Qltb key true x l) = with_key key q (x :: l).
Proof.
  induction l as [|y l IH]; [reflexivity|].
  cbn [insert_sorted]. unfold stays_in_front.
  destruct (Qltb (key x) (key y)) eqn:E; [|reflexivity].
  unfold with_key in *. cbn [List.filter] in *. rewrite IH.
  destruct (Qeq_bool (key x) q) eqn:Ex, (Qeq_bool (key y) q) eqn:Ey;
    try reflexivity.
  exfalso. apply Qeq_bool_iff in Ex, Ey. apply Qltb_true_lt in E.
  rewrite Ex, Ey in E. now apply Qlt_irrefl in E.
Qed.

(** Stability: rows with equal keys keep the order they had. *)
Lemma list_sort_stable (q : Q) (l : list A) :
  with_key key q (list_sort Qltb key true l) = with_key key q l.
Proof.
  induction l as [|x l IH]; [reflexivity|].
  cbn [list_sort fold_right]. rewrite with_key_insert_sorted.
  unfold with_key in *. cbn [List.filter]. fold (list_sort Qltb key true l).
  now rewrite IH.
Qed.

End ScoreKey.

(** The order of floats, away from NaN. *)
Lemma fleb_trans (a b c : pyfloat) :
  fleb a b = true -> fleb b c = true -> fleb a c = true.
Proof.
  destruct a as [x| | |], b as [y| | |], c as [z| | |]; simpl;
    try discriminate; try reflexivity.
  intros H1 H2. apply Qle_bool_iff in H1, H2. apply Qle_bool_iff.
  eapply Qle_trans; eauto.
Qed.

Lemma fltb_not_fleb (a b : pyfloat) : fltb a b = true -> fleb b a = false.
Proof.
  destruct a as [x| | |], b as [y| | |]; simpl; try discriminate;
    try reflexivity.
  unfold Qltb. now intros H%Bool.negb_true_iff.
Qed.

Lemma fltb_fleb (a b : pyfloat) : fltb a b = true -> fleb a b = true.
Proof.
  destruct a as [x| | |], b as [y| | |]; simpl; try discriminate;
    try reflexivity.
  intros H. apply Qle_bool_iff, Qlt_le_weak, Qltb_true_lt, H.
Qed.

Lemma fltb_false_fleb (a b : pyfloat) :
  is_nan a = false -> is_nan b = false -> fltb a b = false -> fleb b a = true.
Proof.
  destruct a as [x| | |], b as [y| | |]; simpl; try discriminate;
    try reflexivity.
  intros _ _ H. apply Qle_bool_iff, Qltb_false_le, H.
Qed.

Section FloatKey.

Context {A : Type}.
Variable key : A -> pyfloat.

Lemma insert_sorted_in_order (reverse : bool) (x : A) (l : list A) :
  no_nan_key key x -> Forall (no_nan_key key) l ->
  StronglySorted (in_order key reverse) l ->
  StronglySorted (in_order key reverse) (insert_sorted fltb key reverse x l).
Proof.
  intros Hx Hl Hsorted. induction Hsorted as [|y l Hsorted IH Hall]; simpl.
  - constructor; constructor.
  - inversion Hl as [|? ? Hy Hl']; subst. specialize (IH Hl').
    destruct (stays_in_front fltb key reverse y x) eqn:E.
    + constructor; [exact IH|].
      eapply Permutation_Forall; [symmetry; apply insert_sorted_perm|].
      constructor; [|exact Hall].
      unfold stays_in_front in E. unfold in_order.
      destruct reverse; now apply fltb_fleb.
    + assert (Hxy : in_order key reverse x y).
      { unfold stays_in_front in E. unfold in_order.
        destruct reverse; now apply fltb_false_fleb. }
      constructor; [now constructor|]. constructor; [exact Hxy|].
      eapply List.Forall_impl; [|exact Hall].
      intros z Hz. unfold in_order in *.
      destruct reverse; eapply fleb_trans; eauto.
Qed.

Lemma list_sort_in_order (reverse : bool) (l : list A) :
  Forall (no_nan_key key) l ->
  StronglySorted (in_order key reverse) (list_sort fltb key reverse l).
Proof.
  induction 1 as [|x l Hx Hl IH]; simpl; [constructor|].
  apply insert_sorted_in_order; [exact Hx | | exact IH].
  eapply Permutation_Forall; [symmetry; apply list_sort_perm | exact Hl].
Qed.

End FloatKey.

End SortFacts.

(* ================================================================== *)
(** ** Facts about the screener *)
(* ================================================================== *)

Module ScreenerFacts.

Import Indicators MarketData Fundamentals Screener Vocabulary SortFacts.

Section Loop.

Variable env : Provider.

Lemma get_stock_data_cached_returns (symbol : string) (w : world) :
  exists r w', _get_stock_data_cached env symbol w = (Returned r, w').
Proof.
  unfold _get_stock_data_cached.
  destruct (check_cache env symbol w) as [[d | t] w1]; [eauto|].
  destruct (fetch_fresh env symbol t w1) as [r w2]. eauto.
Qed.

Lemma for_each_symbol_collect {Row : Type}
  (body : string -> StockData -> outcome (option Row))
  (symbols : list string) (w : world) :
  fst (for_each_symbol env body symbols w) = collect body (fetch_all env symbols w).
Proof.
  revert w. induction symbols as [|symbol rest IH]; intros w; [reflexivity|].
  cbn [for_each_symbol fetch_all]. unfold bind at 1.
  destruct (get_stock_data_cached_returns symbol w) as (r & w1 & ->).
  destruct r as [stock_data|]; [|apply IH].
  cbn [collect]. unfold bind, lift, obind, ret.
  destruct (body symbol stock_data) as [row | e]; [|reflexivity].
  specialize (IH w1).
  destruct (for_each_symbol env body rest w1) as [[rows | e] w2];
    cbn [fst] in *; rewrite <- IH; reflexivity.
Qed.

Lemma fetch_all_sublist (symbols : list string) (w : world) :
  map fst (fetch_all env symbols w) `sublist_of` symbols.
Proof.
  revert w. induction symbols as [|symbol rest IH]; intros w; [constructor|].
  cbn [fetch_all].
  destruct (_get_stock_data_cached env symbol w) as [[[d|]|e] w1].
  - cbn [map fst]. apply sublist_skip, IH.
  - apply sublist_cons, IH.
  - apply sublist_cons, IH.
Qed.

Section Collect.

Context {Row : Type}.
Variable body : string -> StockData -> outcome (option Row).

Lemma collect_total (fetched : list (string * StockData)) :
  (forall symbol stock_data e, body symbol stock_data <> Raised e) ->
  exists rows, collect body fetched = Returned rows.
Proof.
  intros Hbody. induction fetched as [|[symbol stock_data] rest IH];
    [now exists []|].
  cbn [collect]. destruct (body symbol stock_data) as [row | e] eqn:E;
    [|now apply Hbody in E].
  destruct IH as (rows & ->). cbn [obind]. eauto.
Qed.

Lemma collect_sound (fetched : list (string * StockData)) (rows : list Row)
  (row : Row) :
  collect body fetched = Returned rows -> In row rows ->
  exists symbol stock_data,
    In (symbol, stock_data) fetched /\
    body symbol stock_data = Returned (Some row).
Proof.
  revert rows. induction fetched as [|[symbol stock_data] rest IH];
    intros rows Hc Hin.
  - injection Hc as <-. destruct Hin.
  - cbn [collect] in Hc. destruct (body symbol stock_data) as [r | e] eqn:E;
      [|discriminate].
    cbn [obind] in Hc. destruct (collect body rest) as [rows' | e];
      [|discriminate].
    cbn [obind] in Hc. injection Hc as <-.
    destruct r as [r|].
    + destruct Hin as [<- | Hin].
      * exists symbol, stock_data. split; [now left | exact E].
      * destruct (IH rows' eq_refl Hin) as (s & d & Hs & Hb).
        exists s, d. split; [now right | exact Hb].
    + destruct (IH rows' eq_refl Hin) as (s & d & Hs & Hb).
      exists s, d. split; [now right | exact Hb].
Qed.

Lemma collect_complete (fetched : list (string * StockData)) (rows : list Row)
  (symbol : string) (stock_data : StockData) (row : Row) :
  collect body fetched = Returned rows ->
  In (symbol, stock_data) fetched ->
  body symbol stock_data = Returned (Some row) ->
  In row rows.
Proof.
  revert rows. induction fetched as [|[s d] rest IH]; intros rows Hc Hin Hb.
  - destruct Hin.
  - cbn [collect] in Hc. destruct (body s d) as [r | e] eqn:E; [|discriminate].
    cbn [obind] in Hc. destruct (collect body rest) as [rows' | e];
      [|discriminate].
    cbn [obind] in Hc. injection Hc as <-.
    destruct Hin as [[= -> ->] | Hin].
    + rewrite Hb in E. injection E as <-. now left.
    + specialize (IH rows' eq_refl Hin Hb). destruct r; [now right | exact IH].
Qed.

(** The rows come in the order of the symbols. *)
Lemma collect_in_order (sym : Row -> string)
  (fetched : list (string * StockData)) (rows : list Row) :
  (forall symbol stock_data row,
      body symbol stock_data = Returned (Some row) -> sym row = symbol) ->
  collect body fetched = Returned rows ->
  map sym rows `sublist_of` map fst fetched.
Proof.
  intros Hsym. revert rows.
  induction fetched as [|[s d] rest IH]; intros rows Hc.
  - injection Hc as <-. constructor.
  - cbn [collect] in Hc. destruct (body s d) as [r | e] eqn:E; [|discriminate].
    cbn [obind] in Hc. destruct (collect body rest) as [rows' | e];
      [|discriminate].
    cbn [obind] in Hc. injection Hc as <-. cbn [map fst].
    destruct r as [r|].
    + cbn [map]. rewrite (Hsym s d r E). apply sublist_skip. now apply IH.
    + apply sublist_cons. now apply IH.
Qed.

End Collect.

Lemma for_each_symbol_cases {Row : Type}
  (body : string -> StockData -> outcome (option Row))
  (symbols : list string) (w : world) :
  exists o w', for_each_symbol env body symbols w = (o, w') /\
               o = collect body (fetch_all env symbols w).
Proof.
  pose proof (for_each_symbol_collect body symbols w) as H.
  destruct (for_each_symbol env body symbols w) as [o w'].
  exists o, w'. split; [reflexivity | exact H].
Qed.

(** *** The screens, unfolded *)

Lemma fundamental_body_total (sc : FundamentalCriteria) (symbol : string)
  (stock_data : StockData) (e : exn) :
  fundamental_body sc symbol stock_data <> Raised e.
Proof.
  unfold fundamental_body.
  repeat match goal with |- context [if ?b then _ else _] => destruct b end;
    discriminate.
Qed.

Lemma fundamental_body_symbol (sc : FundamentalCriteria) (symbol : string)
  (stock_data : StockData) (row : FundRow) :
  fundamental_body sc symbol stock_data = Returned (Some row) ->
  f_symbol row = symbol.
Proof.
  unfold fundamental_body.
  repeat match goal with |- context [if ?b then _ else _] => destruct b end;
    intros [= <-]; reflexivity.
Qed.

Lemma fundamental_screen_unfold (criteria : FundamentalCriteria) (w : world) :
  exists rows w',
    collect (fundamental_body (with_fundamental_defaults criteria)) (fetched env w)
    = Returned rows /\
    fundamental_screen env criteria w
    = (Returned (list_sort Qltb financial_score true rows), w').
Proof.
  unfold fundamental_screen, try_except, bind, get_stock_universe, ret, fetched.
  destruct (for_each_symbol_cases
              (fundamental_body (with_fundamental_defaults criteria))
              (stock_universe w) w) as (o & w' & -> & ->).
  destruct (collect_total _ (fetch_all env (stock_universe w) w)
              (fundamental_body_total (with_fundamental_defaults criteria)))
    as (rows & Hrows).
  rewrite Hrows. exists rows, w'. now split.
Qed.

Lemma technical_body_symbol (sc : TechnicalCriteria) (symbol : string)
  (stock_data : StockData) (row : TechRow) :
  technical_body sc symbol stock_data = Returned (Some row) ->
  t_symbol row = symbol.
Proof.
  unfold technical_body. destruct (empty _); [discriminate|].
  destruct (read_latest _) as [v | e]; [|discriminate]. cbn [obind].
  repeat first
    [ discriminate
    | progress cbn [obind]
    | match goal with
      | |- context [iloc_m2 ?s] => destruct (iloc_m2 s)
      | |- (if ?b then _ else _) = _ -> _ => destruct b
      | |- obind (if ?b then _ else _) _ = _ -> _ => destruct b
      | |- match (if ?b then _ else _) with _ => _ end = _ -> _ => destruct b
      end ].
  all: intros [= <-]; reflexivity.
Qed.

(** A screen whose body can raise returns the sorted rows, or [[]] when
    an iteration raised. *)
Lemma technical_screen_unfold (criteria : TechnicalCriteria) (w : world) :
  exists rows w',
    technical_screen env criteria w
    = (Returned (list_sort Qltb technical_score true rows), w') /\
    (collect (technical_body (with_technical_defaults criteria)) (fetched env w)
     = Returned rows
     \/ rows = [] /\
        exists e,
          collect (technical_body (with_technical_defaults criteria))
                  (fetched env w) = Raised e).
Proof.
  unfold technical_screen, try_except, bind, get_stock_universe, ret, fetched.
  destruct (for_each_symbol_cases
              (technical_body (with_technical_defaults criteria))
              (stock_universe w) w) as (o & w' & -> & ->).
  destruct (collect _ _) as [rows | e].
  - exists rows, w'. split; [reflexivity | now left].
  - exists [], w'. split; [reflexivity | right; eauto].
Qed.

(** *** combined_screen *)

Lemma technical_lookup_fold (technical_results : list TechRow)
  (lookup : gmap string TechRow) (symbol : string) (t : TechRow) :
  fold_left (fun lookup result => <[t_symbol result := result]> lookup)
            technical_results lookup !! symbol = Some t ->
  lookup !! symbol = Some t \/ (t_symbol t = symbol /\ In t technical_results).
Proof.
  revert lookup. induction technical_results as [|r rest IH]; intros lookup H;
    [now left|].
  cbn [fold_left] in H. destruct (IH _ H) as [Hl | [Hs Hin]].
  - destruct (decide (t_symbol r = symbol)) as [<- | Hne].
    + rewrite lookup_insert_eq in Hl. injection Hl as <-.
      right. split; [reflexivity | now left].
    + rewrite lookup_insert_ne in Hl by exact Hne. now left.
  - right. split; [exact Hs | now right].
Qed.

Lemma make_technical_lookup_sound (technical_results : list TechRow)
  (symbol : string) (t : TechRow) :
  make_technical_lookup technical_results !! symbol = Some t ->
  t_symbol t = symbol /\ In t technical_results.
Proof.
  intros H. apply technical_lookup_fold in H. destruct H as [H | H]; [|exact H].
  rewrite lookup_empty in H. discriminate.
Qed.

Lemma technical_lookup_fold_keeps (technical_results : list TechRow)
  (lookup : gmap string TechRow) (symbol : string) :
  is_Some (lookup !! symbol) ->
  is_Some (fold_left (fun lookup result => <[t_symbol result := result]> lookup)
                     technical_results lookup !! symbol).
Proof.
  revert lookup. induction technical_results as [|r rest IH]; intros lookup H;
    [exact H|].
  cbn [fold_left]. apply IH.
  destruct (decide (t_symbol r = symbol)) as [<- | Hne].
  - rewrite lookup_insert_eq. eauto.
  - now rewrite lookup_insert_ne.
Qed.

Lemma make_technical_lookup_complete (technical_results : list TechRow)
  (t : TechRow) :
  In t technical_results ->
  is_Some (make_technical_lookup technical_results !! t_symbol t).
Proof.
  unfold make_technical_lookup. generalize (∅ : gmap string TechRow).
  induction technical_results as [|r rest IH]; intros lookup Hin;
    [destruct Hin|].
  cbn [fold_left]. destruct Hin as [-> | Hin]; [|now apply IH].
  apply technical_lookup_fold_keeps. rewrite lookup_insert_eq. eauto.
Qed.

Lemma combine_rows_spec (weights : gmap string Q)
  (technical_lookup : gmap string TechRow) (fundamental_results : list FundRow)
  (combined_results : list CombinedRow) :
  combine_rows weights technical_lookup fundamental_results
  = Returned combined_results ->
  map c_fund combined_results = fundamental_results /\
  Forall (combined_from weights technical_lookup) combined_results.
Proof.
  revert combined_results.
  induction fundamental_results as [|fund_result rest IH];
    intros combined_results H.
  - injection H as <-. split; [reflexivity | constructor].
  - cbn [combine_rows] in H. unfold getitem in H.
    destruct (weights !! "fundamental"%string) as [wf|] eqn:Hf; [|discriminate].
    destruct (weights !! "technical"%string) as [wt|] eqn:Ht; [|discriminate].
    cbn [obind] in H.
    destruct (combine_rows weights technical_lookup rest) as [rows | e];
      [|discriminate].
    cbn [obind] in H. injection H as <-.
    destruct (IH rows eq_refl) as [Hmap Hall]. split.
    + cbn [map c_fund]. now rewrite Hmap.
    + constructor; [|exact Hall]. split; [reflexivity|].
      exists wf, wt. cbn [combined_score c_fund c_tech]. auto.
Qed.

Lemma combine_rows_total (weights : gmap string Q)
  (technical_lookup : gmap string TechRow) (fundamental_results : list FundRow)
  (w_fundamental w_technical : Q) :
  weights !! "fundamental"%string = Some w_fundamental ->
  weights !! "technical"%string = Some w_technical ->
  exists combined_results,
    combine_rows weights technical_lookup fundamental_results
    = Returned combined_results.
Proof.
  intros Hf Ht. induction fundamental_results as [|fund_result rest IH];
    [now exists []|].
  cbn [combine_rows]. unfold getitem. rewrite Hf, Ht. cbn [obind].
  destruct IH as (rows & ->). cbn [obind]. eauto.
Qed.

Lemma combined_screen_unfold (fundamental_criteria : FundamentalCriteria)
  (technical_criteria : TechnicalCriteria) (weights : option (gmap string Q))
  (w : world) :
  exists fundamental_results w1 technical_results w2 combined_results,
    fundamental_screen env fundamental_criteria w
    = (Returned fundamental_results, w1) /\
    technical_screen env technical_criteria w1
    = (Returned technical_results, w2) /\
    combined_screen env fundamental_criteria technical_criteria weights w
    = (Returned (list_sort Qltb combined_score true combined_results), w2) /\
    (combine_rows (default default_weights weights)
                  (make_technical_lookup technical_results) fundamental_results
     = Returned combined_results
     \/ combined_results = [] /\
        exists e,
          combine_rows (default default_weights weights)
                       (make_technical_lookup technical_results)
                       fundamental_results = Raised e).
Proof.
  destruct (fundamental_screen_unfold fundamental_criteria w)
    as (frows & w1 & _ & Hf).
  destruct (technical_screen_unfold technical_criteria w1)
    as (trows & w2 & Ht & _).
  exists (list_sort Qltb financial_score true frows), w1,
         (list_sort Qltb technical_score true trows), w2.
  unfold combined_screen, try_except, bind at 1. rewrite Hf.
  unfold bind at 1. rewrite Ht. unfold bind, lift, ret.
  destruct (combine_rows _ _ _) as [crows | e].
  - exists crows. repeat split; auto.
  - exists []. repeat split; auto. right. eauto.
Qed.

Lemma map_with_key_sublist {A B : Type} (key : A -> Q) (f : A -> B) (q : Q)
  (l : list A) :
  map f (with_key key q l) `sublist_of` map f l.
Proof.
  induction l as [|x l IH]; [constructor|].
  unfold with_key in *. cbn [List.filter map].
  destruct (Qeq_bool (key x) q); cbn [map];
    [now apply sublist_skip | now apply sublist_cons].
Qed.

(** C1 (amended).  [combined_screen] is a left join on the fundamental
    result: every entry of its result is built from an entry of
    [fundamental_screen]'s result for the same criteria and has that
    entry's symbol; the technical row of the symbol is joined on when
    [technical_screen] returned one, and a symbol that [technical_screen]
    did not return keeps its entry, without technical fields.  When
    [weights] has both keys no entry of the fundamental result is left
    out. *)
Theorem combined_screen_left_join (fundamental_criteria : FundamentalCriteria)
  (technical_criteria : TechnicalCriteria) (weights : option (gmap string Q))
  (w : world) :
  exists fundamental_results w1 technical_results w2 combined_results,
    fundamental_screen env fundamental_criteria w
    = (Returned fundamental_results, w1) /\
    technical_screen env technical_criteria w1
    = (Returned technical_results, w2) /\
    combined_screen env fundamental_criteria technical_criteria weights w
    = (Returned combined_results, w2) /\
    (forall row, In row combined_results ->
       In (c_fund row) fundamental_results /\
       c_symbol row = f_symbol (c_fund row) /\
       match c_tech row with
       | Some tech_result => In tech_result technical_results
       | None => ~ In (c_symbol row) (map t_symbol technical_results)
       end) /\
    (forall w_fundamental w_technical,
       default default_weights weights !! "fundamental"%string
       = Some w_fundamental ->
       default default_weights weights !! "technical"%string
       = Some w_technical ->
       Permutation (map c_fund combined_results) fundamental_results).
Proof.
  destruct (combined_screen_unfold fundamental_criteria technical_criteria
              weights w)
    as (frows & w1 & trows & w2 & crows & Hf & Ht & Hc & Hrows).
  exists frows, w1, trows, w2, (list_sort Qltb combined_score true crows).
  split; [exact Hf|]. split; [exact Ht|]. split; [exact Hc|]. split.
  - intros row Hin.
    apply (Permutation_in _ (list_sort_perm Qltb combined_score true crows))
      in Hin.
    destruct Hrows as [Hrows | [-> _]]; [|destruct Hin].
    apply combine_rows_spec in Hrows. destruct Hrows as [Hmap Hall].
    pose proof (proj1 (List.Forall_forall _ _) Hall row Hin) as [Htech _].
    split; [rewrite <- Hmap; now apply in_map|].
    unfold c_symbol. rewrite Htech.
    destruct (make_technical_lookup trows !! f_symbol (c_fund row))
      as [t|] eqn:El.
    + destruct (make_technical_lookup_sound _ _ _ El) as [Hs Ht']. now split.
    + split; [reflexivity|]. intros Hin'. apply in_map_iff in Hin'.
      destruct Hin' as (t & Hs & Ht').
      destruct (make_technical_lookup_complete trows t Ht') as [t' Hsome].
      rewrite Hs in Hsome. congruence.
  - intros wf wt Hwf Hwt.
    destruct (combine_rows_total _ (make_technical_lookup trows) frows wf wt
                Hwf Hwt) as (rows & Hrows').
    destruct Hrows as [Hrows | [_ [e He]]]; [|congruence].
    apply combine_rows_spec in Hrows. destruct Hrows as [Hmap _].
    rewrite <- Hmap. apply Permutation_map, list_sort_perm.
Qed.

(** C2 (amended).  The combined score of every entry is
    [financial_score * w_f + technical_score * w_t] with the weights as
    they are in [weights], not renormalized (the technical score counts as
    0 for an entry without technical row); the weights 0.6 and 0.4 are
    used when [weights] is [None], and only then. *)
Theorem combined_score_formula (fundamental_criteria : FundamentalCriteria)
  (technical_criteria : TechnicalCriteria) (weights : option (gmap string Q))
  (w : world) (w_fundamental w_technical : Q) :
  default default_weights weights !! "fundamental"%string = Some w_fundamental ->
  default default_weights weights !! "technical"%string = Some w_technical ->
  exists fundamental_results w1 combined_results w2,
    fundamental_screen env fundamental_criteria w
    = (Returned fundamental_results, w1) /\
    combined_screen env fundamental_criteria technical_criteria weights w
    = (Returned combined_results, w2) /\
    Permutation (map c_fund combined_results) fundamental_results /\
    Forall (fun row =>
              combined_score row
              = financial_score (c_fund row) * w_fundamental
                + tech_score_of (c_tech row) * w_technical)
           combined_results /\
    (weights = None -> w_fundamental = 6 # 10 /\ w_technical = 4 # 10).
Proof.
  intros Hwf Hwt.
  destruct (combined_screen_unfold fundamental_criteria technical_criteria
              weights w)
    as (frows & w1 & trows & w2 & crows & Hf & Ht & Hc & Hrows).
  exists frows, w1, (list_sort Qltb combined_score true crows), w2.
  split; [exact Hf|]. split; [exact Hc|].
  destruct (combine_rows_total _ (make_technical_lookup trows) frows _ _
              Hwf Hwt) as (rows & Hrows').
  destruct Hrows as [Hrows | [_ [e He]]]; [|congruence].
  apply combine_rows_spec in Hrows. destruct Hrows as [Hmap Hall].
  split; [rewrite <- Hmap; apply Permutation_map, list_sort_perm|]. split.
  - eapply Permutation_Forall; [symmetry; apply list_sort_perm|].
    eapply List.Forall_impl; [|exact Hall].
    intros row [_ (wf & wt & Hwf' & Hwt' & Hscore)]. congruence.
  - intros ->. cbn [default] in Hwf, Hwt. vm_compute in Hwf, Hwt.
    injection Hwf as <-. injection Hwt as <-. now split.
Qed.

(** *** The filters of fundamental_screen *)

Lemma fundamental_body_kept (sc : FundamentalCriteria) (symbol : string)
  (stock_data : StockData) (row : FundRow) :
  fundamental_body sc symbol stock_data = Returned (Some row) ->
  pe_rejects sc (fundamental stock_data) = false /\
  others_reject sc (fundamental stock_data) = false /\
  f_pe_ratio row = pe_ratio (fundamental stock_data).
Proof.
  unfold fundamental_body, others_reject.
  destruct (market_cap_rejects _ _); [discriminate|].
  destruct (pe_rejects _ _); [discriminate|].
  destruct (roe_rejects _ _); [discriminate|].
  destruct (debt_rejects _ _); [discriminate|].
  destruct (margin_rejects _ _); [discriminate|].
  destruct (growth_rejects _ _); [discriminate|].
  destruct (dividend_rejects _ _); [discriminate|].
  destruct (sector_rejects _ _); [discriminate|].
  intros [= <-]. auto.
Qed.

Lemma fundamental_body_keeps (sc : FundamentalCriteria) (symbol : string)
  (stock_data : StockData) :
  pe_rejects sc (fundamental stock_data) = false ->
  others_reject sc (fundamental stock_data) = false ->
  exists row,
    fundamental_body sc symbol stock_data = Returned (Some row) /\
    f_symbol row = symbol.
Proof.
  unfold fundamental_body, others_reject. intros -> H.
  repeat (apply Bool.orb_false_iff in H; destruct H as [H ?]).
  repeat match goal with E : _ = false |- _ => rewrite E; clear E end.
  eexists. split; reflexivity.
Qed.

Lemma and_then_falsy (v : option pyfloat) (test : pyfloat -> bool) :
  truthy_opt v = false -> and_then v test = false.
Proof. destruct v as [x|]; simpl; [intros ->|]; reflexivity. Qed.

(** With [max < min] no value is inside the range. *)
Lemma empty_range (lo hi x : pyfloat) :
  fltb hi lo = true -> fleb lo x && fleb x hi = false.
Proof.
  intros H. destruct (fleb lo x) eqn:E1, (fleb x hi) eqn:E2; try reflexivity.
  pose proof (fleb_trans _ _ _ E1 E2) as E3.
  apply fltb_not_fleb in H. congruence.
Qed.

Lemma pe_rejects_empty_range (sc : FundamentalCriteria) (fd : FundamentalData) :
  fltb (threshold (max_pe_ratio sc)) (threshold (min_pe_ratio sc)) = true ->
  pe_rejects sc fd = truthy_opt (pe_ratio fd).
Proof.
  intros H. unfold pe_rejects, and_then, truthy_opt.
  destruct (pe_ratio fd) as [pe|]; [|reflexivity].
  rewrite (empty_range _ _ pe H). cbn [negb]. apply Bool.andb_true_r.
Qed.

(** C3 (amended).  For criteria with [min_pe_ratio > max_pe_ratio] (keys
    that are left out taking their defaults 0 and 50)
    [fundamental_screen] raises no error and rejects nothing up front: it
    runs the loop over the universe and applies the criteria as they are.
    Every symbol with a non-zero [pe_ratio] is dropped, and the symbols
    whose [pe_ratio] is absent or zero and which pass the other tests are
    returned. *)
Theorem contradictory_pe_range_is_applied (criteria : FundamentalCriteria)
  (w : world) :
  fltb (threshold (max_pe_ratio (with_fundamental_defaults criteria)))
       (threshold (min_pe_ratio (with_fundamental_defaults criteria))) = true ->
  exists rows w',
    fundamental_screen env criteria w = (Returned rows, w') /\
    (forall row, In row rows -> truthy_opt (f_pe_ratio row) = false) /\
    (forall symbol stock_data,
        In (symbol, stock_data) (fetched env w) ->
        truthy_opt (pe_ratio (fundamental stock_data)) = false ->
        others_reject (with_fundamental_defaults criteria)
                      (fundamental stock_data) = false ->
        In symbol (map f_symbol rows)).
Proof.
  intros Hrange.
  destruct (fundamental_screen_unfold criteria w) as (rows & w' & Hrows & Hf).
  exists (list_sort Qltb financial_score true rows), w'.
  split; [exact Hf|]. split.
  - intros row Hin.
    apply (Permutation_in _ (list_sort_perm Qltb financial_score true rows))
      in Hin.
    destruct (collect_sound _ _ _ _ Hrows Hin) as (s & d & _ & Hb).
    apply fundamental_body_kept in Hb. destruct Hb as (Hpe & _ & ->).
    now rewrite pe_rejects_empty_range in Hpe.
  - intros symbol stock_data Hin Hpe Hothers.
    destruct (fundamental_body_keeps (with_fundamental_defaults criteria)
                symbol stock_data) as (row & Hb & Hs);
      [now rewrite pe_rejects_empty_range | exact Hothers |].
    rewrite <- Hs. apply in_map.
    apply (Permutation_in _
             (Permutation_sym (list_sort_perm Qltb financial_score true rows))).
    eapply collect_complete; eauto.
Qed.

Lemma read_latest_rsi (technical : TechnicalFrame) (v : Latest) :
  read_latest technical = Returned v ->
  RSI technical = None -> l_rsi v = None.
Proof.
  unfold read_latest. intros H Hcol. rewrite Hcol in H. cbn [latest] in H.
  repeat match type of H with
         | obind ?o _ = _ => destruct o; cbn [obind] in H; [|discriminate]
         end.
  now injection H as <-.
Qed.

(** C4 (amended).  A filter on an optional field is skipped when the
    field is absent ([None]) or zero, so the symbol passes that filter
    (fails open): this holds for [pe_ratio], [roe], [debt_to_equity],
    [profit_margin] and [revenue_growth] in [fundamental_screen], where a
    symbol without [pe_ratio] that passes the other tests is returned
    whatever the PE range is, and for a frame without RSI column in
    [technical_screen].  Only a NaN RSI (too little history) and a missing
    dividend yield under the dividend requirement exclude the symbol. *)
Theorem missing_field_skips_filter :
  (forall (criteria : FundamentalCriteria) (w : world),
      exists rows w',
        fundamental_screen env criteria w = (Returned rows, w') /\
        forall symbol stock_data,
          In (symbol, stock_data) (fetched env w) ->
          pe_ratio (fundamental stock_data) = None ->
          others_reject (with_fundamental_defaults criteria)
                        (fundamental stock_data) = false ->
          In symbol (map f_symbol rows)) /\
  (forall (sc : FundamentalCriteria) (fd : FundamentalData),
      (truthy_opt (pe_ratio fd) = false -> pe_rejects sc fd = false) /\
      (truthy_opt (roe fd) = false -> roe_rejects sc fd = false) /\
      (truthy_opt (debt_to_equity fd) = false -> debt_rejects sc fd = false) /\
      (truthy_opt (profit_margin fd) = false -> margin_rejects sc fd = false) /\
      (truthy_opt (revenue_growth fd) = false -> growth_rejects sc fd = false) /\
      (require_dividend_yield sc = Some true -> dividend_yield fd = None ->
       dividend_rejects sc fd = true)) /\
  (forall (sc : TechnicalCriteria) (technical : TechnicalFrame) (v : Latest),
      read_latest technical = Returned v ->
      (RSI technical = None -> rsi_rejects sc v = false) /\
      (l_rsi v = Some NaN -> rsi_rejects sc v = true)).
Proof.
  split; [|split].
  - intros criteria w.
    destruct (fundamental_screen_unfold criteria w) as (rows & w' & Hrows & Hf).
    exists (list_sort Qltb financial_score true rows), w'.
    split; [exact Hf|]. intros symbol stock_data Hin Hpe Hothers.
    destruct (fundamental_body_keeps (with_fundamental_defaults criteria)
                symbol stock_data) as (row & Hb & Hs);
      [unfold pe_rejects; now rewrite Hpe | exact Hothers |].
    rewrite <- Hs. apply in_map.
    apply (Permutation_in _
             (Permutation_sym (list_sort_perm Qltb financial_score true rows))).
    eapply collect_complete; eauto.
  - intros sc fd.
    unfold pe_rejects, roe_rejects, debt_rejects, margin_rejects,
      growth_rejects, dividend_rejects.
    repeat split; try apply and_then_falsy.
    intros -> ->. reflexivity.
  - intros sc technical v Hv. unfold rsi_rejects. split.
    + intros Hcol. now rewrite (read_latest_rsi technical v Hv Hcol).
    + intros ->. cbn [and_then truthy andb].
      destruct (threshold (rsi_min sc)); reflexivity.
Qed.

(** *** rsi_screen *)

(** The RSI of a row passed a comparison, so neither sort key is NaN. *)
Lemma rsi_body_keys (lo hi : pyfloat) (rsi_condition symbol : string)
  (stock_data : StockData) (row : RsiRow) :
  rsi_body lo hi rsi_condition symbol stock_data = Returned (Some row) ->
  no_nan_key r_rsi row /\ no_nan_key r_score row.
Proof.
  unfold rsi_body, no_nan_key. destruct (empty _); [discriminate|].
  destruct (RSI _) as [col|]; [|discriminate].
  destruct (iloc_m1 col) as [current_rsi | e]; [|discriminate].
  cbn [obind]. destruct (iloc_m1 _) as [price | e]; [|discriminate].
  cbn [obind]. destruct current_rsi as [q| | |].
  4: { unfold fgeb. destruct lo, hi; cbn [fleb andb];
       rewrite ?Bool.andb_false_r; discriminate. }
  all: match goal with
       | |- (if ?c then _ else _) = _ -> _ => destruct c
       end; [|discriminate]; intros [= <-]; split; reflexivity.
Qed.

Lemma firstn_sorted {A : Type} (R : A -> A -> Prop) (n : nat) (l : list A) :
  StronglySorted R l -> StronglySorted R (firstn n l).
Proof.
  intros H. revert n. induction H as [|x l Hs IH Hall]; intros [|n];
    cbn [firstn]; try constructor.
  - apply IH.
  - apply List.Forall_forall. intros y Hy.
    apply (proj1 (List.Forall_forall _ _) Hall).
    exact (IndicatorFacts.In_firstn n l y Hy).
Qed.

(** The list that [rsi_screen] returns is in the order of its sort: by
    RSI for 'oversold' and 'overbought', by score otherwise. *)
Lemma rsi_screen_sorted (criteria : RsiCriteria) (w : world) :
  exists rows w',
    rsi_screen env criteria w = (Returned rows, w') /\
    StronglySorted
      (rsi_order (default "oversold"%string (rsi_condition criteria))) rows.
Proof.
  unfold rsi_screen, try_except, bind, get_stock_universe, ret.
  destruct (for_each_symbol_cases
              (rsi_body (default (Finite 30) (rsi_low criteria))
                        (default (Finite 70) (rsi_high criteria))
                        (default "oversold"%string (rsi_condition criteria)))
              (stock_universe w) w) as (o & w' & -> & ->).
  destruct (collect _ _) as [rows | e] eqn:Hrows.
  - eexists _, w'. split; [reflexivity|]. apply firstn_sorted.
    assert (Hkeys : Forall (no_nan_key r_rsi) rows
                    /\ Forall (no_nan_key r_score) rows).
    { split; apply List.Forall_forall; intros row Hin;
        destruct (collect_sound _ _ _ _ Hrows Hin) as (s & d & _ & Hb);
        now apply rsi_body_keys in Hb. }
    destruct Hkeys as [Hrsi Hscore]. unfold rsi_order.
    destruct (String.eqb _ "oversold"); [now apply list_sort_in_order|].
    destruct (String.eqb _ "overbought"); now apply list_sort_in_order.
  - exists [], w'. split; [reflexivity | constructor].
Qed.

(** C8 (amended).  [fundamental_screen], [technical_screen] and
    [combined_screen] return their rows sorted by score in non-increasing
    order, and rows with equal score stay in the order in which the loop
    produced them (the sort is stable and no key breaks ties): the order
    of [stock_universe] for [fundamental_screen] and [technical_screen],
    the order of the fundamental result for [combined_screen]; the order
    is not the lexical order of the symbols.  [rsi_screen] is sorted by
    score, in non-increasing order, only for the condition 'range': for
    'oversold' it is sorted by RSI ascending and for 'overbought' by RSI
    descending. *)
Theorem screen_result_order (fundamental_criteria : FundamentalCriteria)
  (technical_criteria : TechnicalCriteria) (weights : option (gmap string Q))
  (rsi_criteria : RsiCriteria) (w : world) :
  (exists rows w',
      fundamental_screen env fundamental_criteria w = (Returned rows, w') /\
      StronglySorted (not_below financial_score) rows /\
      forall q, map f_symbol (with_key financial_score q rows)
                `sublist_of` stock_universe w) /\
  (exists rows w',
      technical_screen env technical_criteria w = (Returned rows, w') /\
      StronglySorted (not_below technical_score) rows /\
      forall q, map t_symbol (with_key technical_score q rows)
                `sublist_of` stock_universe w) /\
  (exists fundamental_results w1 rows w',
      fundamental_screen env fundamental_criteria w
      = (Returned fundamental_results, w1) /\
      combined_screen env fundamental_criteria technical_criteria weights w
      = (Returned rows, w') /\
      StronglySorted (not_below combined_score) rows /\
      forall q, map c_fund (with_key combined_score q rows)
                `sublist_of` fundamental_results) /\
  (exists rows w',
      rsi_screen env rsi_criteria w = (Returned rows, w') /\
      let rsi_condition :=
        default "oversold"%string (rsi_condition rsi_criteria) in
      StronglySorted
        (if String.eqb rsi_condition "oversold"
         then fun a b => fleb (r_rsi a) (r_rsi b) = true
         else if String.eqb rsi_condition "overbought"
         then fun a b => fleb (r_rsi b) (r_rsi a) = true
         else fun a b => fleb (r_score b) (r_score a) = true)
        rows).
Proof.
  split; [|split; [|split]].
  - destruct (fundamental_screen_unfold fundamental_criteria w)
      as (rows & w' & Hrows & Hf).
    exists (list_sort Qltb financial_score true rows), w'.
    split; [exact Hf|]. split; [apply list_sort_descending|].
    intros q. rewrite list_sort_stable.
    transitivity (map f_symbol rows); [apply map_with_key_sublist|].
    transitivity (map fst (fetched env w)); [|apply fetch_all_sublist].
    eapply collect_in_order; [|exact Hrows].
    intros s d r. apply fundamental_body_symbol.
  - destruct (technical_screen_unfold technical_criteria w)
      as (rows & w' & Ht & Hrows).
    exists (list_sort Qltb technical_score true rows), w'.
    split; [exact Ht|]. split; [apply list_sort_descending|].
    intros q. rewrite list_sort_stable.
    destruct Hrows as [Hrows | [-> _]]; [|apply sublist_nil_l].
    transitivity (map t_symbol rows); [apply map_with_key_sublist|].
    transitivity (map fst (fetched env w)); [|apply fetch_all_sublist].
    eapply collect_in_order; [|exact Hrows].
    intros s d r. apply technical_body_symbol.
  - destruct (combined_screen_unfold fundamental_criteria technical_criteria
                weights w)
      as (frows & w1 & trows & w2 & crows & Hf & Ht & Hc & Hrows).
    exists frows, w1, (list_sort Qltb combined_score true crows), w2.
    split; [exact Hf|]. split; [exact Hc|].
    split; [apply list_sort_descending|].
    intros q. rewrite list_sort_stable.
    destruct Hrows as [Hrows | [-> _]]; [|apply sublist_nil_l].
    apply combine_rows_spec in Hrows. destruct Hrows as [Hmap _].
    rewrite <- Hmap. apply map_with_key_sublist.
  - destruct (rsi_screen_sorted rsi_criteria w) as (rows & w' & Hr & Hs).
    exists rows, w'. split; [exact Hr|]. cbv zeta.
    unfold rsi_order, in_order in Hs.
    destruct (String.eqb _ "oversold"); [exact Hs|].
    destruct (String.eqb _ "overbought"); exact Hs.
Qed.

(** C10.  [rsi_screen] returns at most 20 entries: the first 20 of the
    matches in sorted order; when more than 20 symbols match, the others
    are not in the result. *)
Theorem rsi_screen_at_most_20 (criteria : RsiCriteria) (w : world) :
  exists rows w',
    rsi_screen env criteria w = (Returned rows, w') /\
    (length rows <= 20)%nat /\
    forall matches,
      collect (rsi_body (default (Finite 30) (rsi_low criteria))
                        (default (Finite 70) (rsi_high criteria))
                        (default "oversold"%string (rsi_condition criteria)))
              (fetched env w) = Returned matches ->
      exists sorted,
        Permutation sorted matches /\
        StronglySorted
          (rsi_order (default "oversold"%string (rsi_condition criteria)))
          sorted /\
        rows = firstn 20 sorted /\
        length rows = Nat.min 20 (length matches).
Proof.
  unfold rsi_screen, try_except, bind, get_stock_universe, ret, fetched.
  destruct (for_each_symbol_cases
              (rsi_body (default (Finite 30) (rsi_low criteria))
                        (default (Finite 70) (rsi_high criteria))
                        (default "oversold"%string (rsi_condition criteria)))
              (stock_universe w) w) as (o & w' & -> & ->).
  destruct (collect _ _) as [rows | e] eqn:Hrows.
  - eexists _, w'. split; [reflexivity|].
    split; [rewrite length_firstn; lia|].
    intros matches [= <-].
    assert (Hkeys : Forall (no_nan_key r_rsi) rows
                    /\ Forall (no_nan_key r_score) rows).
    { split; apply List.Forall_forall; intros row Hin;
        destruct (collect_sound _ _ _ _ Hrows Hin) as (s & d & _ & Hb);
        now apply rsi_body_keys in Hb. }
    destruct Hkeys as [Hrsi Hscore].
    eexists. split; [|split; [|split; [reflexivity|]]].
    + destruct (String.eqb _ "oversold"); [apply list_sort_perm|].
      destruct (String.eqb _ "overbought"); apply list_sort_perm.
    + unfold rsi_order.
      destruct (String.eqb _ "oversold"); [now apply list_sort_in_order|].
      destruct (String.eqb _ "overbought"); now apply list_sort_in_order.
    + rewrite length_firstn. f_equal.
      destruct (String.eqb _ "oversold"); [apply length_list_sort|].
      destruct (String.eqb _ "overbought"); apply length_list_sort.
  - exists [], w'. split; [reflexivity|]. split; [simpl; lia|].
    intros matches [=].
Qed.

(** *** The cache *)

Lemma cons_neq {A : Type} (x : A) (l : list A) : l <> x :: l.
Proof.
  intros H. apply (f_equal (@length A)) in H. simpl in H. lia.
Qed.

Lemma check_cache_world (symbol : string) (w : world) :
  snd (check_cache env symbol w) = tick w.
Proof.
  unfold check_cache.
  destruct (cache (tick w) !! cache_key symbol) as [[d t]|];
    [destruct (_ <? _)%Z|]; reflexivity.
Qed.

Lemma check_cache_miss (symbol : string) (w w1 : world) (t : Z) :
  check_cache env symbol w = (inr t, w1) -> t = now env (clock_reads w).
Proof.
  unfold check_cache.
  destruct (cache (tick w) !! cache_key symbol) as [[d t']|];
    [destruct (_ <? _)%Z|]; intros [= <- _]; reflexivity.
Qed.

(** C9 (amended).  The cache de-duplicates fetches in sequence only: when
    a lookup has fetched a symbol and returned its data, every later
    lookup of the same symbol that finds the entry still in the cache and
    reads a time less than [cache_expiry] after the time the first lookup
    read fetches nothing and returns the identical payload.  Nothing keeps
    two callers that both miss the cache from fetching at the same time. *)
Theorem second_lookup_hits_cache (symbol : string) (w later : world) :
  let first := _get_stock_data_cached env symbol w in
  fetches (snd first) = symbol :: fetches w ->
  fst first <> Returned None ->
  cache later !! cache_key symbol = cache (snd first) !! cache_key symbol ->
  cache_expiry later = cache_expiry w ->
  (now env (clock_reads later) - now env (clock_reads w) < cache_expiry w)%Z ->
  _get_stock_data_cached env symbol later = (fst first, tick later) /\
  fetches (tick later) = fetches later.
Proof.
  intros first.
  assert (E : first = _get_stock_data_cached env symbol w) by reflexivity.
  clearbody first. destruct first as [r1 w1]. cbn [fst snd].
  unfold _get_stock_data_cached in E.
  pose proof (check_cache_world symbol w) as Hw.
  destruct (check_cache env symbol w) as [[d | t] w0] eqn:Hcheck;
    cbn [snd] in Hw; subst w0.
  - injection E as -> ->. cbn [tick fetches]. intros Hfetch.
    now apply cons_neq in Hfetch.
  - apply check_cache_miss in Hcheck. subst t. unfold fetch_fresh in E.
    destruct (get_fundamental_data env symbol) as [fd|];
      [|injection E as -> ->; congruence].
    destruct (get_stock_data env symbol) as [|b rest] eqn:Hdata;
      [injection E as -> ->; congruence|].
    injection E as -> ->. intros _ _ Hentry Hexpiry Hfresh.
    split; [|reflexivity].
    unfold _get_stock_data_cached, check_cache.
    cbn [tick cache clock_reads cache_expiry stock_universe fetches] in *.
    rewrite Hentry, lookup_insert_eq, Hexpiry.
    apply Z.ltb_lt in Hfresh. rewrite Hfresh. reflexivity.
Qed.

(** A call that runs alone is the two steps of [call_step]. *)
Lemma call_steps_alone (symbol : string) (w : world) :
  exists r w',
    _get_stock_data_cached env symbol w = (Returned r, w') /\
    interleave env [0; 0]%nat [Called symbol] w = ([Done r], w').
Proof.
  unfold _get_stock_data_cached. cbn [interleave lookup list_lookup call_step].
  destruct (check_cache env symbol w) as [[d | t] w1].
  - exists (Some d), w1. now split.
  - cbn [list_insert insert lookup list_lookup call_step].
    destruct (fetch_fresh env symbol t w1) as [r w2]. exists r, w2. now split.
Qed.

End Loop.

(** *** Runs in the small market *)

(** C1, as stated, fails: HDFCBANK and TCS are in the combined result and
    not in the technical result, whether [technical_screen] runs first or,
    as inside [combined_screen], after [fundamental_screen]. *)
Lemma combined_screen_keeps_technical_failures :
  map c_symbol
    <$> value_of (combined_screen demo no_fundamental_criteria
                                  no_technical_criteria None init)
  = Some ["RELIANCE"; "HDFCBANK"; "TCS"]%string /\
  map t_symbol <$> value_of (technical_screen demo no_technical_criteria init)
  = Some ["RELIANCE"%string] /\
  map t_symbol
    <$> value_of (technical_screen demo no_technical_criteria
                    (snd (fundamental_screen demo no_fundamental_criteria init)))
  = Some ["RELIANCE"%string].
Proof. repeat split; vm_compute; reflexivity. Qed.

(** C2, as stated, fails.  HDFCBANK has the financial score 15 and no
    technical row, so its technical score counts as 0.  With weights 1 and
    1 its combined score is 15 * 1 + 0 * 1 = 15, not
    15 * (1/2) + 0 * (1/2); with weights 0 and 0 it is 0, not
    15 * 0.6 + 0 * 0.4. *)
Lemma combined_score_not_renormalized :
  match value_of (combined_screen demo no_fundamental_criteria
                                  no_technical_criteria
                                  (Some (weights_of 1 1)) init),
        value_of (combined_screen demo no_fundamental_criteria
                                  no_technical_criteria
                                  (Some (weights_of 0 0)) init)
  with
  | Some [_; row; _], Some [_; row0; _] =>
      c_symbol row = "HDFCBANK"%string /\
      financial_score (c_fund row) == 15 /\
      tech_score_of (c_tech row) == 0 /\
      combined_score row == 15 /\
      ~ combined_score row == 15 * (1 / (1 + 1)) + 0 * (1 / (1 + 1)) /\
      c_symbol row0 = "HDFCBANK"%string /\
      financial_score (c_fund row0) == 15 /\
      combined_score row0 == 0 /\
      ~ combined_score row0 == 15 * (6 # 10) + 0 * (4 # 10)
  | _, _ => False
  end.
Proof.
  vm_compute. repeat split; try reflexivity; intros H; discriminate H.
Qed.

(** The score formula in the small market, with the default weights. *)
Lemma combined_score_formula_witness :
  default default_weights None !! "fundamental"%string = Some (6 # 10) /\
  default default_weights None !! "technical"%string = Some (4 # 10) /\
  exists fundamental_results w1 combined_results w2,
    fundamental_screen demo no_fundamental_criteria init
    = (Returned fundamental_results, w1) /\
    combined_screen demo no_fundamental_criteria no_technical_criteria None init
    = (Returned combined_results, w2) /\
    Permutation (map c_fund combined_results) fundamental_results /\
    Forall (fun row =>
              combined_score row
              = financial_score (c_fund row) * (6 # 10)
                + tech_score_of (c_tech row) * (4 # 10))
           combined_results /\
    ((None : option (gmap string Q)) = None -> 6 # 10 = 6 # 10 /\ 4 # 10 = 4 # 10).
Proof.
  split; [vm_compute; reflexivity|]. split; [vm_compute; reflexivity|].
  apply (combined_score_formula demo no_fundamental_criteria
           no_technical_criteria None init (6 # 10) (4 # 10));
    vm_compute; reflexivity.
Defined.

(** C8, as stated, fails: RELIANCE and HDFCBANK have the same financial
    score and RELIANCE, which is earlier in the universe, comes first
    although HDFCBANK is smaller in lexical order. *)
Lemma ties_keep_universe_order :
  match value_of (fundamental_screen demo no_fundamental_criteria init) with
  | Some [first; second; _] =>
      f_symbol first = "RELIANCE"%string /\
      f_symbol second = "HDFCBANK"%string /\
      financial_score first == 15 /\
      financial_score second == 15 /\
      String.ltb (f_symbol second) (f_symbol first) = true
  | _ => False
  end.
Proof. vm_compute. repeat split; reflexivity. Qed.

(** [rsi_screen] for 'oversold' ranks by RSI, not by score: in the sliding
    market the two symbols with RSI 0 and score 50 come before RELIANCE
    with RSI 7.14 and score 57.14, so the scores rise along the list. *)
Lemma rsi_screen_scores_rise :
  match value_of (rsi_screen sliding no_rsi_criteria init) with
  | Some [first; second; third] =>
      map r_symbol [first; second; third]
      = ["TCS"; "HDFCBANK"; "RELIANCE"]%string /\
      has_value (r_rsi first) 0 /\ has_value (r_score first) 50 /\
      has_value (r_rsi second) 0 /\ has_value (r_score second) 50 /\
      has_value (r_rsi third) (714 # 100) /\
      has_value (r_score third) (400 # 7) /\
      fltb (r_score first) (r_score third) = true
  | _ => False
  end.
Proof. vm_compute. repeat split; reflexivity. Qed.

(** C3, as stated, fails: with [min_pe_ratio = 30] and
    [max_pe_ratio = 10] the screen fetches every symbol of the universe
    and returns TCS, which has no PE, instead of raising. *)
Lemma contradictory_pe_range_returns_rows :
  fltb (Finite 10) (Finite 30) = true /\
  map f_symbol <$> value_of (fundamental_screen demo (pe_range 30 10) init)
  = Some ["TCS"%string] /\
  length (fetches (snd (fundamental_screen demo (pe_range 30 10) init)))
  = length INDIAN_STOCKS.
Proof. repeat split; vm_compute; reflexivity. Qed.

(** The PE range 30..10 in the small market. *)
Lemma contradictory_pe_range_witness :
  fltb (threshold (max_pe_ratio (with_fundamental_defaults (pe_range 30 10))))
       (threshold (min_pe_ratio (with_fundamental_defaults (pe_range 30 10))))
  = true /\
  exists rows w',
    fundamental_screen demo (pe_range 30 10) init = (Returned rows, w') /\
    (forall row, In row rows -> truthy_opt (f_pe_ratio row) = false) /\
    (forall symbol stock_data,
        In (symbol, stock_data) (fetched demo init) ->
        truthy_opt (pe_ratio (fundamental stock_data)) = false ->
        others_reject (with_fundamental_defaults (pe_range 30 10))
                      (fundamental stock_data) = false ->
        In symbol (map f_symbol rows)).
Proof.
  split; [reflexivity|].
  apply (contradictory_pe_range_is_applied demo (pe_range 30 10) init).
  reflexivity.
Defined.

(** C4, as stated, fails: the PE filter 10..20 is active and TCS, whose
    [pe_ratio] is absent, is returned. *)
Lemma absent_pe_passes_pe_filter :
  pe_ratio <$> demo_fundamental "TCS" = Some None /\
  map f_symbol <$> value_of (fundamental_screen demo (pe_range 10 20) init)
  = Some ["RELIANCE"; "HDFCBANK"; "TCS"]%string.
Proof. split; vm_compute; reflexivity. Qed.

(** C9, as stated, fails: two callers look RELIANCE up in an empty cache;
    the second one tests the cache before the first one has stored its
    data, and the provider is asked twice. *)
Lemma concurrent_lookups_fetch_twice :
  fetches (snd (interleave demo [0; 1; 0; 1]%nat
                           [Called "RELIANCE"; Called "RELIANCE"] init))
  = ["RELIANCE"; "RELIANCE"]%string /\
  exists stock_data,
    fst (interleave demo [0; 1; 0; 1]%nat
                    [Called "RELIANCE"; Called "RELIANCE"] init)
    = [Done (Some stock_data); Done (Some stock_data)].
Proof.
  split; [vm_compute; reflexivity|]. eexists. vm_compute. reflexivity.
Qed.

(** Two lookups of RELIANCE in a row, one microsecond apart. *)
Lemma second_lookup_witness :
  let first := _get_stock_data_cached demo "RELIANCE" init in
  fetches (snd first) = "RELIANCE"%string :: fetches init /\
  fst first <> Returned None /\
  (now demo (clock_reads (snd first)) - now demo (clock_reads init)
   < cache_expiry init)%Z /\
  _get_stock_data_cached demo "RELIANCE" (snd first)
  = (fst first, tick (snd first)) /\
  fetches (tick (snd first)) = fetches (snd first).
Proof.
  cbv zeta.
  split; [vm_compute; reflexivity|].
  split; [vm_compute; discriminate|].
  split; [vm_compute; reflexivity|].
  apply (second_lookup_hits_cache demo "RELIANCE"%string init
           (snd (_get_stock_data_cached demo "RELIANCE" init))).
  - vm_compute; reflexivity.
  - vm_compute; discriminate.
  - reflexivity.
  - reflexivity.
  - vm_compute; reflexivity.
Defined.

(** In the falling market all 52 symbols match and [rsi_screen] returns
    the first 20. *)
Example rsi_screen_drops_matches :
  length <$> value_of (for_each_symbol falling
                         (rsi_body (Finite 30) (Finite 70) "oversold")
                         INDIAN_STOCKS init)
  = Some 52%nat /\
  map r_symbol <$> value_of (rsi_screen falling no_rsi_criteria init)
  = Some (firstn 20 INDIAN_STOCKS).
Proof. split; vm_compute; reflexivity. Qed.

End ScreenerFacts.

(* ================================================================== *)
(** ** The cache of the screener *)
(* ================================================================== *)

Module CacheFacts.

Import Indicators MarketData Fundamentals Screener Vocabulary Terms.
Import ScreenerFacts.

Lemma length_append (a b : string) :
  String.length (a ++ b) = (String.length a + String.length b)%nat.
Proof. induction a as [|c a IH]; simpl; [reflexivity | f_equal; exact IH]. Qed.

Lemma append_right_inj (a b suffix : string) :
  (a ++ suffix)%string = (b ++ suffix)%string -> a = b.
Proof.
  revert b. induction a as [|c a IH]; intros [|d b] H.
  - reflexivity.
  - apply (f_equal String.length) in H.
    rewrite !length_append in H. simpl in H. lia.
  - apply (f_equal String.length) in H.
    rewrite !length_append in H. simpl in H. lia.
  - simpl in H. injection H as -> H. f_equal. now apply IH.
Qed.

Lemma cache_key_inj (a b : string) : cache_key a = cache_key b -> a = b.
Proof. apply append_right_inj. Qed.

Section WithProvider.

Variable env : Provider.

Lemma fetch_fresh_cases (symbol : string) (t : Z) (w : world) :
  fetch_fresh env symbol t w
  = (fresh_data env symbol,
     mkWorld (stock_universe w)
             (match fresh_data env symbol with
              | Some stock_data => <[cache_key symbol := (stock_data, t)]> (cache w)
              | None => cache w
              end)
             (cache_expiry w) (clock_reads w) (symbol :: fetches w)).
Proof.
  unfold fetch_fresh, fresh_data.
  destruct (get_fundamental_data env symbol) as [fd|]; [|reflexivity].
  destruct (get_stock_data env symbol) as [|b rest]; reflexivity.
Qed.

Lemma check_cache_cases (symbol : string) (w : world) :
  check_cache env symbol w
  = (if cache_fresh w symbol (now env (clock_reads w))
     then match cache w !! cache_key symbol with
          | Some (stock_data, _) => inl stock_data
          | None => inr (now env (clock_reads w))
          end
     else inr (now env (clock_reads w)),
     tick w).
Proof.
  unfold check_cache, cache_fresh. cbn [tick cache cache_expiry].
  destruct (cache w !! cache_key symbol) as [[d ts]|]; [|reflexivity].
  destruct (_ <? _)%Z; reflexivity.
Qed.

(** X1.  [_get_stock_data_cached] reads the clock once and touches neither
    the universe nor the expiry.  When the cache has an entry of the
    symbol that is younger than [cache_expiry], it fetches nothing, leaves
    the cache as it is and returns the cached data.  In every other case
    (no entry, or an entry that has expired) it fetches once and returns
    what the fetch gives; the cache gets the new entry, stamped with the
    time that was read, only when the fetch gave data. *)
Theorem lookup_fetches_when_stale (symbol : string) (w : world) :
  let current_time := now env (clock_reads w) in
  let r := _get_stock_data_cached env symbol w in
  clock_reads (snd r) = S (clock_reads w) /\
  stock_universe (snd r) = stock_universe w /\
  cache_expiry (snd r) = cache_expiry w /\
  (cache_fresh w symbol current_time = true ->
   fetches (snd r) = fetches w /\ cache (snd r) = cache w /\
   exists stock_data timestamp,
     cache w !! cache_key symbol = Some (stock_data, timestamp) /\
     fst r = Returned (Some stock_data)) /\
  (cache_fresh w symbol current_time = false ->
   fetches (snd r) = symbol :: fetches w /\
   fst r = Returned (fresh_data env symbol) /\
   cache (snd r)
   = match fresh_data env symbol with
     | Some stock_data =>
         <[cache_key symbol := (stock_data, current_time)]> (cache w)
     | None => cache w
     end).
Proof.
  cbv zeta. unfold _get_stock_data_cached.
  rewrite check_cache_cases.
  destruct (cache_fresh w symbol (now env (clock_reads w))) eqn:F.
  - unfold cache_fresh in F.
    destruct (cache w !! cache_key symbol) as [[d ts]|]; [|discriminate].
    cbn. split; [reflexivity|]. split; [reflexivity|]. split; [reflexivity|].
    split; [|discriminate]. intros _. split; [reflexivity|].
    split; [reflexivity|]. eauto.
  - rewrite fetch_fresh_cases. cbn. split; [reflexivity|].
    split; [reflexivity|]. split; [reflexivity|]. split; [discriminate|].
    intros _. now repeat split.
Qed.

Lemma lookup_consistent (symbol : string) (w : world) :
  cache_consistent env w ->
  exists w',
    _get_stock_data_cached env symbol w = (Returned (fresh_data env symbol), w') /\
    cache_consistent env w' /\
    stock_universe w' = stock_universe w /\
    cache_expiry w' = cache_expiry w.
Proof.
  intros Hc. unfold _get_stock_data_cached. rewrite check_cache_cases.
  destruct (cache_fresh w symbol (now env (clock_reads w))) eqn:F.
  - unfold cache_fresh in F.
    destruct (cache w !! cache_key symbol) as [[d ts]|] eqn:E; [|discriminate].
    exists (tick w). rewrite (Hc _ _ _ E). repeat split. exact Hc.
  - rewrite fetch_fresh_cases. eexists. split; [reflexivity|].
    repeat split. cbn [tick cache stock_universe cache_expiry clock_reads fetches].
    intros s d ts. cbn [cache].
    destruct (fresh_data env symbol) as [d0|] eqn:Ed; [|apply Hc].
    destruct (decide (cache_key symbol = cache_key s)) as [Heq | Hne].
    + rewrite Heq, lookup_insert_eq. intros H. injection H as Hd _.
      apply cache_key_inj in Heq. now subst s d.
    + rewrite lookup_insert_ne by exact Hne. apply Hc.
Qed.

Lemma fetch_all_available (symbols : list string) (w : world) :
  cache_consistent env w ->
  fetch_all env symbols w = available env symbols.
Proof.
  revert w. induction symbols as [|symbol rest IH]; intros w Hc; [reflexivity|].
  cbn [fetch_all available].
  destruct (lookup_consistent symbol w Hc) as (w' & -> & Hc' & _).
  destruct (fresh_data env symbol) as [d|]; [f_equal|]; now apply IH.
Qed.

Lemma for_each_symbol_consistent {Row : Type}
  (body : string -> StockData -> outcome (option Row))
  (symbols : list string) (w w' : world) (o : outcome (list Row)) :
  cache_consistent env w ->
  for_each_symbol env body symbols w = (o, w') ->
  cache_consistent env w' /\ stock_universe w' = stock_universe w.
Proof.
  revert w o. induction symbols as [|symbol rest IH]; intros w o Hc.
  - intros [= <- <-]. now split.
  - cbn [for_each_symbol]. unfold bind at 1.
    destruct (lookup_consistent symbol w Hc) as (w1 & -> & Hc1 & Hu & _).
    rewrite <- Hu.
    destruct (fresh_data env symbol) as [d|]; [|now apply IH].
    unfold bind, lift, ret. destruct (body symbol d) as [row|e].
    + destruct (for_each_symbol env body rest w1) as [[rows|e] w2] eqn:E;
        intros [= <- <-]; exact (IH _ _ Hc1 E).
    + intros [= <- <-]. now split.
Qed.

End WithProvider.

End CacheFacts.

(* ================================================================== *)
(** ** Ranges of the oscillators *)
(* ================================================================== *)

Module OscillatorFacts.

Import Indicators MarketData Oscillators Vocabulary Terms IndicatorFacts.

(** *** Rolling windows *)

Lemma rolling_iloc (agg : list pyfloat -> pyfloat) (s : Series) (w i : nat) :
  (i < length s)%nat ->
  iloc (rolling agg s w) i
  = match window_at s w i with
    | Some obs => if existsb is_nan obs then NaN else agg obs
    | None => NaN
    end.
Proof.
  intros Hi. unfold iloc, rolling.
  set (f := fun i => match window_at s w i with
                     | Some obs => if existsb is_nan obs then NaN else agg obs
                     | None => NaN
                     end).
  rewrite (nth_indep _ NaN (f O)) by now rewrite length_map, length_seq.
  rewrite map_nth, seq_nth by exact Hi. reflexivity.
Qed.

Lemma rolling_warm_up (agg : list pyfloat -> pyfloat) (s : Series) (w i : nat) :
  (S i < w)%nat -> iloc (rolling agg s w) i = NaN.
Proof.
  intros Hw. destruct (Nat.lt_ge_cases i (length s)) as [Hi | Hi].
  - rewrite rolling_iloc by exact Hi. unfold window_at.
    destruct (Nat.leb_spec w (S i)); [lia | reflexivity].
  - unfold iloc. apply nth_overflow. now rewrite length_rolling.
Qed.

Lemma Forall_iloc (P : pyfloat -> Prop) (s : Series) :
  (forall i, (i < length s)%nat -> P (iloc s i)) -> Forall P s.
Proof.
  intros H. apply List.Forall_forall. intros x Hx.
  destruct (In_nth _ _ NaN Hx) as (i & Hi & <-). now apply H.
Qed.

(** The bar at [i] is one of the [w] bars that end at [i]. *)
Lemma window_has_last {A : Type} (l : list A) (w i : nat) (d : A) :
  (0 < w <= S i)%nat -> (i < length l)%nat ->
  In (nth i l d) (firstn w (skipn (S i - w) l)).
Proof.
  intros Hw Hi.
  assert (E : nth i l d = nth (w - 1) (firstn w (skipn (S i - w) l)) d).
  { rewrite nth_firstn. destruct (Nat.ltb_spec (w - 1) w); [|lia].
    rewrite nth_skipn. f_equal. lia. }
  rewrite E. apply nth_In. rewrite length_firstn, length_skipn. lia.
Qed.

Lemma fold_max_bound (obs : list Q) (x : Q) :
  exists M,
    fold_left (fun m y => if fltb m y then y else m) (map Finite obs) (Finite x)
    = Finite M /\ x <= M /\ forall y, In y obs -> y <= M.
Proof.
  revert x. induction obs as [|a rest IH]; intros x; cbn [map fold_left].
  - exists x. split; [reflexivity|]. split; [apply Qle_refl | intros y []].
  - cbn [fltb]. destruct (Qltb x a) eqn:E.
    + destruct (IH a) as (M & -> & Ha & Hall). exists M.
      split; [reflexivity|]. apply Qltb_lt in E.
      split; [lra|]. intros y [<- | Hy]; [exact Ha | now apply Hall].
    + destruct (IH x) as (M & -> & Hx & Hall). exists M.
      split; [reflexivity|]. apply SortFacts.Qltb_false_le in E.
      split; [exact Hx|]. intros y [<- | Hy]; [lra | now apply Hall].
Qed.

Lemma fold_min_bound (obs : list Q) (x : Q) :
  exists m,
    fold_left (fun m y => if fltb y m then y else m) (map Finite obs) (Finite x)
    = Finite m /\ m <= x /\ forall y, In y obs -> m <= y.
Proof.
  revert x. induction obs as [|a rest IH]; intros x; cbn [map fold_left].
  - exists x. split; [reflexivity|]. split; [apply Qle_refl | intros y []].
  - cbn [fltb]. destruct (Qltb a x) eqn:E.
    + destruct (IH a) as (m & -> & Ha & Hall). exists m.
      split; [reflexivity|]. apply Qltb_lt in E.
      split; [lra|]. intros y [<- | Hy]; [exact Ha | now apply Hall].
    + destruct (IH x) as (m & -> & Hx & Hall). exists m.
      split; [reflexivity|]. apply SortFacts.Qltb_false_le in E.
      split; [exact Hx|]. intros y [<- | Hy]; [lra | now apply Hall].
Qed.

Lemma fmax_bound (obs : list Q) (y : Q) :
  In y obs -> exists M, fmax (map Finite obs) = Finite M /\ y <= M.
Proof.
  destruct obs as [|x rest]; [intros []|]. intros Hy. cbn [map fmax].
  destruct (fold_max_bound rest x) as (M & -> & Hx & Hall). exists M.
  split; [reflexivity|]. destruct Hy as [<- | Hy]; [exact Hx | now apply Hall].
Qed.

Lemma fmin_bound (obs : list Q) (y : Q) :
  In y obs -> exists m, fmin (map Finite obs) = Finite m /\ m <= y.
Proof.
  destruct obs as [|x rest]; [intros []|]. intros Hy. cbn [map fmin].
  destruct (fold_min_bound rest x) as (m & -> & Hx & Hall). exists m.
  split; [reflexivity|]. destruct Hy as [<- | Hy]; [exact Hx | now apply Hall].
Qed.

(** *** Means of numbers in a range *)

Lemma fold_fadd_within (lo hi : Q) (obs : list pyfloat) (acc : Q) :
  Forall (nan_or_within lo hi) obs -> existsb is_nan obs = false ->
  exists s,
    fold_left fadd obs (Finite acc) = Finite s /\
    acc + inject_Z (Z.of_nat (length obs)) * lo <= s /\
    s <= acc + inject_Z (Z.of_nat (length obs)) * hi.
Proof.
  revert acc. induction obs as [|x rest IH]; intros acc Hall Hnan.
  - exists acc. split; [reflexivity|]. cbn [length Z.of_nat].
    change (inject_Z (Z.of_nat 0)) with 0. split; lra.
  - inversion Hall as [|? ? Hx Hrest]; subst.
    cbn [existsb] in Hnan. apply orb_false_iff in Hnan as [Hx' Hnan].
    destruct Hx as [-> | (a & -> & Ha)]; [discriminate|].
    cbn [fold_left fadd].
    destruct (IH (acc + a) Hrest Hnan) as (s & -> & Hlo & Hhi).
    exists s. split; [reflexivity|].
    cbn [length]. rewrite Nat2Z.inj_succ, <- Z.add_1_r, inject_Z_plus.
    change (inject_Z 1) with 1. split; lra.
Qed.

Lemma rolling_mean_within (lo hi : Q) (s : Series) (w : nat) :
  Forall (nan_or_within lo hi) s ->
  Forall (nan_or_within lo hi) (rolling mean s w).
Proof.
  intros Hs. apply Forall_iloc. intros i Hi. rewrite length_rolling in Hi.
  rewrite rolling_iloc by exact Hi.
  destruct (window_at s w i) as [obs|] eqn:E; [|now left].
  destruct (existsb is_nan obs) eqn:Hn; [now left|].
  assert (Hobs : Forall (nan_or_within lo hi) obs).
  { apply List.Forall_forall. intros x Hx.
    apply (proj1 (List.Forall_forall _ _) Hs). eapply window_at_incl; eauto. }
  unfold mean, fsum.
  destruct (fold_fadd_within lo hi obs 0 Hobs Hn) as (t & -> & Hlo & Hhi).
  unfold of_nat. cbn [fdiv].
  destruct obs as [|x rest].
  - change (inject_Z (Z.of_nat (length []))) with 0 in *.
    change (Qeq_bool 0 0) with true. cbv iota.
    assert (Ht : t == 0) by lra. apply Qeq_bool_true in Ht. rewrite Ht.
    now left.
  - set (n := inject_Z (Z.of_nat (length (x :: rest)))) in *.
    assert (Hn0 : 0 < n).
    { unfold n. change 0 with (inject_Z 0). rewrite <- Zlt_Qlt.
      cbn [length]. lia. }
    destruct (Qeq_bool n 0) eqn:En.
    { apply Qeq_bool_eq in En. lra. }
    right. exists (t / n). split; [reflexivity|]. split.
    + apply Qle_shift_div_l; [exact Hn0 | lra].
    + apply Qle_shift_div_r; [exact Hn0 | lra].
Qed.

(** *** rsi *)

Lemma rsi_formula_within (g l : pyfloat) :
  nan_or_nonneg g -> nan_or_nonneg l -> nan_or_within 0 100 (rsi_formula g l).
Proof.
  intros [-> | (a & -> & Ha)]; [now left|].
  intros [-> | (b & -> & Hb)]; [now left|].
  unfold rsi_formula. cbn [fdiv].
  destruct (Qeq_bool b 0) eqn:Eb.
  - destruct (Qeq_bool a 0) eqn:Ea; [now left|].
    assert (Hpos : 0 < a).
    { destruct (Qlt_le_dec 0 a) as [H | H]; [exact H|].
      assert (a == 0) by lra. apply Qeq_bool_true in H0. congruence. }
    rewrite (Qltb_true _ _ Hpos). cbn.
    right. eexists. split; [reflexivity|]. lra.
  - assert (Hb0 : 0 < b).
    { destruct (Qlt_le_dec 0 b) as [H | H]; [exact H|].
      assert (b == 0) by lra. apply Qeq_bool_true in H0. congruence. }
    assert (Hrs : 0 <= a / b) by (apply Qle_shift_div_l; [exact Hb0 | lra]).
    cbn [fadd fdiv].
    destruct (Qeq_bool (1 + a / b) 0) eqn:E1.
    { apply Qeq_bool_eq in E1. lra. }
    cbn [fsub fneg fadd]. right. eexists. split; [reflexivity|].
    assert (H1 : 0 < 1 + a / b) by lra.
    assert (0 <= 100 / (1 + a / b)) by (apply Qle_shift_div_l; [exact H1 | lra]).
    assert (100 / (1 + a / b) <= 100) by (apply Qle_shift_div_r; [exact H1 | lra]).
    lra.
Qed.

Lemma diff_finite (close : list Q) :
  Forall (fun d => d = NaN \/ exists x, d = Finite x) (diff (map Finite close)).
Proof.
  destruct close as [|c rest]; [constructor|]. cbn [map diff].
  constructor; [now left|]. apply List.Forall_forall. intros z Hz.
  apply in_zip_with in Hz as (x & y & Hx & Hy & ->).
  change (Finite c :: map Finite rest) with (map Finite (c :: rest)) in Hx.
  apply in_map_iff in Hx as (p & <- & _). apply in_map_iff in Hy as (q & <- & _).
  right. eexists. reflexivity.
Qed.

Lemma gains_nonneg (close : list Q) :
  Forall nan_or_nonneg
         (where_ (fun d => fgtb d (Finite 0)) (Finite 0) (diff (map Finite close))).
Proof.
  unfold where_. apply Forall_map.
  eapply List.Forall_impl; [|apply diff_finite].
  intros d [-> | (x & ->)]; cbn.
  - right. exists 0. split; [reflexivity | lra].
  - destruct (Qltb 0 x) eqn:E; right.
    + exists x. split; [reflexivity|]. apply Qltb_lt in E. lra.
    + exists 0. split; [reflexivity | lra].
Qed.

Lemma losses_nonneg (close : list Q) :
  Forall nan_or_nonneg
         (map fneg (where_ (fun d => fltb d (Finite 0)) (Finite 0)
                           (diff (map Finite close)))).
Proof.
  unfold where_. rewrite map_map. apply Forall_map.
  eapply List.Forall_impl; [|apply diff_finite].
  intros d [-> | (x & ->)]; cbn.
  - right. exists (- 0). split; [reflexivity | lra].
  - destruct (Qltb x 0) eqn:E; right.
    + exists (- x). split; [reflexivity|]. apply Qltb_lt in E. lra.
    + exists (- 0). split; [reflexivity | lra].
Qed.

Lemma rsi_within (close : list Q) (window : nat) :
  Forall (nan_or_within 0 100) (rsi (map Finite close) window).
Proof.
  unfold rsi. apply List.Forall_forall. intros z Hz.
  apply in_zip_with in Hz as (g & l & Hg & Hl & ->).
  apply rsi_formula_within.
  - eapply (proj1 (List.Forall_forall _ _)); [|exact Hg].
    apply rolling_mean_nonneg, gains_nonneg.
  - eapply (proj1 (List.Forall_forall _ _)); [|exact Hl].
    apply rolling_mean_nonneg, losses_nonneg.
Qed.

Lemma rsi_warm_up (close : Series) (window i : nat) :
  (S i < window)%nat -> iloc (rsi close window) i = NaN.
Proof.
  intros Hw. destruct (Nat.lt_ge_cases i (length close)) as [Hi | Hi].
  - rewrite rsi_iloc by exact Hi. apply rsi_formula_nan.
    unfold avg_gain. now rewrite rolling_warm_up.
  - unfold iloc. apply nth_overflow. now rewrite length_rsi.
Qed.

(** X2.  The RSI of finite closes is at every bar NaN or a number from 0
    to 100, and it is NaN on the bars before the window is full; so is the
    RSI column of [calculate_technical_indicators], which has one entry
    per bar and is NaN on the first thirteen bars. *)
Theorem rsi_range :
  (forall (close : list Q) (window : nat),
      Forall (nan_or_within 0 100) (rsi (map Finite close) window) /\
      forall i, (S i < window)%nat -> iloc (rsi (map Finite close) window) i = NaN) /\
  (forall data : DataFrame,
      exists rsi_column,
        RSI (calculate_technical_indicators data) = Some rsi_column /\
        length rsi_column = length data /\
        Forall (nan_or_within 0 100) rsi_column /\
        forall i, (i < 13)%nat -> iloc rsi_column i = NaN).
Proof.
  split.
  - intros close window. split; [apply rsi_within|].
    intros i Hw. now apply rsi_warm_up.
  - intros data. exists (rsi (column Close data) 14).
    split; [apply technical_indicators_rsi|]. unfold column.
    rewrite <- (map_map Close Finite).
    split; [now rewrite length_rsi, !length_map|].
    split; [apply rsi_within|]. intros i Hi. apply rsi_warm_up. lia.
Qed.

(** *** Exponential means and macd *)

Lemma ewm_loop_within (lo hi decay : Q) (xs : list Q) (num den : Q) :
  0 <= decay -> 0 <= den -> lo * den <= num -> num <= hi * den ->
  Forall (fun x => lo <= x <= hi) xs ->
  Forall (fun y => lo <= y <= hi) (ewm_loop decay xs num den).
Proof.
  intros Hd. revert num den.
  induction xs as [|x rest IH]; intros num den Hden Hlo Hhi Hxs;
    cbn [ewm_loop]; [constructor|].
  inversion Hxs as [|? ? [Hx1 Hx2] Hrest]; subst.
  assert (H1 : decay * (lo * den) <= decay * num).
  { rewrite !(Qmult_comm decay). now apply Qmult_le_compat_r. }
  assert (H2 : decay * num <= decay * (hi * den)).
  { rewrite !(Qmult_comm decay). now apply Qmult_le_compat_r. }
  assert (H3 : 0 <= decay * den) by now apply Qmult_le_0_compat.
  assert (Hpos : 0 < 1 + decay * den) by lra.
  assert (Hlo' : lo * (1 + decay * den) <= x + decay * num).
  { assert (E : lo * (1 + decay * den) == lo + decay * (lo * den)) by ring.
    rewrite E. lra. }
  assert (Hhi' : x + decay * num <= hi * (1 + decay * den)).
  { assert (E : hi * (1 + decay * den) == hi + decay * (hi * den)) by ring.
    rewrite E. lra. }
  constructor.
  - split; [now apply Qle_shift_div_l | now apply Qle_shift_div_r].
  - apply IH; [lra | exact Hlo' | exact Hhi' | exact Hrest].
Qed.

Lemma decay_nonneg (span : positive) : 0 <= 1 - 2 / (span_of span + 1).
Proof.
  assert (H : 1 <= span_of span).
  { unfold span_of. change 1 with (inject_Z 1). rewrite <- Zle_Qle. lia. }
  assert (2 / (span_of span + 1) <= 1)
    by (apply Qle_shift_div_r; lra).
  lra.
Qed.

Lemma ewm_mean_within (lo hi : Q) (span : positive) (xs : list Q) :
  Forall (fun x => lo <= x <= hi) xs ->
  Forall (fun y => lo <= y <= hi) (ewm_mean (span_of span) xs).
Proof.
  intros Hxs. unfold ewm_mean.
  apply ewm_loop_within; [apply decay_nonneg | lra | lra | lra | exact Hxs].
Qed.

Lemma length_ewm_loop (decay : Q) (xs : list Q) (num den : Q) :
  length (ewm_loop decay xs num den) = length xs.
Proof.
  revert num den. induction xs as [|x rest IH]; intros num den;
    cbn [ewm_loop length]; [reflexivity | now rewrite IH].
Qed.

Lemma differences_within (lo hi : Q) (l m : list Q) :
  Forall (fun x => lo <= x <= hi) l -> Forall (fun x => lo <= x <= hi) m ->
  Forall (fun x => lo - hi <= x <= hi - lo) (zip_with Qminus l m).
Proof.
  intros Hl Hm. apply List.Forall_forall. intros z Hz.
  apply in_zip_with in Hz as (x & y & Hx & Hy & ->).
  apply (proj1 (List.Forall_forall _ _) Hl) in Hx.
  apply (proj1 (List.Forall_forall _ _) Hm) in Hy. lra.
Qed.

(** X3.  For closes between [lo] and [hi], the three columns of [macd]
    have one entry per bar; the MACD line and the signal line lie between
    [lo - hi] and [hi - lo], and the histogram between twice these
    bounds. *)
Theorem macd_range (close : list Q) (fast slow signal : positive) (lo hi : Q) :
  Forall (fun x => lo <= x <= hi) close ->
  let '(macd_line, signal_line, histogram) := macd close fast slow signal in
  (length macd_line = length close /\ length signal_line = length close
   /\ length histogram = length close) /\
  Forall (fun x => lo - hi <= x <= hi - lo) macd_line /\
  Forall (fun x => lo - hi <= x <= hi - lo) signal_line /\
  Forall (fun x => 2 * (lo - hi) <= x <= 2 * (hi - lo)) histogram.
Proof.
  intros Hc. unfold macd.
  pose proof (ewm_mean_within lo hi fast close Hc) as H1.
  pose proof (ewm_mean_within lo hi slow close Hc) as H2.
  pose proof (differences_within lo hi _ _ H1 H2) as Hline.
  pose proof (ewm_mean_within _ _ signal _ Hline) as Hsig.
  split; [|split; [exact Hline | split; [exact Hsig|]]].
  - unfold ewm_mean.
    rewrite !length_zip_with, !length_ewm_loop, !length_zip_with,
      !length_ewm_loop. lia.
  - eapply List.Forall_impl;
      [|apply (differences_within _ _ _ _ Hline Hsig)].
    cbv beta. intros x Hx. lra.
Qed.

(** The MACD columns of the technical frame are those of [macd]. *)
Lemma macd_columns_agree (data : DataFrame) :
  let '(macd_line, signal_line, _) := macd (map Close data) 12 26 9 in
  MACD (calculate_technical_indicators data) = Some (map Finite macd_line) /\
  MACD_Signal (calculate_technical_indicators data)
  = Some (map Finite signal_line).
Proof. split; reflexivity. Qed.

(** *** stochastic *)

Lemma stochastic_k_within (df : DataFrame) (k_period i : nat) :
  Forall well_formed df -> (i < length df)%nat ->
  nan_or_within 0 100
    (fmul (Finite 100)
       (fdiv (fsub (iloc (column Close df) i)
                   (iloc (rolling fmin (column Low df) k_period) i))
             (fsub (iloc (rolling fmax (column High df) k_period) i)
                   (iloc (rolling fmin (column Low df) k_period) i)))).
Proof.
  intros Hwf Hi.
  rewrite !rolling_iloc by (unfold column; now rewrite length_map).
  rewrite !window_at_column.
  destruct (Nat.leb_spec k_period (S i)) as [Hk | Hk].
  2:{ left. unfold iloc, column.
      destruct (nth i (map _ df) NaN); reflexivity. }
  rewrite !column_no_nan.
  set (sub := firstn k_period (skipn (S i - k_period) df)).
  destruct k_period as [|k].
  { left. cbn. unfold iloc. destruct (nth i (column Close df) NaN); reflexivity. }
  set (b := nth i df (mkBar 0 0 0 0 0)).
  assert (Hb : In b sub) by (apply window_has_last; [lia | exact Hi]).
  assert (Hwb : well_formed b).
  { apply (proj1 (List.Forall_forall _ _) Hwf). apply nth_In. exact Hi. }
  destruct (fmax_bound (map High sub) (High b)) as (M & HM & HbM);
    [now apply in_map|].
  destruct (fmin_bound (map Low sub) (Low b)) as (m & Hm & Hbm);
    [now apply in_map|].
  assert (Hcol : forall f, column f sub = map Finite (map f sub))
    by (intros f; unfold column; now rewrite map_map).
  rewrite !Hcol, HM, Hm.
  unfold iloc, column.
  rewrite (nth_indep _ NaN (Finite (Close (mkBar 0 0 0 0 0))))
    by now rewrite length_map.
  rewrite (map_nth (fun b => Finite (Close b))). fold b.
  destruct Hwb as [Hw1 Hw2]. cbn [fsub fneg fadd fdiv].
  destruct (Qeq_bool (M + - m) 0) eqn:E0.
  - apply Qeq_bool_eq in E0.
    assert (Hc : Close b + - m == 0) by lra.
    apply Qeq_bool_true in Hc. rewrite Hc. now left.
  - assert (Hpos : 0 < M + - m).
    { destruct (Qlt_le_dec 0 (M + - m)) as [H | H]; [exact H|].
      assert (H0 : M + - m == 0) by lra.
      apply Qeq_bool_true in H0. congruence. }
    cbn [fmul]. right. eexists. split; [reflexivity|].
    assert (0 <= (Close b + - m) / (M + - m))
      by (apply Qle_shift_div_l; [exact Hpos | lra]).
    assert ((Close b + - m) / (M + - m) <= 1)
      by (apply Qle_shift_div_r; [exact Hpos | lra]).
    lra.
Qed.

(** X4.  For bars whose close lies between low and high, [stochastic]
    gives two columns with one entry per bar; %K and %D are at every bar
    NaN or a number from 0 to 100, and %K is NaN on the bars before the
    window is full. *)
Theorem stochastic_range (df : DataFrame) (k_period d_period : nat) :
  Forall well_formed df ->
  let '(k_percent, d_percent) :=
    stochastic (column High df) (column Low df) (column Close df)
               k_period d_period in
  (length k_percent = length df /\ length d_percent = length df) /\
  Forall (nan_or_within 0 100) k_percent /\
  Forall (nan_or_within 0 100) d_percent /\
  (forall i, (S i < k_period)%nat -> iloc k_percent i = NaN).
Proof.
  intros Hwf. unfold stochastic.
  set (k_percent := map (fmul (Finite 100)) _).
  assert (Hlen : length k_percent = length df).
  { unfold k_percent.
    rewrite length_map, !length_zip_with, !length_rolling. unfold column.
    rewrite !length_map. lia. }
  assert (Hnth : forall i, (i < length df)%nat ->
            iloc k_percent i
            = fmul (Finite 100)
                (fdiv (fsub (iloc (column Close df) i)
                            (iloc (rolling fmin (column Low df) k_period) i))
                      (fsub (iloc (rolling fmax (column High df) k_period) i)
                            (iloc (rolling fmin (column Low df) k_period) i)))).
  { intros i Hi. unfold k_percent, iloc.
    assert (Hcol : forall f, length (column f df) = length df)
      by (intros f; unfold column; now rewrite length_map).
    rewrite (nth_indep _ NaN (fmul (Finite 100) NaN))
      by (fold k_percent; lia).
    rewrite map_nth.
    rewrite (nth_zip_with _ _ _ _ NaN NaN)
      by (rewrite length_zip_with, ?length_rolling, !Hcol; lia).
    rewrite !(nth_zip_with _ _ _ _ NaN NaN)
      by (rewrite ?length_rolling, !Hcol; lia).
    reflexivity. }
  assert (Hk : Forall (nan_or_within 0 100) k_percent).
  { apply Forall_iloc. intros i Hi. rewrite Hlen in Hi. rewrite Hnth by exact Hi.
    now apply stochastic_k_within. }
  split; [split; [exact Hlen | now rewrite length_rolling]|].
  split; [exact Hk|]. split; [now apply rolling_mean_within|].
  intros i Hw. destruct (Nat.lt_ge_cases i (length df)) as [Hi | Hi].
  - rewrite Hnth by exact Hi. rewrite !rolling_warm_up by exact Hw.
    unfold iloc. destruct (nth i (column Close df) NaN); reflexivity.
  - unfold iloc. apply nth_overflow. lia.
Qed.

(** The MACD of three closes between 100 and 102. *)
Lemma macd_range_witness :
  Forall (fun x => 100 <= x <= 102) [100; 101; 102] /\
  let '(macd_line, signal_line, histogram) := macd [100; 101; 102] 12 26 9 in
  (length macd_line = length [100; 101; 102]
   /\ length signal_line = length [100; 101; 102]
   /\ length histogram = length [100; 101; 102]) /\
  Forall (fun x => 100 - 102 <= x <= 102 - 100) macd_line /\
  Forall (fun x => 100 - 102 <= x <= 102 - 100) signal_line /\
  Forall (fun x => 2 * (100 - 102) <= x <= 2 * (102 - 100)) histogram.
Proof.
  split.
  - repeat constructor; vm_compute; discriminate.
  - apply (macd_range [100; 101; 102] 12 26 9 100 102).
    repeat constructor; vm_compute; discriminate.
Defined.

(** The stochastic oscillator of three rising bars. *)
Lemma stochastic_range_witness :
  Forall well_formed (map demo_bar [100; 101; 102]) /\
  let '(k_percent, d_percent) :=
    stochastic (column High (map demo_bar [100; 101; 102]))
               (column Low (map demo_bar [100; 101; 102]))
               (column Close (map demo_bar [100; 101; 102])) 2 2 in
  (length k_percent = length (map demo_bar [100; 101; 102])
   /\ length d_percent = length (map demo_bar [100; 101; 102])) /\
  Forall (nan_or_within 0 100) k_percent /\
  Forall (nan_or_within 0 100) d_percent /\
  (forall i, (S i < 2)%nat -> iloc k_percent i = NaN).
Proof.
  split.
  - repeat constructor; vm_compute; discriminate.
  - apply (stochastic_range (map demo_bar [100; 101; 102]) 2 2).
    repeat constructor; vm_compute; discriminate.
Defined.

End OscillatorFacts.

(* ================================================================== *)
(** ** The scores *)
(* ================================================================== *)

Module ScoreFacts.

Import Indicators MarketData Fundamentals Screener Vocabulary Terms.
Import IndicatorFacts.

Ltac split_points :=
  repeat match goal with
         | |- context [match ?x with _ => _ end] => destruct x
         end;
  lia.

Lemma valuation_points_bounds (fd : FundamentalData) :
  (0 <= valuation_points fd <= 25)%Z.
Proof. unfold valuation_points, when_truthy. split_points. Qed.

Lemma profitability_points_bounds (fd : FundamentalData) :
  (0 <= profitability_points fd <= 25)%Z.
Proof. unfold profitability_points, when_truthy. split_points. Qed.

Lemma financial_health_points_bounds (fd : FundamentalData) :
  (0 <= financial_health_points fd <= 25)%Z.
Proof. unfold financial_health_points, when_truthy. split_points. Qed.

Lemma growth_points_bounds (fd : FundamentalData) :
  (0 <= growth_points fd <= 20)%Z.
Proof. unfold growth_points, when_truthy, growth_tier. split_points. Qed.

Lemma dividend_points_bounds (fd : FundamentalData) :
  (0 <= dividend_points fd <= 5)%Z.
Proof. unfold dividend_points, when_truthy. split_points. Qed.

Lemma financial_percentage_bounds (fd : FundamentalData) :
  0 <= percentage (calculate_financial_score fd) <= 100.
Proof.
  pose proof (valuation_points_bounds fd) as H1.
  pose proof (profitability_points_bounds fd) as H2.
  pose proof (financial_health_points_bounds fd) as H3.
  pose proof (growth_points_bounds fd) as H4.
  pose proof (dividend_points_bounds fd) as H5.
  unfold calculate_financial_score. cbn [percentage].
  set (total := (valuation_points fd + profitability_points fd
                 + financial_health_points fd + growth_points fd
                 + dividend_points fd)%Z).
  assert (Ht : (0 <= total <= 100)%Z) by (unfold total; lia).
  change (25 + 25 + 25 + 20 + 5)%Z with 100%Z.
  assert (Hp : inject_Z total / inject_Z 100 * 100 == inject_Z total)
    by (change (inject_Z 100) with 100; field).
  rewrite Hp. change 0 with (inject_Z 0). change 100 with (inject_Z 100).
  rewrite <- !Zle_Qle. exact Ht.
Qed.


Lemma technical_points_bounds (v : Latest) :
  let '(score, total) := technical_points v in
  (0 <= score <= total)%Z /\ (0 < total)%Z.
Proof.
  unfold technical_points.
  repeat (cbv beta iota zeta;
          match goal with
          | |- context [match ?x with _ => _ end] =>
              lazymatch type of x with
              | bool => destruct x
              | option _ => destruct x
              end
          end);
  cbv beta iota zeta; lia.
Qed.

Lemma technical_score_pct_bounds (v : Latest) :
  0 <= technical_score_pct v <= 100.
Proof.
  unfold technical_score_pct.
  pose proof (technical_points_bounds v) as H.
  destruct (technical_points v) as [score total]. destruct H as [Hs Ht].
  destruct (Z.ltb_spec 0 total) as [_ | Hn]; [|lia].
  assert (Hq : 0 < inject_Z total)
    by (change 0 with (inject_Z 0); now rewrite <- Zlt_Qlt).
  assert (H0 : 0 <= inject_Z score)
    by (change 0 with (inject_Z 0); rewrite <- Zle_Qle; lia).
  assert (H1 : inject_Z score <= inject_Z total)
    by (rewrite <- Zle_Qle; lia).
  assert (0 <= inject_Z score / inject_Z total)
    by (apply Qle_shift_div_l; [exact Hq | lra]).
  assert (inject_Z score / inject_Z total <= 1)
    by (apply Qle_shift_div_r; [exact Hq | lra]).
  lra.
Qed.

End ScoreFacts.

(* ================================================================== *)
(** ** What the screens select *)
(* ================================================================== *)

Module SelectionFacts.

Import Indicators MarketData Fundamentals Screener Vocabulary Terms Screens.
Import IndicatorFacts SortFacts ScreenerFacts CacheFacts OscillatorFacts ScoreFacts.

Lemma and_then_false (v : option pyfloat) (test : pyfloat -> bool) :
  and_then v test = false <-> absent_or v (fun x => negb (test x)).
Proof.
  destruct v as [x|]; cbn; [|tauto].
  rewrite andb_false_iff, negb_true_iff. reflexivity.
Qed.

Lemma existsb_eqb_In (s : string) (l : list string) :
  existsb (String.eqb s) l = true <-> In s l.
Proof.
  rewrite existsb_exists. split.
  - intros (x & Hx & E). apply String.eqb_eq in E. now subst.
  - intros H. exists s. split; [exact H | apply String.eqb_refl].
Qed.

Lemma collect_ext {Row : Type}
  (body body' : string -> StockData -> outcome (option Row))
  (fetched : list (string * StockData)) :
  (forall symbol stock_data, body symbol stock_data = body' symbol stock_data) ->
  collect body fetched = collect body' fetched.
Proof.
  intros H. induction fetched as [|[s d] rest IH]; [reflexivity|].
  cbn [collect]. now rewrite H, IH.
Qed.

Lemma passes_fundamental_iff (sc : FundamentalCriteria) (symbol : string)
  (stock_data : StockData) :
  passes_fundamental sc (fundamental_row symbol stock_data)
  <-> pe_rejects sc (fundamental stock_data) = false
      /\ others_reject sc (fundamental stock_data) = false.
Proof.
  unfold passes_fundamental, others_reject, fundamental_row.
  cbn [f_market_cap f_pe_ratio f_roe f_debt_to_equity f_profit_margin
       f_revenue_growth f_dividend_yield f_sector].
  set (fd := fundamental stock_data).
  rewrite !orb_false_iff.
  unfold pe_rejects, roe_rejects, debt_rejects, margin_rejects, growth_rejects,
    market_cap_rejects.
  rewrite !and_then_false, negb_false_iff, andb_true_iff.
  assert (Hpe : forall v t, absent_or v (fun x => negb (negb (t x)))
                            <-> absent_or v t).
  { intros [x|] t; cbn; [|tauto]. now rewrite negb_involutive. }
  rewrite Hpe.
  assert (Hdiv : dividend_rejects sc fd = false
                 <-> (default false (require_dividend_yield sc) = true ->
                      exists y, dividend_yield fd = Some y /\ truthy y = true
                                /\ fleb y (Finite 0) = false)).
  { unfold dividend_rejects.
    destruct (default false (require_dividend_yield sc)).
    - destruct (dividend_yield fd) as [y|].
      + rewrite orb_false_iff, negb_false_iff. split.
        * intros [H1 H2] _. eauto.
        * intros H. destruct (H eq_refl) as (y' & [= <-] & H1 & H2). now split.
      + split; [discriminate|]. intros H.
        destruct (H eq_refl) as (y & [=] & _).
    - split; [discriminate | reflexivity]. }
  assert (Hsec : sector_rejects sc fd = false
                 <-> match sectors sc with
                     | Some (first :: others) =>
                         In (sector fd) (first :: others)
                     | _ => True
                     end).
  { unfold sector_rejects. destruct (sectors sc) as [[|first others]|];
      try tauto.
    now rewrite negb_false_iff, existsb_eqb_In. }
  rewrite Hdiv, Hsec. tauto.
Qed.

Lemma fundamental_body_row (sc : FundamentalCriteria) (symbol : string)
  (stock_data : StockData) :
  fundamental_body sc symbol stock_data
  = Returned (if pe_rejects sc (fundamental stock_data)
                 || others_reject sc (fundamental stock_data)
              then None else Some (fundamental_row symbol stock_data)).
Proof.
  unfold fundamental_body, others_reject, fundamental_row.
  destruct (market_cap_rejects _ _), (pe_rejects _ _), (roe_rejects _ _),
    (debt_rejects _ _), (margin_rejects _ _), (growth_rejects _ _),
    (dividend_rejects _ _), (sector_rejects _ _); reflexivity.
Qed.

Lemma financial_score_row_bounds (symbol : string) (stock_data : StockData) :
  0 <= financial_score (fundamental_row symbol stock_data) <= 100.
Proof.
  unfold fundamental_row. cbn [financial_score].
  apply financial_percentage_bounds.
Qed.

Section WithProvider.

Variable env : Provider.

Lemma init_consistent : cache_consistent env init.
Proof. intros symbol d t. cbn. rewrite lookup_empty. discriminate. Qed.

Lemma In_available (symbols : list string) (symbol : string) (d : StockData) :
  In (symbol, d) (available env symbols)
  <-> In symbol symbols /\ fresh_data env symbol = Some d.
Proof.
  induction symbols as [|s rest IH]; cbn [available In]; [tauto|].
  destruct (fresh_data env s) as [d0|] eqn:E.
  - cbn [In]. rewrite IH. split.
    + intros [[= <- <-] | [H1 H2]]; [now split; [left|] | now split; [right|]].
    + intros [[<- | H1] H2]; [left; congruence | right; now split].
  - rewrite IH. split.
    + intros [H1 H2]. now split; [right|].
    + intros [[<- | H1] H2]; [congruence | now split].
Qed.

(** A screen that is a loop over the universe in a [try]: what it
    returns, and the loop it ran. *)
Lemma loop_screen_run {Row : Type}
  (body : string -> StockData -> outcome (option Row))
  (post : list Row -> list Row) (w : world) :
  exists o w',
    for_each_symbol env body (stock_universe w) w = (o, w') /\
    o = collect body (fetched env w) /\
    try_except
      (universe <- get_stock_universe ;;
       screened_stocks <- for_each_symbol env body universe ;;
       ret (post screened_stocks))
      (ret []) w
    = (Returned (match o with
                 | Returned rows => post rows
                 | Raised _ => []
                 end), w').
Proof.
  destruct (for_each_symbol_cases env body (stock_universe w) w)
    as (o & w' & E & Ho).
  exists o, w'. split; [exact E|]. split; [exact Ho|].
  unfold try_except, bind, get_stock_universe, ret. rewrite E.
  destruct o; reflexivity.
Qed.

Lemma collect_rows {Row : Type} (f : string -> StockData -> option Row)
  (fetched : list (string * StockData)) :
  collect (fun symbol stock_data => Returned (f symbol stock_data)) fetched
  = Returned (omap (fun p => f (fst p) (snd p)) fetched).
Proof.
  induction fetched as [|[s d] rest IH]; [reflexivity|].
  cbn [collect obind omap list_omap fst snd]. rewrite IH. cbn [obind].
  destruct (f s d); reflexivity.
Qed.

Lemma In_omap {A B : Type} (f : A -> option B) (items : list A) (b : B) :
  In b (omap f items) <-> exists a, f a = Some b /\ In a items.
Proof.
  induction items as [|a0 items IH]; cbn [omap list_omap In].
  - split; [intros [] | intros (a & _ & [])].
  - destruct (f a0) as [b0|] eqn:E; cbn [In]; rewrite IH; split.
    + intros [<- | (a & Hf & Ha)]; [exists a0; auto | exists a; auto].
    + intros (a & Hf & [<- | Ha]); [left; congruence | right; eauto].
    + intros (a & Hf & Ha). exists a; auto.
    + intros (a & Hf & [<- | Ha]); [congruence | eauto].
Qed.

Lemma fundamental_screen_run (criteria : FundamentalCriteria) (w : world) :
  let sc := with_fundamental_defaults criteria in
  let kept :=
    omap (fun p => if pe_rejects sc (fundamental (snd p))
                      || others_reject sc (fundamental (snd p))
                   then None else Some (fundamental_row (fst p) (snd p)))
         (fetched env w) in
  exists o w',
    for_each_symbol env (fundamental_body sc) (stock_universe w) w = (o, w') /\
    fundamental_screen env criteria w
    = (Returned (list_sort Qltb financial_score true kept), w').
Proof.
  cbv zeta.
  destruct (loop_screen_run
              (fundamental_body (with_fundamental_defaults criteria))
              (list_sort Qltb financial_score true) w)
    as (o & w' & E & Ho & Hrun).
  exists o, w'. split; [exact E|].
  unfold fundamental_screen. rewrite Hrun, Ho.
  rewrite (collect_ext _ (fun s d =>
             Returned (if pe_rejects (with_fundamental_defaults criteria)
                                     (fundamental d)
                          || others_reject (with_fundamental_defaults criteria)
                                           (fundamental d)
                       then None else Some (fundamental_row s d))))
    by (intros; apply fundamental_body_row).
  now rewrite collect_rows.
Qed.

(** Every row of [fundamental_screen] passes the filters, and its score
    is a percentage. *)
Lemma fundamental_screen_rows (criteria : FundamentalCriteria) (w : world) :
  exists rows w',
    fundamental_screen env criteria w = (Returned rows, w') /\
    Forall (passes_fundamental (with_fundamental_defaults criteria)) rows /\
    Forall (fun row => 0 <= financial_score row <= 100) rows.
Proof.
  destruct (fundamental_screen_run criteria w) as (o & w' & _ & E).
  eexists _, w'. split; [exact E|].
  assert (H : forall row,
             In row (omap (fun p =>
                       if pe_rejects (with_fundamental_defaults criteria)
                                     (fundamental (snd p))
                          || others_reject (with_fundamental_defaults criteria)
                                           (fundamental (snd p))
                       then None else Some (fundamental_row (fst p) (snd p)))
                     (fetched env w)) ->
             passes_fundamental (with_fundamental_defaults criteria) row
             /\ 0 <= financial_score row <= 100).
  { intros row Hrow. apply In_omap in Hrow as ([s d] & Hf & _). cbn [fst snd] in Hf.
    destruct (pe_rejects _ _ || others_reject _ _) eqn:R; [discriminate|].
    injection Hf as <-. apply orb_false_iff in R.
    split; [apply passes_fundamental_iff, R | apply financial_score_row_bounds]. }
  split; apply List.Forall_forall; intros row Hrow;
    apply (Permutation_in _ (list_sort_perm _ _ _ _)) in Hrow;
    apply H, Hrow.
Qed.

(** X6.  With a cache in which every entry is what a fetch of its symbol
    gives, [fundamental_screen] returns the rows of exactly the symbols of
    the universe that have data and pass the filters. *)
Theorem fundamental_screen_selects (criteria : FundamentalCriteria) (w : world) :
  cache_consistent env w ->
  exists rows w',
    fundamental_screen env criteria w = (Returned rows, w') /\
    cache_consistent env w' /\
    forall row,
      In row rows <->
      exists symbol stock_data,
        In symbol (stock_universe w) /\
        fresh_data env symbol = Some stock_data /\
        row = fundamental_row symbol stock_data /\
        passes_fundamental (with_fundamental_defaults criteria) row.
Proof.
  intros Hc.
  destruct (fundamental_screen_run criteria w) as (o & w' & Hloop & E).
  eexists _, w'. split; [exact E|].
  split; [exact (proj1 (for_each_symbol_consistent env _ _ _ _ _ Hc Hloop))|].
  intros row. split.
  - intros Hrow.
    apply (Permutation_in _ (list_sort_perm _ _ _ _)) in Hrow.
    apply In_omap in Hrow as ([s d] & Hf & Hin). cbn [fst snd] in Hf.
    destruct (pe_rejects _ _ || others_reject _ _) eqn:R; [discriminate|].
    injection Hf as <-. apply orb_false_iff in R.
    unfold fetched in Hin. rewrite fetch_all_available in Hin by exact Hc.
    apply In_available in Hin as [Hu Hd].
    exists s, d. split; [exact Hu|]. split; [exact Hd|]. split; [reflexivity|].
    exact (proj2 (passes_fundamental_iff _ s d) R).
  - intros (s & d & Hu & Hd & -> & Hp).
    apply (Permutation_in _ (Permutation_sym (list_sort_perm _ _ _ _))).
    apply In_omap. exists (s, d). split.
    + cbn [fst snd].
      destruct (proj1 (passes_fundamental_iff _ s d) Hp) as [-> ->].
      reflexivity.
    + unfold fetched. rewrite fetch_all_available by exact Hc.
      apply In_available. now split.
Qed.

(** *** technical_screen *)

Lemma iloc_last_cons {A : Type} (x : A) (l : list A) :
  exists y, iloc_last (x :: l) = Some y.
Proof.
  unfold iloc_last. revert x. induction l as [|a l IH]; intros x.
  - now exists x.
  - destruct (IH a) as (y & Hy). exists y. exact Hy.
Qed.

Lemma iloc_last_nth (l : Series) :
  l <> [] -> iloc_last l = Some (iloc l (length l - 1)).
Proof.
  unfold iloc_last, iloc. induction l as [|a l IH]; [congruence|]. intros _.
  destruct l as [|b l]; [reflexivity|].
  change (List.last (map Some (a :: b :: l)) None)
    with (List.last (map Some (b :: l)) None).
  rewrite IH by discriminate.
  replace (length (a :: b :: l) - 1)%nat with (S (length (b :: l) - 1))
    by (cbn [length]; lia).
  reflexivity.
Qed.

Lemma iloc_last_length {A : Type} (l : list A) :
  (0 < length l)%nat -> exists y, iloc_last l = Some y.
Proof. destruct l as [|x l]; cbn [length]; [lia|]. intros _. apply iloc_last_cons. Qed.

Lemma latest_column (s : Series) :
  (0 < length s)%nat -> exists y, latest (Some s) = Returned (Some y).
Proof.
  intros H. destruct (iloc_last_length s H) as (y & Hy).
  exists y. unfold latest. now rewrite Hy.
Qed.

Lemma read_latest_bars (technical : TechnicalFrame) (v : Latest) :
  read_latest technical = Returned v -> bars technical <> [].
Proof.
  unfold read_latest. intros H E. rewrite E in H. discriminate H.
Qed.

Lemma technical_body_cases (sc : TechnicalCriteria) (symbol : string)
  (stock_data : StockData) (v : Latest) :
  read_latest (technical stock_data) = Returned v ->
  technical_body sc symbol stock_data
  = if technical_filters_reject sc v then Returned None
    else if flag (breakout_pattern sc) then
      match iloc_last2 (rolling fmax (column High (bars (technical stock_data)))
                                20) with
      | Some high_20 =>
          Returned (if fgtb (Finite (l_current_price v)) high_20
                    then Some (technical_row symbol v 1) else None)
      | None => Raised IndexError
      end
    else Returned (Some (technical_row symbol v 0)).
Proof.
  intros H. pose proof (read_latest_bars _ _ H) as Hb.
  unfold technical_body, empty.
  destruct (bars (technical stock_data)) as [|b rest] eqn:E; [congruence|].
  rewrite H. cbn [obind]. unfold technical_filters_reject, technical_row.
  destruct (rsi_rejects sc v), (sma20_rejects sc v), (sma50_rejects sc v),
    (macd_rejects sc v), (volume_spike_rejects sc v), (min_volume_rejects sc v);
    try reflexivity.
  cbn [orb]. destruct (flag (breakout_pattern sc)); [|reflexivity].
  unfold iloc_m2. destruct (iloc_last2 _) as [h|]; [|reflexivity].
  cbn [obind]. destruct (fgtb _ h); reflexivity.
Qed.

Lemma technical_row_passes (sc : TechnicalCriteria) (symbol : string)
  (v : Latest) :
  technical_filters_reject sc v = false ->
  passes_technical sc
    (technical_row symbol v (if flag (breakout_pattern sc) then 1 else 0)).
Proof.
  unfold technical_filters_reject. rewrite !orb_false_iff.
  intros (((((Hrsi & _) & _) & _) & Hvol) & _).
  unfold passes_technical, technical_row.
  cbn [t_rsi t_volume_ratio t_breakout_score t_macd_signal technical_score].
  split.
  { unfold rsi_rejects in Hrsi. apply and_then_false in Hrsi.
    destruct (l_rsi v) as [x|]; cbn in *; [|exact I].
    now rewrite negb_involutive in Hrsi. }
  split.
  { intros Hf. unfold volume_spike_rejects in Hvol. rewrite Hf in Hvol.
    cbn [andb] in Hvol. destruct (truthy (l_avg_volume v)); [|now left].
    right. exact Hvol. }
  split; [reflexivity|].
  split; [destruct (macd_above_signal v); [now left | now right]|].
  apply technical_score_pct_bounds.
Qed.

(** Every row of [technical_screen] passes the filters, and its score is
    a percentage. *)
Lemma technical_screen_rows (criteria : TechnicalCriteria) (w : world) :
  exists rows w',
    technical_screen env criteria w = (Returned rows, w') /\
    Forall (passes_technical (with_technical_defaults criteria)) rows.
Proof.
  destruct (loop_screen_run
              (technical_body (with_technical_defaults criteria))
              (list_sort Qltb technical_score true) w)
    as (o & w' & _ & Ho & Hrun).
  eexists _, w'. split; [exact Hrun|].
  destruct o as [rows | e]; [|constructor].
  apply List.Forall_forall. intros row Hrow.
  apply (Permutation_in _ (list_sort_perm _ _ _ _)) in Hrow.
  destruct (collect_sound _ _ _ _ (eq_sym Ho) Hrow) as (s & d & _ & Hb).
  set (sc := with_technical_defaults criteria) in *.
  assert (Hv : exists v, read_latest (technical d) = Returned v).
  { unfold technical_body in Hb. destruct (empty _); [discriminate|].
    destruct (read_latest _) as [v|e]; [eauto | discriminate]. }
  destruct Hv as (v & Hv). rewrite (technical_body_cases _ _ _ _ Hv) in Hb.
  destruct (technical_filters_reject sc v) eqn:R; [discriminate|].
  pose proof (technical_row_passes sc s v R) as Hp.
  destruct (flag (breakout_pattern sc)).
  - destruct (iloc_last2 _) as [h|]; [|discriminate].
    destruct (fgtb _ h); [|discriminate]. injection Hb as <-. exact Hp.
  - injection Hb as <-. exact Hp.
Qed.

Lemma collect_total_on {Row : Type}
  (body : string -> StockData -> outcome (option Row))
  (fetched : list (string * StockData)) :
  (forall symbol stock_data,
      In (symbol, stock_data) fetched ->
      exists r, body symbol stock_data = Returned r) ->
  exists rows, collect body fetched = Returned rows.
Proof.
  induction fetched as [|[s d] rest IH]; intros H; [now exists []|].
  cbn [collect]. destruct (H s d (or_introl eq_refl)) as (r & ->).
  destruct IH as (rows & ->); [intros; apply H; now right|].
  cbn [obind]. eauto.
Qed.

Lemma fresh_data_frame (symbol : string) (stock_data : StockData) :
  fresh_data env symbol = Some stock_data ->
  exists data,
    data <> [] /\ technical stock_data = calculate_technical_indicators data.
Proof.
  unfold fresh_data. destruct (get_fundamental_data env symbol); [|discriminate].
  destruct (get_stock_data env symbol) as [|b rest] eqn:E; [discriminate|].
  intros [= <-]. exists (b :: rest). split; [discriminate | reflexivity].
Qed.

Lemma read_latest_fresh (data : DataFrame) :
  data <> [] ->
  exists v,
    read_latest (calculate_technical_indicators data) = Returned v /\
    l_rsi v = Some (iloc (rsi (column Close data) 14) (length data - 1)).
Proof.
  intros Hd.
  assert (Hlen : (0 < length data)%nat) by (destruct data; [congruence | cbn; lia]).
  unfold read_latest. rewrite technical_indicators_rsi.
  cbn [bars calculate_technical_indicators SMA_20 SMA_50 MACD MACD_Signal].
  destruct (iloc_last_length (map Close data)) as (c & Hc);
    [now rewrite length_map|].
  unfold iloc_m1 at 1. rewrite Hc. cbn [obind].
  unfold latest at 1. rewrite iloc_last_nth, length_rsi;
    [|intros E; apply (f_equal (@length _)) in E; rewrite length_rsi in E;
      unfold column in E; rewrite length_map in E; cbn in E; lia].
  unfold column at 2. rewrite length_map. cbn [obind].
  destruct (latest_column (rolling mean (map Finite (map Close data)) 20))
    as (s20 & ->); [now rewrite length_rolling, !length_map|].
  destruct (latest_column (rolling mean (map Finite (map Close data)) 50))
    as (s50 & ->); [now rewrite length_rolling, !length_map|].
  cbn [obind].
  change (@Some (list pyfloat)) with (@Some Series).
  match goal with
  | |- context [latest (Some ?s)] => destruct (latest_column s) as (m & ->)
  end.
  { unfold ewm_mean.
    rewrite length_map, length_zip_with, !length_ewm_loop, length_map. lia. }
  cbn [obind].
  match goal with
  | |- context [latest (Some ?s)] => destruct (latest_column s) as (ms & ->)
  end.
  { unfold ewm_mean.
    rewrite length_map, length_ewm_loop, length_zip_with, !length_ewm_loop,
      length_map. lia. }
  cbn [obind].
  destruct (iloc_last_length (map Volume data)) as (vol & Hv);
    [now rewrite length_map|].
  unfold iloc_m1 at 1. rewrite Hv. cbn [obind].
  destruct (iloc_last_length (rolling mean (column Volume data) 20))
    as (av & Hav); [unfold column; now rewrite length_rolling, length_map|].
  unfold iloc_m1. rewrite Hav. cbn [obind].
  eexists. split; reflexivity.
Qed.

Lemma rsi_rejects_nan (sc : TechnicalCriteria) (v : Latest) :
  l_rsi v = Some NaN -> rsi_rejects sc v = true.
Proof.
  intros H. unfold rsi_rejects. rewrite H. cbn [and_then truthy andb].
  destruct (threshold (rsi_min sc)); reflexivity.
Qed.

Lemma iloc_last2_length {A : Type} (l : list A) :
  (2 <= length l)%nat -> exists y, iloc_last2 l = Some y.
Proof.
  intros H. unfold iloc_last2. apply iloc_last_length.
  destruct l as [|a [|b l]]; cbn [length] in *; try lia.
  cbn [removelast length]. lia.
Qed.

(** On a frame as fetched, an iteration of [technical_screen] raises
    nothing: a frame too short for the row before the last has no RSI, and
    is rejected before that row is read. *)
Lemma technical_body_fresh (sc : TechnicalCriteria) (symbol : string)
  (stock_data : StockData) :
  fresh_data env symbol = Some stock_data ->
  exists v,
    read_latest (technical stock_data) = Returned v /\
    technical_body sc symbol stock_data
    = Returned
        (if technical_filters_reject sc v then None
         else if flag (breakout_pattern sc) then
           match iloc_last2 (rolling fmax
                               (column High (bars (technical stock_data))) 20) with
           | Some high_20 =>
               if fgtb (Finite (l_current_price v)) high_20
               then Some (technical_row symbol v 1) else None
           | None => None
           end
         else Some (technical_row symbol v 0)).
Proof.
  intros Hf. destruct (fresh_data_frame _ _ Hf) as (data & Hd & Ht).
  destruct (read_latest_fresh data Hd) as (v & Hv & Hrsi).
  rewrite <- Ht in Hv. exists v. split; [exact Hv|].
  rewrite (technical_body_cases _ _ _ _ Hv).
  destruct (technical_filters_reject sc v) eqn:R; [reflexivity|].
  destruct (flag (breakout_pattern sc)); [|reflexivity].
  destruct (Nat.lt_ge_cases (length data) 14) as [Hshort | Hlong].
  - exfalso. unfold technical_filters_reject in R.
    rewrite (rsi_rejects_nan sc v) in R; [discriminate|].
    rewrite Hrsi. f_equal. apply rsi_warm_up. lia.
  - destruct (iloc_last2_length
                (rolling fmax (column High (bars (technical stock_data))) 20))
      as (h & ->).
    { rewrite Ht. cbn [bars calculate_technical_indicators].
      unfold column. rewrite length_rolling, length_map. lia. }
    destruct (fgtb _ h); reflexivity.
Qed.



(** X7.  With a cache in which every entry is what a fetch of its symbol
    gives, [technical_screen] does not fall into its [except]: the loop
    ends without an exception, and the result holds the rows of exactly
    the symbols that have data and pass the filters (and close above the
    20-bar high of the bar before, when the breakout pattern is asked
    for). *)
Theorem technical_screen_selects (criteria : TechnicalCriteria) (w : world) :
  cache_consistent env w ->
  exists unsorted rows w',
    for_each_symbol env (technical_body (with_technical_defaults criteria))
                    (stock_universe w) w = (Returned unsorted, w') /\
    technical_screen env criteria w = (Returned rows, w') /\
    rows = list_sort Qltb technical_score true unsorted /\
    cache_consistent env w' /\
    forall row,
      In row rows <->
      exists symbol stock_data v,
        In symbol (stock_universe w) /\
        fresh_data env symbol = Some stock_data /\
        read_latest (technical stock_data) = Returned v /\
        technical_filters_reject (with_technical_defaults criteria) v = false /\
        if flag (breakout_pattern (with_technical_defaults criteria))
        then breaks_out (technical stock_data) v
             /\ row = technical_row symbol v 1
        else row = technical_row symbol v 0.
Proof.
  intros Hc. set (sc := with_technical_defaults criteria).
  destruct (loop_screen_run (technical_body sc)
              (list_sort Qltb technical_score true) w)
    as (o & w' & Hloop & Ho & Hrun).
  fold sc.
  assert (Hav : fetched env w = available env (stock_universe w))
    by (unfold fetched; now apply fetch_all_available).
  destruct (collect_total_on (technical_body sc) (fetched env w))
    as (unsorted & Hcol).
  { intros s d Hin. rewrite Hav in Hin. apply In_available in Hin as [_ Hd].
    destruct (technical_body_fresh sc s d Hd) as (v & _ & ->). eauto. }
  rewrite Hcol in Ho. subst o.
  exists unsorted, (list_sort Qltb technical_score true unsorted), w'.
  split; [exact Hloop|]. split; [exact Hrun|]. split; [reflexivity|].
  split; [exact (proj1 (for_each_symbol_consistent env _ _ _ _ _ Hc Hloop))|].
  intros row. split.
  - intros Hrow. apply (Permutation_in _ (list_sort_perm _ _ _ _)) in Hrow.
    destruct (collect_sound _ _ _ _ Hcol Hrow) as (s & d & Hin & Hb).
    rewrite Hav in Hin. apply In_available in Hin as [Hu Hd].
    destruct (technical_body_fresh sc s d Hd) as (v & Hv & E).
    rewrite E in Hb. exists s, d, v.
    split; [exact Hu|]. split; [exact Hd|]. split; [exact Hv|].
    destruct (technical_filters_reject sc v); [discriminate|].
    split; [reflexivity|].
    destruct (flag (breakout_pattern sc)).
    + destruct (iloc_last2 _) as [h|] eqn:Eh; [|discriminate].
      destruct (fgtb _ h) eqn:Eg; [|discriminate].
      injection Hb as [= <-]. split; [|reflexivity]. exists h. now split.
    + now injection Hb as [= <-].
  - intros (s & d & v & Hu & Hd & Hv & R & Hrow).
    apply (Permutation_in _ (Permutation_sym (list_sort_perm _ _ _ _))).
    apply (collect_complete _ _ _ s d row Hcol).
    + rewrite Hav. apply In_available. now split.
    + destruct (technical_body_fresh sc s d Hd) as (v' & Hv' & ->).
      rewrite Hv in Hv'. injection Hv' as <-. rewrite R.
      destruct (flag (breakout_pattern sc)).
      * destruct Hrow as [(h & -> & ->) ->]. reflexivity.
      * now subst row.
Qed.

End WithProvider.

(** The fundamental screen of the small market, from the empty cache. *)
Lemma fundamental_screen_selects_witness :
  cache_consistent demo init /\
  exists rows w',
    fundamental_screen demo no_fundamental_criteria init
    = (Returned rows, w') /\
    cache_consistent demo w' /\
    forall row,
      In row rows <->
      exists symbol stock_data,
        In symbol (stock_universe init) /\
        fresh_data demo symbol = Some stock_data /\
        row = fundamental_row symbol stock_data /\
        passes_fundamental (with_fundamental_defaults no_fundamental_criteria)
                           row.
Proof.
  split; [apply init_consistent|].
  apply (fundamental_screen_selects demo no_fundamental_criteria init).
  apply init_consistent.
Defined.

(** The technical screen of the small market, from the empty cache. *)
Lemma technical_screen_selects_witness :
  cache_consistent demo init /\
  exists unsorted rows w',
    for_each_symbol demo
      (technical_body (with_technical_defaults no_technical_criteria))
      (stock_universe init) init = (Returned unsorted, w') /\
    technical_screen demo no_technical_criteria init = (Returned rows, w') /\
    rows = list_sort Qltb technical_score true unsorted /\
    cache_consistent demo w' /\
    forall row,
      In row rows <->
      exists symbol stock_data v,
        In symbol (stock_universe init) /\
        fresh_data demo symbol = Some stock_data /\
        read_latest (technical stock_data) = Returned v /\
        technical_filters_reject
          (with_technical_defaults no_technical_criteria) v = false /\
        if flag (breakout_pattern
                   (with_technical_defaults no_technical_criteria))
        then breaks_out (technical stock_data) v
             /\ row = technical_row symbol v 1
        else row = technical_row symbol v 0.
Proof.
  split; [apply init_consistent|].
  apply (technical_screen_selects demo no_technical_criteria init).
  apply init_consistent.
Defined.

End SelectionFacts.

(* ================================================================== *)
(** ** The Supertrend and earnings screens *)
(* ================================================================== *)

Module SignalFacts.

Import Indicators MarketData Fundamentals Screener Vocabulary Screens Terms.
Import IndicatorFacts SortFacts ScreenerFacts CacheFacts OscillatorFacts.
Import SelectionFacts.

Lemma fltb_nan_r (x : pyfloat) : fltb x NaN = false.
Proof. destruct x; reflexivity. Qed.

Lemma iloc_repeat_nan (n i : nat) : iloc (repeat NaN n) i = NaN.
Proof. unfold iloc. apply nth_repeat. Qed.

Lemma final_band_loop_nan (moves : pyfloat -> pyfloat -> pyfloat -> bool)
  (band close : Series) (indices : list nat) :
  (forall b c, moves b NaN c = false) ->
  final_band_loop moves band close indices NaN = repeat NaN (length indices).
Proof.
  intros Hm. induction indices as [|i rest IH]; [reflexivity|].
  cbn [final_band_loop length repeat]. rewrite Hm. now rewrite IH.
Qed.

Lemma final_band_nan (moves : pyfloat -> pyfloat -> pyfloat -> bool)
  (band close : Series) :
  (forall b c, moves b NaN c = false) ->
  iloc band 0 = NaN ->
  final_band moves band close = repeat NaN (length band).
Proof.
  intros Hm H0. unfold final_band. destruct (length band) as [|n]; [reflexivity|].
  rewrite H0, final_band_loop_nan by exact Hm. now rewrite length_seq.
Qed.

Lemma upper_moves_nan (b c : pyfloat) : upper_moves b NaN c = false.
Proof. unfold upper_moves, fgtb. now rewrite fltb_nan_r. Qed.

Lemma lower_moves_nan (b c : pyfloat) : lower_moves b NaN c = false.
Proof. unfold lower_moves, fgtb. now rewrite fltb_nan_r. Qed.

Lemma signal_loop_blank (close : Series) (n m : nat) (indices : list nat)
  (prev : pyfloat * string) :
  signal_loop close (repeat NaN n) (repeat NaN m) indices prev
  = repeat prev (length indices).
Proof.
  induction indices as [|i rest IH]; [reflexivity|].
  cbn [signal_loop length repeat]. rewrite !iloc_repeat_nan.
  unfold fgtb. rewrite fltb_nan_r. cbn [fltb]. now rewrite IH.
Qed.

(** The band of bar 0 is NaN: the average true range has no value before
    [period] bars. *)
Lemma band_first_nan (op : pyfloat -> pyfloat -> pyfloat) (hl_avg tr : Series)
  (period : nat) (multiplier : Q) :
  (forall x, op x NaN = NaN) ->
  (2 <= period)%nat -> length tr = length hl_avg ->
  iloc (zip_with op hl_avg
          (map (fmul (Finite multiplier)) (rolling mean tr period))) 0 = NaN.
Proof.
  intros Hop Hp Hlen. unfold iloc.
  destruct hl_avg as [|h rest].
  { reflexivity. }
  rewrite (nth_zip_with _ _ _ _ NaN NaN);
    [|cbn [length]; lia
     |rewrite length_map, length_rolling, Hlen; cbn [length]; lia].
  replace (nth 0 (map (fmul (Finite multiplier)) (rolling mean tr period)) NaN)
    with NaN; [apply Hop|].
  change NaN with (fmul (Finite multiplier) NaN) at 2.
  rewrite map_nth. cbn [fmul].
  fold (iloc (rolling mean tr period) 0).
  rewrite rolling_warm_up by lia. reflexivity.
Qed.

Lemma length_true_range (high low close : Series) :
  length (true_range high low close) = length high.
Proof. unfold true_range. now rewrite length_map, length_seq. Qed.

(** The frame that [_calculate_supertrend] makes, when it makes one. *)
Lemma supertrend_frame_columns (data : TechnicalFrame) (period : nat)
  (multiplier : Q) (frame : SupertrendFrame) :
  (2 <= period)%nat ->
  _calculate_supertrend data period multiplier = Some frame ->
  let n := length (bars data) in
  (period <= n)%nat /\
  Supertrend frame = repeat NaN n /\
  Signal frame = repeat "Sell"%string n /\
  Upper_Band frame = repeat NaN n /\
  Lower_Band frame = repeat NaN n.
Proof.
  intros Hp. cbv zeta. unfold _calculate_supertrend, empty.
  destruct (bars data) as [|b rest] eqn:Eb; [discriminate|].
  cbn [orb]. destruct (Nat.ltb_spec (length (b :: rest)) period) as [Hn | Hn];
    [discriminate|].
  intros H. cbv zeta in H.
  apply (f_equal (fun o => match o with Some f => f | None => frame end)) in H.
  cbv beta iota in H. subst frame.
  split; [exact Hn|].
  set (n := length (b :: rest)) in *.
  set (high := column High (b :: rest)).
  set (low := column Low (b :: rest)).
  set (close := column Close (b :: rest)).
  set (hl_avg := map (fun x => fdiv x (Finite 2)) (zip_with fadd high low)).
  assert (Hh : length hl_avg = n).
  { unfold hl_avg, high, low, column.
    rewrite length_map, length_zip_with, !length_map. fold n. lia. }
  assert (Htr : length (true_range high low close) = length hl_avg).
  { rewrite length_true_range, Hh. unfold high, column. now rewrite length_map. }
  assert (Hu : final_band upper_moves
                 (zip_with fadd hl_avg
                    (map (fmul (Finite multiplier))
                       (rolling mean (true_range high low close) period))) close
               = repeat NaN n).
  { rewrite final_band_nan.
    - now rewrite length_zip_with, length_map, length_rolling, Htr, Hh,
        Nat.min_id.
    - apply upper_moves_nan.
    - apply band_first_nan; [intros x; now destruct x | exact Hp | exact Htr]. }
  assert (Hl : final_band lower_moves
                 (zip_with fsub hl_avg
                    (map (fmul (Finite multiplier))
                       (rolling mean (true_range high low close) period))) close
               = repeat NaN n).
  { rewrite final_band_nan.
    - now rewrite length_zip_with, length_map, length_rolling, Htr, Hh,
        Nat.min_id.
    - apply lower_moves_nan.
    - apply band_first_nan; [intros x; now destruct x | exact Hp | exact Htr]. }
  rewrite Hu, Hl. rewrite !iloc_repeat_nan. unfold fgtb. cbn [fltb].
  rewrite signal_loop_blank, length_seq.
  cbn [Supertrend Signal Upper_Band Lower_Band].
  assert (Hn1 : n = S (n - 1)) by (unfold n; cbn [length]; lia).
  change ((NaN, "Sell"%string) :: repeat (NaN, "Sell"%string) (n - 1))
    with (repeat (NaN, "Sell"%string) (S (n - 1))).
  rewrite <- Hn1, !map_repeat. cbn [fst snd]. repeat split.
Qed.

Lemma supertrend_frame_none (data : TechnicalFrame) (period : nat)
  (multiplier : Q) :
  (0 < period)%nat ->
  _calculate_supertrend data period multiplier = None ->
  (length (bars data) < period)%nat.
Proof.
  intros Hp. unfold _calculate_supertrend, empty.
  destruct (bars data) as [|b rest]; [cbn [length]; lia|].
  cbn [orb]. destruct (Nat.ltb_spec (length (b :: rest)) period) as [Hn | Hn];
    [intros _; exact Hn | discriminate].
Qed.

(** X8.  With a period of two bars or more, [_calculate_supertrend] gives
    no frame for fewer bars than the period, and otherwise a frame without
    band and line: the average true range of bar 0 is NaN, no comparison
    with NaN holds, and so every entry of the line and of the two bands is
    NaN and every signal is 'Sell'. *)
Theorem supertrend_frame_is_blank (data : TechnicalFrame) (period : nat)
  (multiplier : Q) :
  (2 <= period)%nat ->
  let n := length (bars data) in
  match _calculate_supertrend data period multiplier with
  | None => (n < period)%nat
  | Some frame =>
      (period <= n)%nat /\
      Supertrend frame = repeat NaN n /\
      Signal frame = repeat "Sell"%string n /\
      Upper_Band frame = repeat NaN n /\
      Lower_Band frame = repeat NaN n
  end.
Proof.
  intros Hp. cbv zeta.
  destruct (_calculate_supertrend data period multiplier) as [frame|] eqn:E.
  - exact (supertrend_frame_columns data period multiplier frame Hp E).
  - apply (supertrend_frame_none data period multiplier); [lia | exact E].
Qed.

Lemma iloc_last_repeat {A : Type} (x : A) (n : nat) :
  (0 < n)%nat -> iloc_last (repeat x n) = Some x.
Proof.
  unfold iloc_last. induction n as [|n IH]; [lia|]. intros _.
  destruct n as [|n]; [reflexivity|].
  change (List.last (map Some (repeat x (S (S n)))) None)
    with (List.last (map Some (repeat x (S n))) None).
  apply IH. lia.
Qed.

Lemma fltb_irrefl (x : pyfloat) : fltb x x = false.
Proof.
  destruct x as [q| | |]; try reflexivity. cbn [fltb]. unfold Qltb.
  apply Bool.negb_false_iff, Qle_bool_iff, Qle_refl.
Qed.

(** Sorting rows that all have the same key, NaN or not, moves none. *)
Lemma list_sort_same_key {A : Type} (key : A -> pyfloat) (k : pyfloat)
  (reverse : bool) (l : list A) :
  Forall (fun x => key x = k) l -> list_sort fltb key reverse l = l.
Proof.
  induction 1 as [|x l Hx Hl IH]; [reflexivity|].
  cbn [list_sort fold_right]. fold (list_sort fltb key reverse l). rewrite IH.
  destruct l as [|y l]; [reflexivity|].
  cbn [insert_sorted]. unfold stays_in_front.
  rewrite Hx, (Forall_inv Hl), fltb_irrefl. now destruct reverse.
Qed.

Lemma omap_none {A B : Type} (l : list A) :
  omap (fun _ : A => @None B) l = [].
Proof. induction l as [|a l IH]; [reflexivity | exact IH]. Qed.

Lemma supertrend_body_cases (signal_type symbol : string)
  (stock_data : StockData) :
  supertrend_body signal_type symbol stock_data
  = Returned (if String.eqb signal_type "sell"
              then sell_row (symbol, stock_data) else None).
Proof.
  unfold supertrend_body, sell_row. cbn [fst snd].
  unfold empty. destruct (bars (technical stock_data)) as [|b rest] eqn:Eb.
  { cbn. now destruct (String.eqb signal_type "sell"). }
  destruct (_calculate_supertrend (technical stock_data) 10 3) as [frame|]
    eqn:Hf.
  - apply supertrend_frame_columns in Hf; [|lia]. cbv zeta in Hf.
    rewrite Eb in Hf. destruct Hf as (Hn & Hs & Hsig & _).
    destruct (Nat.leb_spec 10 (length (b :: rest))) as [_ | Hlt]; [|lia].
    destruct (iloc_last_length (column Close (b :: rest))) as (c & Hc);
      [cbn; lia|].
    unfold iloc_m1. rewrite Hc, Hs, Hsig, !iloc_last_repeat by lia.
    cbn [obind fmap option_fmap option_map].
    change (String.eqb "Sell" "Buy") with false.
    change (String.eqb "Sell" "Sell") with true.
    rewrite andb_false_r, andb_true_r.
    destruct (String.eqb signal_type "sell"); [|reflexivity].
    unfold blank_sell_row. do 2 f_equal.
    destruct c; reflexivity.
  - apply supertrend_frame_none in Hf; [|lia]. rewrite Eb in Hf.
    destruct (Nat.leb_spec 10 (length (b :: rest))) as [Hge | _]; [lia|].
    now destruct (String.eqb signal_type "sell").
Qed.

Section WithProvider.

Variable env : Provider.

(** X9.  [supertrend_screen] never finds a buy signal: asked for anything
    but 'sell' (and 'buy' is the default) it returns no row; asked for
    'sell' it returns the first 15 fetched symbols that have ten bars, in
    the order of the universe, with NaN for the line, the distance and the
    score. *)
Theorem supertrend_screen_never_buys (signal_type : option string)
  (w : world) :
  exists w',
    supertrend_screen env signal_type w
    = (Returned (if String.eqb (default "buy"%string signal_type) "sell"
                 then firstn 15 (omap sell_row (fetched env w))
                 else []), w').
Proof.
  unfold supertrend_screen.
  destruct (loop_screen_run env
              (supertrend_body (default "buy"%string signal_type))
              (fun rows => firstn 15 (list_sort fltb s_score true rows)) w)
    as (o & w' & _ & Ho & ->).
  exists w'. f_equal. f_equal.
  rewrite (collect_ext _
             (fun symbol stock_data =>
                Returned (if String.eqb (default "buy"%string signal_type) "sell"
                          then sell_row (symbol, stock_data) else None)))
    in Ho by (intros; apply supertrend_body_cases).
  rewrite collect_rows in Ho. subst o.
  destruct (String.eqb (default "buy"%string signal_type) "sell").
  - rewrite (list_sort_same_key _ NaN).
    + reflexivity.
    + apply List.Forall_forall. intros row Hrow.
      apply In_omap in Hrow as ([s d] & Hrow & _). cbn [fst snd] in Hrow.
      unfold sell_row in Hrow. destruct (_ <=? _)%nat; [|discriminate].
      destruct (iloc_last _); [|discriminate]. now injection Hrow as <-.
  - now rewrite omap_none.
Qed.

Lemma loop_until_raise_continue {Row : Type}
  (body : string -> StockData -> step_result Row) (symbols : list string)
  (w : world) :
  (forall symbol stock_data, body symbol stock_data = Continue) ->
  exists w', loop_until_raise env body symbols w = (Returned (Some []), w').
Proof.
  intros Hb. revert w. induction symbols as [|symbol rest IH]; intros w.
  - now exists w.
  - cbn [loop_until_raise]. unfold bind at 1.
    destruct (get_stock_data_cached_returns env symbol w) as (r & w1 & ->).
    destruct r as [d|]; [rewrite Hb|]; apply IH.
Qed.

(** X10.  [quarterly_earnings_screen] returns no row, whatever the
    criteria and the market: it reads 'pe_ratio' at the top of the
    fundamental dictionary, where only the names of the sections are keys,
    so the ratio it tests is always the default 0. *)
Theorem quarterly_earnings_screen_empty (criteria : EarningsCriteria)
  (w : world) :
  exists w', quarterly_earnings_screen env criteria w = (Returned [], w').
Proof.
  unfold quarterly_earnings_screen, bind at 1, get_stock_universe.
  unfold bind.
  destruct (loop_until_raise_continue
              (earnings_body (default (Finite 10) (min_growth criteria))
                 (default (Finite 5) (e_min_revenue_growth criteria))
                 (default (Finite 25) (max_pe criteria)))
              (stock_universe w) w) as (w' & ->); [reflexivity|].
  now exists w'.
Qed.

End WithProvider.

(** The frame of twelve bars, with the period and the multiplier of
    [supertrend_screen]. *)
Lemma supertrend_frame_witness :
  (2 <= 10)%nat /\
  let data :=
    raw_frame (map demo_bar [100; 101; 102; 103; 104; 105; 106; 107; 108;
                             109; 110; 111]) in
  match _calculate_supertrend data 10 3 with
  | None => (length (bars data) < 10)%nat
  | Some frame =>
      (10 <= length (bars data))%nat /\
      Supertrend frame = repeat NaN (length (bars data)) /\
      Signal frame = repeat "Sell"%string (length (bars data)) /\
      Upper_Band frame = repeat NaN (length (bars data)) /\
      Lower_Band frame = repeat NaN (length (bars data))
  end.
Proof.
  split; [lia|].
  apply (supertrend_frame_is_blank
           (raw_frame (map demo_bar [100; 101; 102; 103; 104; 105; 106; 107;
                                     108; 109; 110; 111])) 10 3).
  lia.
Defined.

End SignalFacts.

(* ================================================================== *)
(** ** Breakouts and the market hours *)
(* ================================================================== *)

Module MarketFacts.

Import Indicators MarketData MarketScan Vocabulary Terms.
Import IndicatorFacts SortFacts OscillatorFacts SelectionFacts SignalFacts.

Lemma skipn_has_end {A : Type} (k : nat) (l : list A) (d : A) :
  (k < length l)%nat -> In (nth (length l - 1) l d) (skipn k l).
Proof.
  intros Hk.
  replace (nth (length l - 1) l d) with (nth (length l - 1 - k) (skipn k l) d).
  - apply nth_In. rewrite length_skipn. lia.
  - rewrite nth_skipn. f_equal. lia.
Qed.

(** The rows of [df.tail(n)]: none, or some that end with the last row. *)
Lemma df_tail_cases {A : Type} (n : Z) (l : list A) (d : A) :
  df_tail n l = [] \/ In (nth (length l - 1) l d) (df_tail n l).
Proof.
  unfold df_tail.
  assert (H : forall k, skipn k l = []
                        \/ In (nth (length l - 1) l d) (skipn k l)).
  { intros k. destruct (Nat.lt_ge_cases k (length l)) as [Hk | Hk].
    - right. now apply skipn_has_end.
    - left. now apply skipn_all2. }
  destruct (0 <=? n)%Z; apply H.
Qed.

Lemma column_iloc_end (f : Bar -> Q) (data : DataFrame) (d : Bar) :
  data <> [] ->
  iloc_end (column f data) = Finite (f (nth (length data - 1) data d)).
Proof.
  intros Hd. unfold iloc_end, iloc, column. rewrite length_map.
  rewrite (nth_indep _ NaN (Finite (f d)));
    [|rewrite length_map; destruct data; [congruence | cbn [length]; lia]].
  apply (map_nth (fun b => Finite (f b))).
Qed.

(** The close of the last bar is not above the high of a range that the
    bar is part of. *)
Lemma never_above_range (data : DataFrame) (days_range : Z) :
  Forall well_formed data ->
  fgtb (iloc_end (column Close data))
       (fmax (column High (df_tail days_range data))) = false.
Proof.
  intros Hw. destruct data as [|b0 rest] eqn:E.
  { change (iloc_end (column Close [])) with NaN. unfold fgtb.
    apply fltb_nan_r. }
  rewrite <- E in *.
  assert (Hd : data <> []) by (rewrite E; discriminate).
  rewrite (column_iloc_end _ _ b0 Hd). unfold fgtb.
  destruct (df_tail_cases days_range data b0) as [-> | Hin]; [reflexivity|].
  set (b := nth (length data - 1) data b0) in *.
  assert (Hb : well_formed b).
  { apply (proj1 (List.Forall_forall _ _) Hw). apply nth_In.
    destruct data; [congruence | cbn [length]; lia]. }
  assert (Hcol : column High (df_tail days_range data)
                 = map Finite (map High (df_tail days_range data)))
    by (unfold column; now rewrite map_map).
  rewrite Hcol.
  destruct (fmax_bound (map High (df_tail days_range data)) (High b))
    as (M & -> & HM); [now apply in_map|].
  cbn [fltb]. unfold Qltb. apply Bool.negb_false_iff, Qle_bool_iff.
  destruct Hb as [_ Hb]. lra.
Qed.

Section WithHistory.

Variable get_stock_data : string -> string -> DataFrame.

(** X11.  For bars whose close is not above their high,
    [detect_breakouts] never reports a breakout of a symbol, whatever the
    number of days: the range that the price is compared with contains the
    current bar, or is empty. *)
Theorem detect_breakouts_never_reports (symbol : string) (days_range : Z) :
  Forall well_formed (get_stock_data symbol "3mo") ->
  match detect_breakouts get_stock_data (Some symbol) days_range with
  | Report (Some report) =>
      get_stock_data symbol "3mo" <> [] /\
      rp_symbol report = symbol /\
      rp_days_in_range report = days_range /\
      rp_is_breakout report = false
  | Report None => get_stock_data symbol "3mo" = []
  | Breakouts _ => False
  end.
Proof.
  intros Hw. unfold detect_breakouts.
  pose proof (never_above_range _ days_range Hw) as Hn.
  destruct (get_stock_data symbol "3mo") as [|b rest]; [reflexivity|].
  cbn [rp_symbol rp_days_in_range rp_is_breakout].
  split; [discriminate|]. split; [reflexivity|]. split; [reflexivity|].
  exact Hn.
Qed.



End WithHistory.

(** X13.  [get_market_status] says that the market is open exactly on
    Monday to Friday from 09:15:00 to the end of the second 15:30:00,
    whatever the microsecond. *)
Theorem market_open_hours (now : datetime) :
  (minute now < 60)%nat -> (second now < 60)%nat ->
  is_open (get_market_status now) = true
  <-> (weekday now < 5)%Z /\ (33300 <= second_of_day now <= 55800)%Z.
Proof.
  intros Hm Hs. unfold get_market_status, datetime_le, replace_time,
    second_of_day.
  destruct now as [o h m s us].
  cbn [is_open ordinal hour minute second microsecond] in *.
  rewrite Z.eqb_refl, Nat.leb_refl. cbn [negb].
  rewrite !andb_true_iff, Z.ltb_lt.
  destruct (Nat.eqb_spec 9 h) as [H9 | H9];
    destruct (Nat.eqb_spec h 15) as [H15 | H15];
    destruct (Nat.eqb_spec 15 m) as [Hm15 | Hm15];
    destruct (Nat.eqb_spec m 30) as [Hm30 | Hm30];
    destruct (Nat.eqb_spec 0 s) as [Hs0 | Hs0];
    destruct (Nat.eqb_spec s 0) as [Hs0' | Hs0'];
    cbn [negb]; rewrite ?Nat.ltb_lt; try lia;
    (split; [intros (Hw & H1 & H2) | intros (Hw & H1 & H2)];
     repeat split; try assumption; try reflexivity; try lia;
     try discriminate).
Qed.

(** A history of three rising bars for every symbol. *)
Lemma detect_breakouts_witness :
  Forall well_formed (map demo_bar [100; 101; 102]) /\
  match detect_breakouts (fun _ _ => map demo_bar [100; 101; 102])
                         (Some "RELIANCE"%string) 7 with
  | Report (Some report) =>
      map demo_bar [100; 101; 102] <> [] /\
      rp_symbol report = "RELIANCE"%string /\
      rp_days_in_range report = 7%Z /\
      rp_is_breakout report = false
  | Report None => map demo_bar [100; 101; 102] = []
  | Breakouts _ => False
  end.
Proof.
  split.
  - repeat constructor; vm_compute; discriminate.
  - apply (detect_breakouts_never_reports
             (fun _ _ => map demo_bar [100; 101; 102]) "RELIANCE"%string 7).
    repeat constructor; vm_compute; discriminate.
Defined.


(** Wednesday 4 November 2026, 15:30:00 and 999 microseconds. *)
Lemma market_open_witness :
  (minute (mkDatetime 739924 15 30 0 999) < 60)%nat /\
  (second (mkDatetime 739924 15 30 0 999) < 60)%nat /\
  (is_open (get_market_status (mkDatetime 739924 15 30 0 999)) = true
   <-> (weekday (mkDatetime 739924 15 30 0 999) < 5)%Z /\
       (33300 <= second_of_day (mkDatetime 739924 15 30 0 999)
        <= 55800)%Z).
Proof.
  split; [cbn; lia|]. split; [cbn; lia|].
  apply (market_open_hours (mkDatetime 739924 15 30 0 999)); cbn; lia.
Defined.

End MarketFacts.

(* ================================================================== *)
(** ** The screens as functions of the market *)
(* ================================================================== *)

Module PipelineFacts.

Import Indicators MarketData Fundamentals Screener Vocabulary Screens Terms.
Import IndicatorFacts SortFacts ScreenerFacts CacheFacts OscillatorFacts.
Import ScoreFacts SelectionFacts SignalFacts.

(** [round(x, 2)] of a number from 0 to 100 is such a number. *)
Lemma round_half_even_within (x : Q) (a b : Z) :
  inject_Z a <= x <= inject_Z b -> (a <= round_half_even x <= b)%Z.
Proof.
  intros [Ha Hb]. unfold round_half_even.
  assert (Hfa : (a <= Qfloor x)%Z).
  { rewrite <- (Qfloor_Z a). now apply Qfloor_resp_le. }
  assert (Hfb : (Qfloor x <= b)%Z).
  { rewrite <- (Qfloor_Z b). now apply Qfloor_resp_le. }
  assert (Hup : 0 < x - inject_Z (Qfloor x) -> (Qfloor x + 1 <= b)%Z).
  { intros Hr. assert (H : inject_Z (Qfloor x) < inject_Z b) by lra.
    rewrite <- Zlt_Qlt in H. lia. }
  destruct (Qltb (x - inject_Z (Qfloor x)) (1 # 2)) eqn:E1; [lia|].
  apply SortFacts.Qltb_false_le in E1.
  assert (Hr : 0 < x - inject_Z (Qfloor x)) by lra.
  specialize (Hup Hr).
  destruct (Qltb (1 # 2) (x - inject_Z (Qfloor x))); [lia|].
  destruct (Z.even (Qfloor x)); lia.
Qed.

Lemma round_within (q : Q) :
  0 <= q <= 100 ->
  exists r, round (Finite q) 2 = Finite r /\ 0 <= r <= 100.
Proof.
  intros Hq. unfold round. eexists. split; [reflexivity|].
  change (inject_Z (10 ^ Z.of_nat 2)) with 100.
  assert (H : (0 <= round_half_even (q * 100) <= 10000)%Z).
  { apply round_half_even_within.
    change (inject_Z 0) with 0. change (inject_Z 10000) with 10000.
    split; lra. }
  destruct H as [H0 H1]. rewrite Zle_Qle in H0, H1.
  change (inject_Z 0) with 0 in H0. change (inject_Z 10000) with 10000 in H1.
  set (z := inject_Z (round_half_even _)) in *.
  split.
  - apply Qle_shift_div_l; [reflexivity | lra].
  - apply Qle_shift_div_r; [reflexivity | lra].
Qed.

Lemma rsi_score_within (a : Q) :
  0 <= a <= 100 -> 50 <= 100 + - Qabs (a + - 50) <= 100.
Proof.
  intros Ha. pose proof (Qabs_nonneg (a + - 50)) as H0.
  assert (H1 : Qabs (a + - 50) <= 50) by (apply Qabs_Qle_condition; lra).
  lra.
Qed.

Section WithProvider.

Variable env : Provider.


(** *** combined_screen *)

Lemma weighted_sum_bounds (a b wa wb : Q) :
  0 <= a <= 100 -> 0 <= b <= 100 -> 0 <= wa -> 0 <= wb ->
  0 <= a * wa + b * wb <= 100 * (wa + wb).
Proof. intros Ha Hb Hwa Hwb. split; nra. Qed.

(** X15.  With weights that are not negative, every combined score lies
    between 0 and 100 times the sum of the two weights: between 0 and 100
    with the default weights. *)
Theorem combined_score_bounds (fundamental_criteria : FundamentalCriteria)
  (technical_criteria : TechnicalCriteria) (weights : option (gmap string Q))
  (w : world) (w_fundamental w_technical : Q) :
  default default_weights weights !! "fundamental"%string
  = Some w_fundamental ->
  default default_weights weights !! "technical"%string = Some w_technical ->
  0 <= w_fundamental -> 0 <= w_technical ->
  exists rows w',
    combined_screen env fundamental_criteria technical_criteria weights w
    = (Returned rows, w') /\
    Forall (fun row =>
              0 <= combined_score row
              <= 100 * (w_fundamental + w_technical)) rows.
Proof.
  intros Hwf Hwt Hf0 Ht0.
  destruct (combined_screen_unfold env fundamental_criteria technical_criteria
              weights w)
    as (frows & w1 & trows & w2 & crows & Hf & Ht & Hc & Hrows).
  eexists _, w2. split; [exact Hc|].
  destruct Hrows as [Hrows | [-> _]]; [|constructor].
  apply combine_rows_spec in Hrows. destruct Hrows as [Hmap Hall].
  destruct (fundamental_screen_rows env fundamental_criteria w)
    as (frows' & w1' & Ef & _ & Hfs).
  rewrite Hf in Ef. injection Ef as <- <-.
  destruct (technical_screen_rows env technical_criteria w1)
    as (trows' & w2' & Et & Hts).
  rewrite Ht in Et. injection Et as <- <-.
  apply List.Forall_forall. intros row Hrow.
  apply (Permutation_in _ (list_sort_perm _ _ _ _)) in Hrow.
  destruct (proj1 (List.Forall_forall _ _) Hall row Hrow)
    as (Hlook & wf & wt & Hwf' & Hwt' & ->).
  rewrite Hwf in Hwf'. injection Hwf' as <-.
  rewrite Hwt in Hwt'. injection Hwt' as <-.
  apply weighted_sum_bounds; try assumption.
  - apply (proj1 (List.Forall_forall _ _) Hfs). rewrite <- Hmap.
    now apply in_map.
  - destruct (c_tech row) as [t|] eqn:Etech; cbn [tech_score_of]; [|lra].
    symmetry in Hlook. apply make_technical_lookup_sound in Hlook as [_ Hin].
    apply (proj1 (List.Forall_forall _ _) Hts t Hin).
Qed.

(** X16.  A weights dictionary that lacks one of its two keys is no error
    for the caller of [combined_screen]: the result is empty. *)
Theorem combined_screen_missing_weight
  (fundamental_criteria : FundamentalCriteria)
  (technical_criteria : TechnicalCriteria) (weights : gmap string Q)
  (w : world) :
  weights !! "fundamental"%string = None
  \/ weights !! "technical"%string = None ->
  exists w',
    combined_screen env fundamental_criteria technical_criteria (Some weights) w
    = (Returned [], w').
Proof.
  intros Hmissing.
  destruct (combined_screen_unfold env fundamental_criteria technical_criteria
              (Some weights) w)
    as (frows & w1 & trows & w2 & crows & _ & _ & Hc & Hrows).
  exists w2. rewrite Hc. f_equal. f_equal.
  destruct Hrows as [Hrows | [-> _]]; [|reflexivity].
  change (default default_weights (Some weights)) with weights in Hrows.
  destruct frows as [|fund_result rest].
  - injection Hrows as <-. reflexivity.
  - cbn [combine_rows] in Hrows. unfold getitem in Hrows.
    destruct Hmissing as [Hm | Hm].
    + rewrite Hm in Hrows. discriminate.
    + destruct (weights !! "fundamental"%string); [|discriminate].
      rewrite Hm in Hrows. discriminate.
Qed.

(** *** rsi_screen *)

Lemma collect_nothing {Row : Type}
  (body : string -> StockData -> outcome (option Row))
  (fetched : list (string * StockData)) (rows : list Row) :
  (forall symbol stock_data row,
      body symbol stock_data <> Returned (Some row)) ->
  collect body fetched = Returned rows -> rows = [].
Proof.
  intros Hb Hc. destruct rows as [|row rest]; [reflexivity|].
  destruct (collect_sound _ _ _ row Hc (or_introl eq_refl))
    as (s & d & _ & H).
  now apply Hb in H.
Qed.

(** X17.  A condition other than 'oversold', 'overbought' and 'range' is
    no error for the caller of [rsi_screen]: the result is empty. *)
Theorem rsi_screen_unknown_condition (criteria : RsiCriteria) (w : world) :
  let condition := default "oversold"%string (rsi_condition criteria) in
  condition <> "oversold"%string -> condition <> "overbought"%string ->
  condition <> "range"%string ->
  exists w', rsi_screen env criteria w = (Returned [], w').
Proof.
  cbv zeta. intros H1 H2 H3.
  apply String.eqb_neq in H1, H2, H3.
  unfold rsi_screen, try_except, bind, get_stock_universe, ret.
  destruct (for_each_symbol_cases env
              (rsi_body (default (Finite 30) (rsi_low criteria))
                        (default (Finite 70) (rsi_high criteria))
                        (default "oversold"%string (rsi_condition criteria)))
              (stock_universe w) w) as (o & w' & -> & ->).
  exists w'. destruct (collect _ _) as [rows | e] eqn:Hrows; [|reflexivity].
  rewrite H1, H2. apply collect_nothing in Hrows; [now subst rows|].
  intros s d row. unfold rsi_body. destruct (empty _); [discriminate|].
  destruct (RSI _) as [col|]; [|discriminate].
  destruct (iloc_m1 col); [|discriminate]. cbn [obind].
  destruct (iloc_m1 _); [|discriminate]. cbn [obind].
  rewrite H1, H2, H3. cbn [andb]. discriminate.
Qed.

(** *** get_sector_leaders *)

(** X18.  [get_sector_leaders] returns at most ten rows, all of the sector
    that was asked for and with a market capitalisation of a billion or
    more, the largest first. *)
Theorem sector_leaders_rows (sector : string) (w : world) :
  exists rows w',
    get_sector_leaders env sector w = (Returned rows, w') /\
    (length rows <= 10)%nat /\
    Forall (fun row =>
              f_sector row = sector /\
              fleb (Finite 1000000000) (f_market_cap row) = true) rows /\
    StronglySorted (fun a b => fleb (f_market_cap b) (f_market_cap a) = true)
                   rows.
Proof.
  unfold get_sector_leaders, bind, ret.
  destruct (fundamental_screen_rows env (sector_criteria sector) w)
    as (results & w' & -> & Hp & _).
  eexists _, w'. split; [reflexivity|].
  assert (Hrows : Forall (fun row =>
                            f_sector row = sector /\
                            fleb (Finite 1000000000) (f_market_cap row) = true)
                         results).
  { revert Hp. apply List.Forall_impl. intros row Hrow.
    destruct Hrow as (Hcap & _ & _ & _ & _ & _ & _ & _ & Hsec).
    cbn in Hsec, Hcap. split; [|exact Hcap].
    destruct Hsec as [Hsec | []]. now symmetry. }
  split; [rewrite length_firstn; lia|]. split.
  - apply List.Forall_forall. intros row Hrow.
    apply IndicatorFacts.In_firstn in Hrow.
    apply (Permutation_in _ (list_sort_perm _ _ _ _)) in Hrow.
    exact (proj1 (List.Forall_forall _ _) Hrows row Hrow).
  - apply firstn_sorted.
    apply (list_sort_in_order f_market_cap true).
    revert Hrows. apply List.Forall_impl. intros row [_ Hcap].
    unfold no_nan_key. destruct (f_market_cap row); try reflexivity.
    discriminate Hcap.
Qed.

(** *** The cache and the results *)

(** A screen that is a loop over the universe in a [try], run with a
    cache that holds what the provider gives: its result depends on the
    universe alone, and the cache stays as it should be. *)
Lemma loop_screen_pure {Row : Type}
  (body : string -> StockData -> outcome (option Row))
  (post : list Row -> list Row) (w : world) :
  cache_consistent env w ->
  exists w',
    try_except
      (universe <- get_stock_universe ;;
       screened_stocks <- for_each_symbol env body universe ;;
       ret (post screened_stocks))
      (ret []) w
    = (Returned (match collect body (available env (stock_universe w)) with
                 | Returned rows => post rows
                 | Raised _ => []
                 end), w') /\
    cache_consistent env w' /\ stock_universe w' = stock_universe w.
Proof.
  intros Hc.
  destruct (loop_screen_run env body post w) as (o & w' & Hloop & Ho & Hrun).
  exists w'. unfold fetched in Ho.
  rewrite fetch_all_available in Ho by exact Hc. subst o.
  split; [exact Hrun|].
  exact (for_each_symbol_consistent env _ _ _ _ _ Hc Hloop).
Qed.





(** *** The rows of rsi_screen *)

Lemma rsi_screen_rows_from (criteria : RsiCriteria) (w : world) :
  cache_consistent env w ->
  exists rows w',
    rsi_screen env criteria w = (Returned rows, w') /\
    forall row,
      In row rows ->
      exists symbol stock_data,
        In symbol (stock_universe w) /\
        fresh_data env symbol = Some stock_data /\
        rsi_body (default (Finite 30) (rsi_low criteria))
                 (default (Finite 70) (rsi_high criteria))
                 (default "oversold"%string (rsi_condition criteria))
                 symbol stock_data = Returned (Some row).
Proof.
  intros Hc.
  set (body := rsi_body (default (Finite 30) (rsi_low criteria))
                        (default (Finite 70) (rsi_high criteria))
                        (default "oversold"%string (rsi_condition criteria))).
  set (post := fun rows : list RsiRow =>
         firstn 20
           (if String.eqb (default "oversold"%string (rsi_condition criteria))
                          "oversold"
            then list_sort fltb r_rsi false rows
            else if String.eqb
                      (default "oversold"%string (rsi_condition criteria))
                      "overbought"
            then list_sort fltb r_rsi true rows
            else list_sort fltb r_score true rows)).
  destruct (loop_screen_pure body post w Hc) as (w' & E & _).
  eexists _, w'. split; [exact E|].
  destruct (collect body _) as [rows | e] eqn:Hrows; [|intros row []].
  intros row Hrow. unfold post in Hrow.
  apply IndicatorFacts.In_firstn in Hrow.
  assert (Hin : In row rows).
  { destruct (String.eqb _ "oversold");
      [|destruct (String.eqb _ "overbought")];
      exact (Permutation_in _ (list_sort_perm _ _ _ _) Hrow). }
  destruct (collect_sound _ _ _ _ Hrows Hin) as (s & d & Hav & Hb).
  apply In_available in Hav as [Hu Hd]. eauto.
Qed.

(** X19.  With a cache in which every entry is what a fetch of its symbol
    gives, every row of [rsi_screen] carries a symbol of the universe and
    the condition that was asked for, and its RSI (rounded to two digits)
    lies between 0 and 100 and its score between 50 and 100. *)
Theorem rsi_screen_rows (criteria : RsiCriteria) (w : world) :
  cache_consistent env w ->
  exists rows w',
    rsi_screen env criteria w = (Returned rows, w') /\
    Forall (fun row =>
              In (r_symbol row) (stock_universe w) /\
              r_signal row
              = default "oversold"%string (rsi_condition criteria) /\
              (exists rsi, r_rsi row = Finite rsi /\ 0 <= rsi <= 100) /\
              (exists score, r_score row = Finite score
                             /\ 50 <= score <= 100))
           rows.
Proof.
  intros Hc.
  destruct (rsi_screen_rows_from criteria w Hc) as (rows & w' & E & Hrows).
  exists rows, w'. split; [exact E|].
  apply List.Forall_forall. intros row Hrow.
  destruct (Hrows row Hrow) as (s & d & Hu & Hd & Hb).
  destruct (fresh_data_frame env s d Hd) as (data & Hne & Ht).
  unfold rsi_body in Hb. rewrite Ht in Hb.
  rewrite technical_indicators_rsi in Hb.
  destruct (empty _); [discriminate|].
  unfold iloc_m1 at 1 in Hb.
  rewrite iloc_last_nth in Hb
    by (intros E0; apply (f_equal (@length _)) in E0;
        rewrite length_rsi in E0; unfold column in E0;
        rewrite length_map in E0; destruct data; [congruence | discriminate]).
  cbn [obind] in Hb.
  set (x := iloc (rsi (column Close data) 14)
                 (length (rsi (column Close data) 14) - 1)) in *.
  assert (Hx : nan_or_within 0 100 x).
  { apply (proj1 (List.Forall_forall _ _)
                 (rsi_within (map Close data) 14)).
    unfold x, iloc, column. rewrite <- (map_map Close Finite).
    apply nth_In. rewrite length_rsi, !length_map.
    destruct data; [congruence | cbn [length]; lia]. }
  destruct (iloc_m1 _) as [price | e]; [|discriminate]. cbn [obind] in Hb.
  destruct Hx as [Hx | (a & Hx & Ha)]; rewrite Hx in Hb.
  { exfalso. revert Hb. unfold fgeb.
    destruct (default (Finite 30) (rsi_low criteria)),
      (default (Finite 70) (rsi_high criteria)); cbn [fleb andb];
      rewrite ?andb_false_r; discriminate. }
  match type of Hb with
  | (if ?c then _ else _) = _ => destruct c; [|discriminate]
  end.
  injection Hb as <-. cbn [r_symbol r_signal r_rsi r_score].
  split; [exact Hu|]. split; [reflexivity|]. split.
  - apply round_within, Ha.
  - eexists. split; [reflexivity|]. apply rsi_score_within, Ha.
Qed.




End WithProvider.

(** The combined screen of the small market with the default weights. *)
Lemma combined_score_bounds_witness :
  default default_weights None !! "fundamental"%string = Some (6 # 10) /\
  default default_weights None !! "technical"%string = Some (4 # 10) /\
  0 <= 6 # 10 /\ 0 <= 4 # 10 /\
  exists rows w',
    combined_screen demo no_fundamental_criteria no_technical_criteria None init
    = (Returned rows, w') /\
    Forall (fun row =>
              0 <= combined_score row <= 100 * ((6 # 10) + (4 # 10))) rows.
Proof.
  split; [vm_compute; reflexivity|]. split; [vm_compute; reflexivity|].
  split; [vm_compute; discriminate|]. split; [vm_compute; discriminate|].
  apply (combined_score_bounds demo no_fundamental_criteria
           no_technical_criteria None init (6 # 10) (4 # 10)).
  - vm_compute; reflexivity.
  - vm_compute; reflexivity.
  - vm_compute; discriminate.
  - vm_compute; discriminate.
Defined.

(** The combined screen of the small market with an empty weights
    dictionary. *)
Lemma combined_screen_missing_weight_witness :
  ((∅ : gmap string Q) !! "fundamental"%string = None
   \/ (∅ : gmap string Q) !! "technical"%string = None) /\
  exists w',
    combined_screen demo no_fundamental_criteria no_technical_criteria
                    (Some ∅) init
    = (Returned [], w').
Proof.
  split; [left; reflexivity|].
  apply (combined_screen_missing_weight demo no_fundamental_criteria
           no_technical_criteria ∅ init).
  left. reflexivity.
Defined.

(** The RSI screen of the falling market with the condition 'neutral'. *)
Lemma rsi_screen_unknown_condition_witness :
  let criteria := mkRsiCriteria None None (Some "neutral"%string) in
  default "oversold"%string (rsi_condition criteria) <> "oversold"%string /\
  default "oversold"%string (rsi_condition criteria) <> "overbought"%string /\
  default "oversold"%string (rsi_condition criteria) <> "range"%string /\
  exists w', rsi_screen falling criteria init = (Returned [], w').
Proof.
  cbv zeta.
  split; [discriminate|]. split; [discriminate|]. split; [discriminate|].
  apply (rsi_screen_unknown_condition falling
           (mkRsiCriteria None None (Some "neutral"%string)) init);
    discriminate.
Defined.



(** The RSI screen of the sliding market, from the empty cache. *)
Lemma rsi_screen_rows_witness :
  cache_consistent sliding init /\
  exists rows w',
    rsi_screen sliding no_rsi_criteria init = (Returned rows, w') /\
    Forall (fun row =>
              In (r_symbol row) (stock_universe init) /\
              r_signal row
              = default "oversold"%string (rsi_condition no_rsi_criteria) /\
              (exists rsi, r_rsi row = Finite rsi /\ 0 <= rsi <= 100) /\
              (exists score, r_score row = Finite score
                             /\ 50 <= score <= 100))
           rows.
Proof.
  split; [apply init_consistent|].
  apply (rsi_screen_rows sliding no_rsi_criteria init).
  apply init_consistent.
Defined.

End PipelineFacts.
